(** * Career Compass: the client-side request and session layer

    A shallow embedding of the TypeScript services and controllers
    ([BaseApiService], [AuthService], [SignupForm], [BaseController],
    [AppController]) and the properties of them that the specification
    states.

    Conventions of the embedding:
    - JavaScript numbers that hold times, delays and status codes are [Z];
    - strings are [string] (their UTF-8 bytes); JavaScript objects used as
      string-keyed maps (headers, [localStorage]) are [gmap string string],
      and an absent property of an options object is [None];
    - an [async] function is a state transformer over a [World] that holds
      [localStorage], the behaviour of the network and the log of observable
      effects; it ends in a [Completion]: a returned value or a thrown one;
    - a timer set for [n] milliseconds is due [n] milliseconds after the
      call, and the network says after how many milliseconds a [fetch]
      settles, so a race is decided by comparing the two;
    - the body of a response is read through the types the code declares
      for it ([ApiResponse<T>]), except that it may also be [null]. *)

From Stdlib Require Import ZArith Lia Ascii String.
From stdpp Require Import gmap strings list pretty.

Local Open Scope string_scope.
Local Open Scope list_scope.
Local Open Scope Z_scope.
Local Set Warnings "-register-all".

(** ** The JavaScript runtime *)

(** Values that can be written as JSON text. *)
Inductive Json : Type :=
| JNull
| JBool (b : bool)
| JNum (n : Z)
| JStr (s : string)
| JArr (items : list Json)
| JObj (fields : list (string * Json)).

(** [Record<string, string[]>], the field-level validation messages. *)
Definition FieldErrors : Type := list (string * list string).

(** What a [throw] or a rejected promise carries.  [ApiError] extends
    [Error]; [ThrownError] is any other instance of [Error]; [ThrownValue]
    is a value that is not an [Error] ([None] is [undefined]). *)
Inductive Thrown : Type :=
| ApiError (message : string) (status : Z) (errors : option FieldErrors)
| ThrownError (name message : string)
| ThrownValue (v : option Json).

(** [error instanceof ApiError] *)
Definition instanceofApiError (error : Thrown) : bool :=
  match error with
  | ApiError _ _ _ => true
  | _ => false
  end.

(** [error instanceof Error] *)
Definition instanceofError (error : Thrown) : bool :=
  match error with
  | ApiError _ _ _ | ThrownError _ _ => true
  | ThrownValue _ => false
  end.

(** [error.message] of an instance of [Error]. *)
Definition errorMessage (error : Thrown) : string :=
  match error with
  | ApiError m _ _ | ThrownError _ m => m
  | ThrownValue _ => ""
  end.

(** How a call ends. *)
Inductive Completion (A : Type) : Type :=
| Returns (a : A)
| Throws (error : Thrown).
Arguments Returns {A} a.
Arguments Throws {A} error.

(** Truthiness of a string ([""] is falsy) and of [string | null | undefined]. *)
Definition truthyString (s : string) : bool := negb (String.eqb s "").

Definition truthy (v : option string) : bool :=
  match v with
  | Some s => truthyString s
  | None => false
  end.

(** [a || b] where [a] is [string | undefined] and [b] a string. *)
Definition orElse (a : option string) (b : string) : string :=
  match a with
  | Some s => if truthyString s then s else b
  | None => b
  end.

(** [String.prototype.startsWith]: [startsWith s p] is [s.startsWith(p)]. *)
Fixpoint startsWith (s p : string) {struct p} : bool :=
  match p, s with
  | EmptyString, _ => true
  | String c p', String d s' => if Ascii.eqb c d then startsWith s' p' else false
  | String _ _, EmptyString => false
  end.

(** The message of the [TypeError] raised by reading property [prop] of
    [null] (the text is the engine's; V8's is used). *)
Definition nullReadMessage (prop : string) : string :=
  "Cannot read properties of null (reading '" +:+ prop +:+ "')".

(** ** AppController: route protection and session activity *)

Definition protectedRoutes : list string :=
  ["/upload"; "/results"; "/history"; "/profile"; "/settings"].

(** [isProtectedRoute(path)]:
    [protectedRoutes.some(route => path.startsWith(route))]. *)
Definition isProtectedRoute (path : string) : bool :=
  existsb (fun route => startsWith path route) protectedRoutes.

(** [isSessionActive(maxInactiveMinutes = 30)].  [now] and [lastActivity]
    are the [getTime()] values of [new Date()] and of
    [appState.lastActivity], in milliseconds. *)
Definition isSessionActive (maxInactiveMinutes : option Z)
    (now lastActivity : Z) : bool :=
  let maxInactiveMinutes := default 30 maxInactiveMinutes in
  let inactiveTime := now - lastActivity in
  let maxInactiveTime := maxInactiveMinutes * 60 * 1000 in
  inactiveTime <? maxInactiveTime.

(** ** BaseController: the retry helper *)

(** What a run of [createRetryOperation] does that can be observed from
    outside: it invokes the operation and it waits on [setTimeout]. *)
Inductive RetryEvent : Type :=
| Invoked
| Waited (ms : Z).

Section Retry.
Context {St T : Type}.

(** An operation [() => Promise<T>]: it may read and change a state of
    its own, and its promise is fulfilled or rejected. *)
Definition Operation : Type := St -> Completion T * St.

(** The result of a run: how it ended ([None] only if the loop was cut
    short by the fuel, which [createRetryOperation_total] excludes), the
    operation's state and the trace of events, oldest first. *)
Record RetryRun : Type := {
  outcome : option (Completion T);
  finalState : St;
  trace : list RetryEvent;
}.

(** The [for (let attempt = 1; attempt <= maxRetries; attempt++)] loop,
    entered at [attempt] with the current [lastError]. *)
Fixpoint retryLoop (operation : Operation) (maxRetries delay : Z)
    (fuel : nat) (attempt : Z) (lastError : Thrown) (s : St)
    (tr : list RetryEvent) : RetryRun :=
  if attempt <=? maxRetries then
    match fuel with
    | O => {| outcome := None; finalState := s; trace := tr |}
    | S fuel' =>
        let '(r, s') := operation s in
        let tr := tr ++ [Invoked] in
        match r with
        | Returns v =>
            {| outcome := Some (Returns v); finalState := s'; trace := tr |}
        | Throws error =>
            let lastError :=
              if instanceofError error then error
              else ThrownError "Error" "Unknown error" in
            if attempt =? maxRetries then
              {| outcome := Some (Throws lastError); finalState := s';
                 trace := tr |}
            else
              retryLoop operation maxRetries delay fuel' (attempt + 1)
                lastError s' (tr ++ [Waited (delay * attempt)])
        end
    end
  else
    (* [throw lastError!] after the loop *)
    {| outcome := Some (Throws lastError); finalState := s; trace := tr |}.

(** [createRetryOperation(operation, maxRetries = 3, delay = 1000)].
    [lastError] is declared without a value, so it starts as
    [undefined]. *)
Definition createRetryOperation (operation : Operation)
    (maxRetries delay : option Z) (s : St) : RetryRun :=
  let maxRetries := default 3 maxRetries in
  let delay := default 1000 delay in
  retryLoop operation maxRetries delay (Z.to_nat maxRetries) 1
    (ThrownValue None) s [].

End Retry.

(** The number of times the operation was invoked in a trace. *)
Definition invocations (tr : list RetryEvent) : nat :=
  length (List.filter (fun e => match e with Invoked => true | _ => false end) tr).

(** ** The world of a service call *)

(** [JSON.stringify] and [JSON.parse] are the platform's.  The embedding
    takes them as they are and relies on two facts only: the text of an
    object is never empty, and it parses back to an object.  [JSON_parse]
    is [None] where [JSON.parse] throws a [SyntaxError]. *)
Class JsonRuntime : Type := {
  JSON_stringify : Json -> string;
  JSON_parse : string -> option Json;
  stringify_object_nonempty :
    forall fields, JSON_stringify (JObj fields) <> "";
  parse_stringify_object :
    forall fields, exists fields',
      JSON_parse (JSON_stringify (JObj fields)) = Some (JObj fields');
}.

(** Truthiness of a parsed JSON value. *)
Definition truthyJson (j : Json) : bool :=
  match j with
  | JNull => false
  | JBool b => b
  | JNum n => negb (n =? 0)
  | JStr s => truthyString s
  | JArr _ | JObj _ => true
  end.

Inductive Method : Type := GET | POST | PUT | PATCH | DELETE.

Definition Method_eqb (a b : Method) : bool :=
  match a, b with
  | GET, GET | POST, POST | PUT, PUT | PATCH, PATCH | DELETE, DELETE => true
  | _, _ => false
  end.

(** A request body as the caller passes it ([body?: any]): a [FormData]
    with its entries, or a value that [JSON.stringify] can write. *)
Inductive BodyValue : Type :=
| BodyFormData (entries : list (string * string))
| BodyJson (j : Json).

Definition truthyBody (body : option BodyValue) : bool :=
  match body with
  | Some (BodyFormData _) => true
  | Some (BodyJson j) => truthyJson j
  | None => false
  end.

(** [RequestOptions].  An absent property is [None]. *)
Record RequestOptions : Type := {
  method : option Method;
  headers : option (gmap string string);
  body : option BodyValue;
  params : option (list (string * option string));
  requireAuth : option bool;
  timeout : option Z;
}.

(** [{}] *)
Definition noOptions : RequestOptions :=
  {| method := None; headers := None; body := None; params := None;
     requireAuth := None; timeout := None |}.

(** The body handed to [fetch]. *)
Inductive SentBody : Type :=
| SentFormData (entries : list (string * string))
| SentText (text : string).

(** The [RequestInit] handed to [fetch].  [init_requireAuth] is the
    [requireAuth] property that the spread of [restOptions] copies into it
    ([fetch] ignores it). *)
Record RequestInit : Type := {
  init_method : Method;
  init_headers : gmap string string;
  init_body : option SentBody;
  init_requireAuth : option bool;
}.

(** [meta] of an envelope. *)
Record PageMeta : Type := {
  page : option Z;
  limit : option Z;
  total : option Z;
  totalPages : option Z;
}.

(** [ApiResponse<T>], the envelope. *)
Record ApiResponse (T : Type) : Type := {
  success : bool;
  data : option T;
  message : option string;
  errors : option FieldErrors;
  meta : option PageMeta;
}.
Arguments success {T} _.
Arguments data {T} _.
Arguments message {T} _.
Arguments errors {T} _.
Arguments meta {T} _.

(** What [response.json()] resolves to.  It is typed [any]; the one value
    on which a property read throws is [null], every other value is read
    through the declared envelope type. *)
Inductive Parsed (T : Type) : Type :=
| ParsedNull
| ParsedEnvelope (envelope : ApiResponse T).
Arguments ParsedNull {T}.
Arguments ParsedEnvelope {T} envelope.

(** A [Response]: [json] is [None] when [response.json()] rejects. *)
Record Response (T : Type) : Type := {
  status : Z;
  statusText : string;
  json : option (Parsed T);
}.
Arguments status {T} _.
Arguments statusText {T} _.
Arguments json {T} _.

(** [response.ok]: the status is in the range 200-299. *)
Definition ok {T} (response : Response T) : bool :=
  (200 <=? status response) && (status response <=? 299).

(** How the promise of a [fetch] call behaves: it is fulfilled or rejected
    [ms] milliseconds after the call, or it stays pending. *)
Inductive FetchBehaviour (T : Type) : Type :=
| FetchResolves (ms : Z) (response : Response T)
| FetchRejects (ms : Z) (error : Thrown)
| FetchPending.
Arguments FetchResolves {T} ms response.
Arguments FetchRejects {T} ms error.
Arguments FetchPending {T}.

(** Effects that are observable from outside, oldest first in a log. *)
Inductive Event : Type :=
| EvSetTimeout (ms : Z)
| EvFetch (url : string) (init : RequestInit)
| EvConsoleError (label : string) (error : Thrown).

(** The world: [localStorage], the network (how the [fetch] of a given
    request behaves), which of the two promises of a race is settled first
    when both are due in the same millisecond, and the log. *)
Record World (T : Type) : Type := {
  localStorage : gmap string string;
  network : string -> RequestInit -> FetchBehaviour T;
  timerWinsTies : bool;
  events : list Event;
}.
Arguments localStorage {T} _.
Arguments network {T} _ _ _.
Arguments timerWinsTies {T} _.
Arguments events {T} _.

(** An [async] function returning [A]. *)
Definition M (T A : Type) : Type := World T -> Completion A * World T.

#[global] Instance M_ret {T} : MRet (M T) :=
  fun A (a : A) w => (Returns a, w).

#[global] Instance M_bind {T} : MBind (M T) :=
  fun A B (f : A -> M T B) (m : M T A) w =>
    match m w with
    | (Returns a, w') => f a w'
    | (Throws error, w') => (Throws error, w')
    end.

Definition throw {T A} (error : Thrown) : M T A :=
  fun w => (Throws error, w).

(** [try { body } catch (error) { handler }] *)
Definition tryCatch {T A} (body : M T A) (handler : Thrown -> M T A) : M T A :=
  fun w =>
    match body w with
    | (Returns a, w') => (Returns a, w')
    | (Throws error, w') => handler error w'
    end.

(** [try { body } finally { cleanup }] where [cleanup] has no [return]. *)
Definition tryFinally {T A} (body : M T A) (cleanup : M T unit) : M T A :=
  fun w =>
    let '(r, w') := body w in
    match cleanup w' with
    | (Returns _, w'') => (r, w'')
    | (Throws error, w'') => (Throws error, w'')
    end.

(** The world with more events in its log, and with another [localStorage]. *)
Definition logged {T} (w : World T) (evs : list Event) : World T :=
  {| localStorage := localStorage w; network := network w;
     timerWinsTies := timerWinsTies w; events := events w ++ evs |}.

Definition stored {T} (w : World T) (storage : gmap string string) : World T :=
  {| localStorage := storage; network := network w;
     timerWinsTies := timerWinsTies w; events := events w |}.

Definition emit {T} (e : Event) : M T unit :=
  fun w => (Returns tt, logged w [e]).

(** [localStorage.getItem], [setItem] and [removeItem]. *)
Definition getItem {T} (key : string) : M T (option string) :=
  fun w => (Returns (localStorage w !! key), w).

Definition setItem {T} (key value : string) : M T unit :=
  fun w => (Returns tt, stored w (<[key := value]> (localStorage w))).

Definition removeItem {T} (key : string) : M T unit :=
  fun w => (Returns tt, stored w (delete key (localStorage w))).

(** [console.error(label, error)] *)
Definition consoleError {T} (label : string) (error : Thrown) : M T unit :=
  emit (EvConsoleError label error).

(** Run a pure reader of [localStorage], or a pure step that may throw. *)
Definition reads {T A} (f : gmap string string -> A) : M T A :=
  fun w => (Returns (f (localStorage w)), w).

Definition settle {T A} (c : Completion A) : M T A :=
  fun w => (c, w).

(** ** AuthService: the persisted keys and their readers *)

Definition TOKEN_KEY : string := "career_compass_token".
Definition USER_KEY : string := "career_compass_user".
Definition REFRESH_TOKEN_KEY : string := "career_compass_refresh_token".

(** [getToken()] and [getRefreshToken()] on a given [localStorage]. *)
Definition getToken (storage : gmap string string) : option string :=
  storage !! TOKEN_KEY.

Definition getRefreshToken (storage : gmap string string) : option string :=
  storage !! REFRESH_TOKEN_KEY.

(** [getAuthHeaders()]:
    [token ? { 'Authorization': `Bearer ${token}` } : {}]. *)
Definition getAuthHeaders (storage : gmap string string) : gmap string string :=
  let token := getToken storage in
  if truthy token then {[ "Authorization" := "Bearer " +:+ default "" token ]}
  else ∅.

(** ** BaseApiService *)

(** [encodeURIComponent], on the UTF-8 bytes of the string: the unreserved
    characters stay, every other byte becomes [%XX]. *)
Definition unreservedChar (c : ascii) : bool :=
  let n := Z.of_N (Ascii.N_of_ascii c) in
  ((65 <=? n) && (n <=? 90)) || ((97 <=? n) && (n <=? 122))
  || ((48 <=? n) && (n <=? 57))
  || existsb (Ascii.eqb c) (list_ascii_of_string "-_.!~*'()").

Definition hexDigit (n : N) : ascii :=
  Ascii.ascii_of_N (if (n <? 10)%N then 48 + n else 55 + n)%N.

Definition percentEncode (c : ascii) : string :=
  let n := Ascii.N_of_ascii c in
  String "%"%char (String (hexDigit (n / 16)%N) (String (hexDigit (n mod 16)%N) "")).

Fixpoint encodeURIComponent (s : string) : string :=
  match s with
  | EmptyString => ""
  | String c s' =>
      (if unreservedChar c then String c "" else percentEncode c)
      +:+ encodeURIComponent s'
  end.

Definition defaultTimeout : Z := 30000.

Definition defaultHeaders : gmap string string :=
  <["Content-Type" := "application/json"]>
    (<["Accept" := "application/json"]> ∅).

(** [prepareHeaders(options)].  An object spread lets the later source win,
    and so does [Object.assign]; the union of [gmap] is left-biased, so the
    later source stands on the left. *)
Definition prepareHeaders (options : RequestOptions)
    (storage : gmap string string) : gmap string string :=
  let headers_ := default ∅ (headers options) ∪ defaultHeaders in
  if negb (bool_decide (requireAuth options = Some false)) then
    let authHeaders := getAuthHeaders storage in
    authHeaders ∪ headers_
  else headers_.

(** [new ApiError('Request timeout', 408)] *)
Definition timeoutError : Thrown := ApiError "Request timeout" 408 None.

Section BaseApiService.
Context `{JsonRuntime} (baseUrl : string) {T : Type}.

(** [buildUrl(endpoint, params)] *)
Definition buildUrl (endpoint : string)
    (params_ : option (list (string * option string))) : string :=
  let url := baseUrl +:+ (if startsWith endpoint "/" then "" else "/")
             +:+ endpoint in
  match params_ with
  | None | Some [] => url
  | Some entries =>
      let queryString :=
        String.concat "&"
          (map (fun '(key, value) =>
                  encodeURIComponent key +:+ "=" +:+ encodeURIComponent value)
             (omap (fun '(key, value) => pair key <$> value) entries)) in
      if truthyString queryString then url +:+ "?" +:+ queryString else url
  end.

(** [processResponse(response)] *)
Definition processResponse (response : Response T) : Completion (Parsed T) :=
  let responseData :=
    match json response with
    | Some parsed => parsed
    | None =>
        ParsedEnvelope
          {| success := false;
             message := Some "Invalid response format from server";
             data := None; errors := None; meta := None |}
    end in
  if negb (ok response) then
    match responseData with
    | ParsedNull => Throws (ThrownError "TypeError" (nullReadMessage "message"))
    | ParsedEnvelope envelope =>
        Throws
          (ApiError
             (orElse (message envelope)
                ("HTTP " +:+ pretty (status response) +:+ ": "
                 +:+ statusText response))
             (status response) (errors envelope))
    end
  else Returns responseData.

(** [Promise.race([fetch(url, requestConfig), timeoutPromise])]: the
    timer is due [timeout] milliseconds after the call; the promise that
    is settled first decides. *)
Definition race (timeout_ : Z) (timerFirstOnTie : bool)
    (b : FetchBehaviour T) : Completion (Response T) :=
  let fetchFirst ms :=
    (ms <? timeout_) || ((ms =? timeout_) && negb timerFirstOnTie) in
  match b with
  | FetchResolves ms response =>
      if fetchFirst ms then Returns response else Throws timeoutError
  | FetchRejects ms error =>
      if fetchFirst ms then Throws error else Throws timeoutError
  | FetchPending => Throws timeoutError
  end.

Definition awaitRace (url : string) (requestConfig : RequestInit)
    (timeout_ : Z) : M T (Response T) :=
  fun w => (race timeout_ (timerWinsTies w) (network w url requestConfig), w).

(** The timer is set first, then [fetch] is called, then the race is
    awaited. *)
Definition fetchWithTimeout (url : string) (requestConfig : RequestInit)
    (timeout_ : Z) : M T (Response T) :=
  emit (EvSetTimeout timeout_);;
  emit (EvFetch url requestConfig);;
  awaitRace url requestConfig timeout_.

(** The block "Add body for non-GET requests" of [request]: what it makes
    of the prepared headers object and the body it puts in the
    configuration. *)
Definition attachBody (method_ : Method) (body_ : option BodyValue)
    (prepared : gmap string string)
    : gmap string string * option SentBody :=
  if truthyBody body_ && negb (Method_eqb method_ GET) then
    match body_ with
    | Some (BodyFormData entries) =>
        (* [delete headers['Content-Type']] *)
        (delete "Content-Type" prepared, Some (SentFormData entries))
    | Some (BodyJson j) => (prepared, Some (SentText (JSON_stringify j)))
    | None => (prepared, None)
    end
  else (prepared, None).

(** The [catch] block of [request]: what it throws for what it caught. *)
Definition asApiError (error : Thrown) : Thrown :=
  if instanceofApiError error then error
  else
    ApiError
      (if instanceofError error then errorMessage error
       else "Network request failed")
      0 None.

(** [request(endpoint, options)].

    [restOptions] holds what the destructuring leaves of [options]: its
    [headers] and [requireAuth] properties, when present.  In
    [{ method, headers, ...restOptions }] the spread comes last, so a
    [headers] property of [restOptions] replaces the prepared object in
    [requestConfig]; otherwise [requestConfig.headers] IS the prepared
    object, and the [delete] of [attachBody] is seen through it. *)
Definition request (endpoint : string) (options : RequestOptions)
    : M T (Parsed T) :=
  let method_ := default GET (method options) in
  let body_ := body options in
  let timeout_ := default defaultTimeout (timeout options) in
  let restHeaders := headers options in
  let restRequireAuth := requireAuth options in
  let url := buildUrl endpoint (params options) in
  prepared ← reads (prepareHeaders options);
  let '(prepared, sent) := attachBody method_ body_ prepared in
  let requestConfig :=
    {| init_method := method_;
       init_headers :=
         match restHeaders with
         | Some callerHeaders => callerHeaders
         | None => prepared
         end;
       init_body := sent;
       init_requireAuth := restRequireAuth |} in
  tryCatch
    (response ← fetchWithTimeout url requestConfig timeout_;
     settle (processResponse response))
    (fun error => throw (asApiError error)).

(** [get(endpoint, params, options)] and [post(endpoint, data, options)]:
    [{ ...options, method, params }] and [{ ...options, method, body }]. *)
Definition get (endpoint : string)
    (params_ : option (list (string * option string)))
    (options : RequestOptions) : M T (Parsed T) :=
  request endpoint
    {| method := Some GET; params := params_; headers := headers options;
       body := body options; requireAuth := requireAuth options;
       timeout := timeout options |}.

Definition post (endpoint : string) (data_ : option BodyValue)
    (options : RequestOptions) : M T (Parsed T) :=
  request endpoint
    {| method := Some POST; body := data_; headers := headers options;
       params := params options; requireAuth := requireAuth options;
       timeout := timeout options |}.

(** The property reads [response.success], [response.data], ... of a
    resolved [request]: reading a property of [null] throws. *)
Definition envelopeOf (response : Parsed T) (prop : string)
    : M T (ApiResponse T) :=
  match response with
  | ParsedNull => throw (ThrownError "TypeError" (nullReadMessage prop))
  | ParsedEnvelope envelope => mret envelope
  end.
End BaseApiService.

(** ** AuthService *)

Record User : Type := {
  id : string;
  email : string;
  firstName : string;
  lastName : string;
  createdAt : string;
  lastLogin : option string;
}.

(** The object behind a [User], properties in the order of the interface. *)
Definition userJson (u : User) : Json :=
  JObj
    ([("id", JStr (id u)); ("email", JStr (email u));
      ("firstName", JStr (firstName u)); ("lastName", JStr (lastName u));
      ("createdAt", JStr (createdAt u))]
     ++ match lastLogin u with
        | Some t => [("lastLogin", JStr t)]
        | None => []
        end).

Record LoginCredentials : Type := {
  login_email : string;
  login_password : string;
}.

Definition loginCredentialsFields (c : LoginCredentials)
    : list (string * Json) :=
  [("email", JStr (login_email c)); ("password", JStr (login_password c))].

(** [SignupCredentials extends LoginCredentials]. *)
Record SignupCredentials : Type := {
  signup_email : string;
  signup_password : string;
  signup_firstName : string;
  signup_lastName : string;
  confirmPassword : string;
}.

Definition signupCredentialsFields (c : SignupCredentials)
    : list (string * Json) :=
  [("email", JStr (signup_email c)); ("password", JStr (signup_password c));
   ("firstName", JStr (signup_firstName c));
   ("lastName", JStr (signup_lastName c));
   ("confirmPassword", JStr (confirmPassword c))].

(** The rest of an object destructuring, [const { k1, ..., ...rest } = o]:
    the properties of [o] other than the named ones, in their order. *)
Definition objectRest (named : list string) (fields : list (string * Json))
    : list (string * Json) :=
  List.filter (fun '(key, _) => negb (existsb (String.eqb key) named)) fields.

(** [AuthResponse]; the fields carry a prefix to keep them apart from the
    envelope's. *)
Record AuthResponse : Type := {
  auth_success : bool;
  auth_user : option User;
  auth_token : option string;
  auth_message : option string;
  auth_errors : option FieldErrors;
}.

(** The payload of [/auth/login] and [/auth/signup]. *)
Record LoginData : Type := {
  user : User;
  token : string;
  refreshToken : option string;
}.

(** The payload of [/auth/refresh]. *)
Record RefreshData : Type := {
  new_token : string;
  new_refreshToken : option string;
}.

(** The result of [refreshAuthToken]. *)
Record RefreshResult : Type := {
  refresh_success : bool;
  refresh_token : option string;
}.

(** [{ requireAuth: false }] *)
Definition withoutAuth : RequestOptions :=
  {| method := None; headers := None; body := None; params := None;
     requireAuth := Some false; timeout := None |}.

(** The message of the [SyntaxError] of [JSON.parse] (the engine's text). *)
Definition syntaxErrorMessage : string := "Unexpected token in JSON".

Section AuthService.
Context `{JsonRuntime} (baseUrl : string).

(** [setAuthData(user, token, refreshToken)] *)
Definition setAuthData {T} (user_ : User) (token_ : string)
    (refreshToken_ : option string) : M T unit :=
  setItem TOKEN_KEY token_;;
  setItem USER_KEY (JSON_stringify (userJson user_));;
  if truthy refreshToken_ then
    setItem REFRESH_TOKEN_KEY (default "" refreshToken_)
  else mret tt.

(** [clearAuthData()] *)
Definition clearAuthData {T} : M T unit :=
  removeItem TOKEN_KEY;;
  removeItem USER_KEY;;
  removeItem REFRESH_TOKEN_KEY.

(** [getStoredUser()]: [userData ? JSON.parse(userData) : null]. *)
Definition getStoredUser {T} : M T (option Json) :=
  userData ← getItem USER_KEY;
  if truthy userData then
    match JSON_parse (default "" userData) with
    | Some parsed => mret (Some parsed)
    | None => throw (ThrownError "SyntaxError" syntaxErrorMessage)
    end
  else mret None.

(** [isAuthenticated()]: [!!(token && user)]. *)
Definition isAuthenticated {T} : M T bool :=
  token_ ← reads getToken;
  user_ ← getStoredUser;
  mret (truthy token_ && from_option truthyJson false user_).

(** [login(credentials)] *)
Definition login (credentials : LoginCredentials) : M LoginData AuthResponse :=
  tryCatch
    (response ← post baseUrl "/auth/login"
                  (Some (BodyJson (JObj (loginCredentialsFields credentials))))
                  withoutAuth;
     envelope ← envelopeOf response "success";
     match success envelope, data envelope with
     | true, Some d =>
         setAuthData (user d) (token d) (refreshToken d);;
         mret {| auth_success := true; auth_user := Some (user d);
                 auth_token := Some (token d);
                 auth_message := Some "Login successful";
                 auth_errors := None |}
     | _, _ =>
         mret {| auth_success := false; auth_user := None;
                 auth_token := None;
                 auth_message := Some (orElse (message envelope) "Login failed");
                 auth_errors := errors envelope |}
     end)
    (fun error =>
       consoleError "Login error:" error;;
       mret {| auth_success := false; auth_user := None; auth_token := None;
               auth_message :=
                 Some (if instanceofError error then errorMessage error
                       else "Network error. Please try again.");
               auth_errors := None |}).

(** [signup(credentials)] *)
Definition signup (credentials : SignupCredentials)
    : M LoginData AuthResponse :=
  tryCatch
    (let signupData :=
       objectRest ["confirmPassword"] (signupCredentialsFields credentials) in
     response ← post baseUrl "/auth/signup"
                  (Some (BodyJson (JObj signupData))) withoutAuth;
     envelope ← envelopeOf response "success";
     match success envelope, data envelope with
     | true, Some d =>
         setAuthData (user d) (token d) (refreshToken d);;
         mret {| auth_success := true; auth_user := Some (user d);
                 auth_token := Some (token d);
                 auth_message := Some "Signup successful";
                 auth_errors := None |}
     | _, _ =>
         mret {| auth_success := false; auth_user := None;
                 auth_token := None;
                 auth_message := Some (orElse (message envelope) "Signup failed");
                 auth_errors := errors envelope |}
     end)
    (fun error =>
       consoleError "Signup error:" error;;
       mret {| auth_success := false; auth_user := None; auth_token := None;
               auth_message :=
                 Some (if instanceofError error then errorMessage error
                       else "Network error. Please try again.");
               auth_errors := None |}).

(** [logout()] *)
Definition logout {T} : M T unit :=
  tryFinally
    (tryCatch
       (token_ ← reads getToken;
        if truthy token_ then
          post baseUrl "/auth/logout" (Some (BodyJson (JObj []))) noOptions;;
          mret tt
        else mret tt)
       (fun error => consoleError "Logout error:" error))
    clearAuthData.

(** [refreshAuthToken()] *)
Definition refreshAuthToken : M RefreshData RefreshResult :=
  tryCatch
    (refreshToken_ ← reads getRefreshToken;
     if negb (truthy refreshToken_) then
       mret {| refresh_success := false; refresh_token := None |}
     else
       response ← post baseUrl "/auth/refresh"
                    (Some (BodyJson
                             (JObj [("refreshToken",
                                     JStr (default "" refreshToken_))])))
                    withoutAuth;
       envelope ← envelopeOf response "success";
       match success envelope, data envelope with
       | true, Some d =>
           setItem TOKEN_KEY (new_token d);;
           (if truthy (new_refreshToken d) then
              setItem REFRESH_TOKEN_KEY (default "" (new_refreshToken d))
            else mret tt);;
           mret {| refresh_success := true;
                   refresh_token := Some (new_token d) |}
       | _, _ => mret {| refresh_success := false; refresh_token := None |}
       end)
    (fun error =>
       consoleError "Refresh token error:" error;;
       mret {| refresh_success := false; refresh_token := None |}).
End AuthService.

(** ** SignupForm *)

(** An issue of a schema validation: the path of the field and the message. *)
Record Issue : Type := {
  issue_path : string;
  issue_message : string;
}.

(** What [handleSignup] returns. *)
Record SignupOutcome : Type := {
  outcome_success : bool;
  outcome_message : option string;
  outcome_errors : option FieldErrors;
}.

Section SignupForm.
Context `{JsonRuntime} (baseUrl : string).
(** The test behind [z.string().email()]; the pattern is the validation
    library's. *)
Variable isEmail : string -> bool.

Definition minLength (n : nat) (path value msg : string) : list Issue :=
  if (n <=? String.length value)%nat then []
  else [{| issue_path := path; issue_message := msg |}].

(** [signupSchema]: the issues of the five fields, then the refinement
    [data.password === data.confirmPassword], which runs on every object
    whose fields are strings.  The data is valid when there is no issue. *)
Definition signupSchema (data_ : SignupCredentials) : list Issue :=
  minLength 2 "firstName" (signup_firstName data_)
    "First name must be at least 2 characters"
  ++ minLength 2 "lastName" (signup_lastName data_)
       "Last name must be at least 2 characters"
  ++ (if isEmail (signup_email data_) then []
      else [{| issue_path := "email";
               issue_message := "Please enter a valid email address" |}])
  ++ minLength 8 "password" (signup_password data_)
       "Password must be at least 8 characters"
  ++ (if String.eqb (signup_password data_) (confirmPassword data_) then []
      else [{| issue_path := "confirmPassword";
               issue_message := "Passwords don't match" |}]).

(** [SignupFormController.handleSignup(credentials, onSuccess)] *)
Definition handleSignup (credentials : SignupCredentials)
    (onSuccess : option (M LoginData unit)) : M LoginData SignupOutcome :=
  tryCatch
    (response ← signup baseUrl credentials;
     if auth_success response then
       default (mret tt) onSuccess;;
       mret {| outcome_success := true; outcome_message := None;
               outcome_errors := None |}
     else
       mret {| outcome_success := false;
               outcome_message :=
                 Some (orElse (auth_message response) "Registration failed");
               outcome_errors := auth_errors response |})
    (fun error =>
       consoleError "Signup submission error:" error;;
       mret {| outcome_success := false;
               outcome_message :=
                 Some "An unexpected error occurred. Please try again.";
               outcome_errors := None |}).

(** [onSubmit(data)] of the form: the error it displays, if any. *)
Definition onSubmit (onSuccess : option (M LoginData unit))
    (data_ : SignupCredentials) : M LoginData (option string) :=
  result ← handleSignup data_ onSuccess;
  mret (if outcome_success result then None
        else Some (orElse (outcome_message result) "Registration failed")).

(** What submitting the form does. *)
Inductive Submission : Type :=
| Rejected (issues : list Issue)
| Submitted (displayedError : option string).

(** [handleSubmit(onSubmit)] of the form library with the schema as its
    resolver: the values are validated first, and [onSubmit] is called
    only when they are valid. *)
Definition handleSubmit (onSuccess : option (M LoginData unit))
    (values : SignupCredentials) : M LoginData Submission :=
  match signupSchema values with
  | [] => shown ← onSubmit onSuccess values; mret (Submitted shown)
  | issues => mret (Rejected issues)
  end.
End SignupForm.


(** ** What the statements below speak of *)

(** The configuration that [request] hands to [fetch], given the options
    and the [localStorage] of the moment. *)
Definition configOf `{JsonRuntime} (options : RequestOptions)
    (storage : gmap string string) : RequestInit :=
  let method_ := default GET (method options) in
  let attached :=
    attachBody method_ (body options) (prepareHeaders options storage) in
  {| init_method := method_;
     init_headers := default attached.1 (headers options);
     init_body := attached.2;
     init_requireAuth := requireAuth options |}.

(** How [request] ends, given how the race ended. *)
Definition settled {T} (raced : Completion (Response T))
    : Completion (Parsed T) :=
  match raced with
  | Returns response =>
      match processResponse response with
      | Returns parsed => Returns parsed
      | Throws error => Throws (asApiError error)
      end
  | Throws error => Throws (asApiError error)
  end.

(** Whether [request] sends a [FormData] body. *)
Definition sendsFormData (options : RequestOptions) : bool :=
  match body options with
  | Some (BodyFormData _) => negb (Method_eqb (default GET (method options)) GET)
  | _ => false
  end.

(** The envelope [processResponse] puts in the place of a body that is not
    JSON. *)
Definition invalidFormat {T} : Parsed T :=
  ParsedEnvelope
    {| success := false;
       message := Some "Invalid response format from server";
       data := None; errors := None; meta := None |}.

(** The payload of a settled POST whose envelope has [success] true and a
    [data] property. *)
Definition payloadOf {T} (posted : Completion (Parsed T)) : option T :=
  match posted with
  | Returns (ParsedEnvelope envelope) =>
      if success envelope then data envelope else None
  | _ => None
  end.

(** [localStorage] after [setAuthData(user, token, refreshToken)]. *)
Definition afterSetAuthData `{JsonRuntime} (user_ : User) (token_ : string)
    (refreshToken_ : option string) (storage : gmap string string)
    : gmap string string :=
  let storage' :=
    <[USER_KEY := JSON_stringify (userJson user_)]>
      (<[TOKEN_KEY := token_]> storage) in
  if truthy refreshToken_ then
    <[REFRESH_TOKEN_KEY := default "" refreshToken_]> storage'
  else storage'.

(** [localStorage] after [clearAuthData()]. *)
Definition afterClearAuthData (storage : gmap string string)
    : gmap string string :=
  delete REFRESH_TOKEN_KEY (delete USER_KEY (delete TOKEN_KEY storage)).

(** The options with which the POST of [logout] reaches [request]: the
    body [{}] and no option of the caller. *)
Definition logoutOptions : RequestOptions :=
  {| method := Some POST; headers := None; body := Some (BodyJson (JObj []));
     params := None; requireAuth := None; timeout := None |}.

(** The properties of the body that [signup] sends. *)
Definition signupDataOf (credentials : SignupCredentials)
    : list (string * Json) :=
  [("email", JStr (signup_email credentials));
   ("password", JStr (signup_password credentials));
   ("firstName", JStr (signup_firstName credentials));
   ("lastName", JStr (signup_lastName credentials))].

(** The issue that the refinement of [signupSchema] raises. *)
Definition passwordsDontMatch : Issue :=
  {| issue_path := "confirmPassword"; issue_message := "Passwords don't match" |}.

(** ** A runtime and worlds to run the model on *)

(** A plain writer of JSON text (it does not escape) and a reader that tells
    the text of an object from other texts: enough to run the services on
    examples, where these two stand for [JSON.stringify] and
    [JSON.parse]. *)
Definition doubleQuote : string := String (Ascii.ascii_of_N 34) "".

Fixpoint writeJson (j : Json) : string :=
  match j with
  | JNull => "null"
  | JBool b => if b then "true" else "false"
  | JNum n => pretty n
  | JStr s => doubleQuote +:+ s +:+ doubleQuote
  | JArr items => "[" +:+ String.concat "," (map writeJson items) +:+ "]"
  | JObj fields =>
      "{"
      +:+ String.concat ","
            (map (fun kv : string * Json =>
                    doubleQuote +:+ kv.1 +:+ doubleQuote +:+ ":" +:+ writeJson kv.2)
               fields)
      +:+ "}"
  end.

Definition readObject (text : string) : option Json :=
  if startsWith text "{" then Some (JObj []) else None.

#[local] Instance exampleRuntime : JsonRuntime.
Proof.
  refine {| JSON_stringify := writeJson; JSON_parse := readObject |}.
  - intros fields. simpl. discriminate.
  - intros fields. exists []. reflexivity.
Defined.

Definition exampleBaseUrl : string := "http://localhost:8000/api".

(** A world with the given [localStorage], where every [fetch] behaves the
    same way. *)
Definition exampleWorld {T} (storage : gmap string string)
    (behaviour : FetchBehaviour T) : World T :=
  {| localStorage := storage; network := fun _ _ => behaviour;
     timerWinsTies := true; events := [] |}.

(** A response with the given status and JSON body, and a successful
    envelope around a payload. *)
Definition respond {T} (status_ : Z) (text : string) (json_ : option (Parsed T))
    : Response T :=
  {| status := status_; statusText := text; json := json_ |}.

Definition succeed {T} (payload : T) : Parsed T :=
  ParsedEnvelope
    {| success := true; data := Some payload; message := None;
       errors := None; meta := None |}.

Definition exampleUser : User :=
  {| id := "u1"; email := "a@b.com"; firstName := "Ada"; lastName := "Byron";
     createdAt := "2024-01-01T00:00:00Z"; lastLogin := None |}.

Definition exampleCredentials : LoginCredentials :=
  {| login_email := "a@b.com"; login_password := "secret1" |}.

Definition examplePayload (token_ : string) (refreshToken_ : option string)
    : LoginData :=
  {| user := exampleUser; token := token_; refreshToken := refreshToken_ |}.

(** A world in which the backend answers 200 with a successful envelope
    around the payload. *)
Definition loginWorld (payload : LoginData) : World LoginData :=
  exampleWorld ∅ (FetchResolves 80 (respond 200 "OK" (Some (succeed payload)))).

(** A world with a stored session in which the backend answers 200 with a
    new token and no new refresh token. *)
Definition refreshWorld : World RefreshData :=
  exampleWorld
    (<[REFRESH_TOKEN_KEY := "R1"]>
       (<[USER_KEY := "{}"]> (<[TOKEN_KEY := "T1"]> ∅)))
    (FetchResolves 80
       (respond 200 "OK"
          (Some (succeed {| new_token := "T2"; new_refreshToken := None |})))).

Definition exampleSignup (confirm : string) : SignupCredentials :=
  {| signup_email := "a@b.com"; signup_password := "secret123";
     signup_firstName := "Ada"; signup_lastName := "Byron";
     confirmPassword := confirm |}.

(** [{ headers: { 'X-Trace': '1' }, requireAuth: false }] *)
Definition tracedWithoutAuth : RequestOptions :=
  {| method := None; headers := Some {[ "X-Trace" := "1" ]}; body := None;
     params := None; requireAuth := Some false; timeout := None |}.

(** An operation over a counter: it fails until it has been invoked
    [failures] times. *)
Definition flakyOperation (failures : nat) : @Operation nat nat :=
  fun n =>
    if (n <? failures)%nat then (Throws (ThrownError "Error" "unavailable"), S n)
    else (Returns n, S n).

(** An operation that rejects with a string, which is not an [Error]. *)
Definition rejectsWithString : @Operation unit unit :=
  fun s => (Throws (ThrownValue (Some (JStr "boom"))), s).


(** ** BaseApiService: the constructor, the other verbs, uploads and the
    health check *)

(** [baseUrl.replace(/\/$/, '')]: the string without its last character
    when that is a slash. *)
Fixpoint stripTrailingSlash (s : string) : string :=
  match s with
  | EmptyString => EmptyString
  | String c EmptyString => if Ascii.eqb c "/" then EmptyString else s
  | String c s' => String c (stripTrailingSlash s')
  end.

(** The constructor of [BaseApiService]: the [baseUrl] it keeps, given the
    argument (if any) and [process.env.REACT_APP_API_URL] (if set). *)
Definition newBaseApiService (baseUrl : option string)
    (REACT_APP_API_URL : option string) : string :=
  stripTrailingSlash
    (match baseUrl with
     | Some url => url
     | None => orElse REACT_APP_API_URL "http://localhost:8000/api"
     end).

(** The payload of [/health]. *)
Record HealthData : Type := {
  health_status : string;
  health_timestamp : string;
}.

Section BaseApiVerbs.
Context `{JsonRuntime} (baseUrl : string) {T : Type}.

(** [put], [patch] and [delete]: [{ ...options, method, body }] and
    [{ ...options, method }].  ([delete_], since [delete] is the map
    operation.) *)
Definition put (endpoint : string) (data_ : option BodyValue)
    (options : RequestOptions) : M T (Parsed T) :=
  request baseUrl endpoint
    {| method := Some PUT; body := data_; headers := headers options;
       params := params options; requireAuth := requireAuth options;
       timeout := timeout options |}.

Definition patch (endpoint : string) (data_ : option BodyValue)
    (options : RequestOptions) : M T (Parsed T) :=
  request baseUrl endpoint
    {| method := Some PATCH; body := data_; headers := headers options;
       params := params options; requireAuth := requireAuth options;
       timeout := timeout options |}.

Definition delete_ (endpoint : string) (options : RequestOptions)
    : M T (Parsed T) :=
  request baseUrl endpoint
    {| method := Some DELETE; body := body options; headers := headers options;
       params := params options; requireAuth := requireAuth options;
       timeout := timeout options |}.

(** [uploadFile(endpoint, file, additionalData, onProgress)].  The file
    stands in the form under the name it has; [onProgress] is never used
    by the code and is left out. *)
Definition uploadFile (endpoint : string) (file : string)
    (additionalData : option (list (string * string))) : M T (Parsed T) :=
  let formData := [("file", file)] in
  let formData :=
    match additionalData with
    | Some entries => formData ++ entries
    | None => formData
    end in
  post baseUrl endpoint (Some (BodyFormData formData)) noOptions.
End BaseApiVerbs.

(** [healthCheck()] *)
Definition healthCheck `{JsonRuntime} (baseUrl : string)
    : M HealthData (Parsed HealthData) :=
  tryCatch
    (get baseUrl "/health" None
       {| method := None; headers := None; body := None; params := None;
          requireAuth := Some false; timeout := Some 5000 |})
    (fun error => throw (ApiError "API health check failed" 503 None)).


(** ** More of what the statements speak of *)

(** The number of times a character occurs in a string. *)
Fixpoint countChar (c : ascii) (s : string) : nat :=
  match s with
  | EmptyString => 0%nat
  | String d s' => ((if Ascii.eqb c d then 1 else 0) + countChar c s')%nat
  end.

(** The parameters that [buildUrl] keeps: those whose value is neither
    [null] nor [undefined]. *)
Definition keptParams (entries : list (string * option string))
    : list (string * string) :=
  omap (fun '(key, value) => pair key <$> value) entries.

(** An inverse of the percent-encoding, by which the encoding is shown to
    lose nothing. *)
Definition hexValue (c : ascii) : N :=
  let n := Ascii.N_of_ascii c in
  if (n <? 58)%N then (n - 48)%N else (n - 55)%N.

Fixpoint percentDecode (s : string) : string :=
  match s with
  | EmptyString => EmptyString
  | String c rest =>
      if Ascii.eqb c "%" then
        match rest with
        | String hi (String lo rest') =>
            String (Ascii.ascii_of_N (16 * hexValue hi + hexValue lo))
              (percentDecode rest')
        | _ => String c (percentDecode rest)
        end
      else String c (percentDecode rest)
  end.


(** ** AuthService: the profile and the password operations *)

(** The payload of [/auth/profile]; [user] is read with [data?.user] and
    tested for truthiness, so it may be absent. *)
Record ProfileData : Type := {
  profile_user : option User;
}.

Section AuthServiceMore.
Context `{JsonRuntime} (baseUrl : string).

(** [getCurrentUser()] *)
Definition getCurrentUser : M ProfileData (option User) :=
  tryCatch
    (token_ ← reads getToken;
     if negb (truthy token_) then mret None
     else
       response ← get baseUrl "/auth/profile" None noOptions;
       envelope ← envelopeOf response "success";
       match success envelope, data envelope with
       | true, Some d =>
           match profile_user d with
           | Some u => mret (Some u)
           | None => mret None
           end
       | _, _ => mret None
       end)
    (fun error =>
       consoleError "Get current user error:" error;;
       mret None).

(** [forgotPassword(email)] *)
Definition forgotPassword {T} (email_ : string) : M T AuthResponse :=
  tryCatch
    (response ← post baseUrl "/auth/forgot-password"
                  (Some (BodyJson (JObj [("email", JStr email_)]))) withoutAuth;
     envelope ← envelopeOf response "success";
     mret {| auth_success := success envelope; auth_user := None;
             auth_token := None;
             auth_message :=
               Some (orElse (message envelope) "Password reset email sent");
             auth_errors := None |})
    (fun error =>
       consoleError "Forgot password error:" error;;
       mret {| auth_success := false; auth_user := None; auth_token := None;
               auth_message :=
                 Some (if instanceofError error then errorMessage error
                       else "Network error. Please try again.");
               auth_errors := None |}).

(** [resetPassword(token, password)] *)
Definition resetPassword {T} (token_ password_ : string) : M T AuthResponse :=
  tryCatch
    (response ← post baseUrl "/auth/reset-password"
                  (Some (BodyJson (JObj [("token", JStr token_);
                                         ("password", JStr password_)])))
                  withoutAuth;
     envelope ← envelopeOf response "success";
     mret {| auth_success := success envelope; auth_user := None;
             auth_token := None;
             auth_message :=
               Some (orElse (message envelope) "Password reset successful");
             auth_errors := None |})
    (fun error =>
       consoleError "Reset password error:" error;;
       mret {| auth_success := false; auth_user := None; auth_token := None;
               auth_message :=
                 Some (if instanceofError error then errorMessage error
                       else "Network error. Please try again.");
               auth_errors := None |}).

(** ** LoginForm *)

(** [LoginFormController.handleLogin(credentials, onSuccess)] *)
Definition handleLogin (credentials : LoginCredentials)
    (onSuccess : option (M LoginData unit)) : M LoginData SignupOutcome :=
  tryCatch
    (response ← login baseUrl credentials;
     if auth_success response then
       default (mret tt) onSuccess;;
       mret {| outcome_success := true; outcome_message := None;
               outcome_errors := None |}
     else
       mret {| outcome_success := false;
               outcome_message :=
                 Some (orElse (auth_message response) "Login failed");
               outcome_errors := auth_errors response |})
    (fun error =>
       consoleError "Login submission error:" error;;
       mret {| outcome_success := false;
               outcome_message :=
                 Some "An unexpected error occurred. Please try again.";
               outcome_errors := None |}).
End AuthServiceMore.


(** ** BaseController: field validation and the wrapper of asynchronous
    operations *)

(** The names every ordinary object inherits from [Object.prototype]. *)
Definition objectPrototypeKeys : list string :=
  ["constructor"; "__defineGetter__"; "__defineSetter__"; "hasOwnProperty";
   "__lookupGetter__"; "__lookupSetter__"; "isPrototypeOf";
   "propertyIsEnumerable"; "toString"; "valueOf"; "__proto__";
   "toLocaleString"].

(** What [data[field]] gives for an ordinary object [data]: the value of
    its own property ([None] is an own property that holds [undefined]),
    else what it inherits (a function, or for [__proto__] the prototype
    itself), else [undefined]. *)
Inductive PropertyValue : Type :=
| OwnValue (value : option Json)
| InheritedValue
| UndefinedValue.

Definition readProperty (data_ : gmap string (option Json)) (field : string)
    : PropertyValue :=
  match data_ !! field with
  | Some value => OwnValue value
  | None =>
      if existsb (String.eqb field) objectPrototypeKeys then InheritedValue
      else UndefinedValue
  end.

(** [value === null || value === undefined || value === ''] *)
Definition isMissing (value : PropertyValue) : bool :=
  match value with
  | OwnValue None | OwnValue (Some JNull) | UndefinedValue => true
  | OwnValue (Some (JStr s)) => String.eqb s ""
  | OwnValue (Some _) | InheritedValue => false
  end.

(** [errors[field] = message] on an object that started as [{}]: the
    assignment to [__proto__] goes to the inherited setter, which ignores a
    string, and makes no property. *)
Definition assignProperty (errors_ : gmap string string) (field message_ : string)
    : gmap string string :=
  if String.eqb field "__proto__" then errors_
  else <[field := message_]> errors_.

Record ValidationResult : Type := {
  isValid : bool;
  validation_errors : gmap string string;
}.

(** [validateRequiredFields(data, requiredFields)] *)
Definition validateRequiredFields (data_ : gmap string (option Json))
    (requiredFields : list string) : ValidationResult :=
  let errors_ :=
    fold_left
      (fun errors_ field =>
         let value := readProperty data_ field in
         if isMissing value then
           assignProperty errors_ field (field +:+ " is required")
         else errors_)
      requiredFields ∅ in
  {| isValid := bool_decide (errors_ = ∅); validation_errors := errors_ |}.

(** [LoadingState] and [ErrorState]. *)
Record LoadingState : Type := {
  isLoading : bool;
  loadingMessage : option string;
  progress : option Z;
}.

Record ErrorState : Type := {
  hasError : bool;
  errorMessage_ : option string;
  errorCode : option string;
  canRetry : bool;
}.

(** What a controller does that shows: the calls of the two setters and the
    errors it logs. *)
Inductive UiEvent : Type :=
| SetLoading (state : LoadingState)
| SetError (state : ErrorState)
| LogError (controllerName context : string) (error : Thrown).

(** [String(v)] of a JSON value (numbers as integers in decimal). *)
Fixpoint jsToString (j : Json) : string :=
  match j with
  | JNull => "null"
  | JBool b => if b then "true" else "false"
  | JNum n => pretty n
  | JStr s => s
  | JArr items =>
      String.concat ","
        (map (fun item => match item with
                          | JNull => ""
                          | _ => jsToString item
                          end) items)
  | JObj _ => "[object Object]"
  end.

(** The value of property [key] of an object written as a list, where a
    later property of the same name stands for the earlier one. *)
Definition objectField (fields : list (string * Json)) (key : string)
    : option Json :=
  snd <$> List.find (fun kv => String.eqb kv.1 key) (rev fields).

(** [(error as any)?.status?.toString() || 'UNKNOWN'] *)
Definition errorCodeOf (error : Thrown) : string :=
  let status_ :=
    match error with
    | ApiError _ status_ _ => Some (JNum status_)
    | ThrownError _ _ => None
    | ThrownValue (Some (JObj fields)) => objectField fields "status"
    | ThrownValue _ => None
    end in
  match status_ with
  | Some JNull | None => "UNKNOWN"
  | Some j => orElse (Some (jsToString j)) "UNKNOWN"
  end.

Section AsyncOperation.
Context {St T : Type}.

(** A run of controller code: the state the callbacks work on, and the log
    of what showed, oldest first. *)
Definition Ctl (A : Type) : Type :=
  St * list UiEvent -> Completion A * (St * list UiEvent).

Definition ctlRet {A} (a : A) : Ctl A := fun c => (Returns a, c).

Definition ctlBind {A B} (m : Ctl A) (f : A -> Ctl B) : Ctl B :=
  fun c =>
    match m c with
    | (Returns a, c') => f a c'
    | (Throws error, c') => (Throws error, c')
    end.

Definition ctlTryCatch {A} (body_ : Ctl A) (handler : Thrown -> Ctl A) : Ctl A :=
  fun c =>
    match body_ c with
    | (Returns a, c') => (Returns a, c')
    | (Throws error, c') => handler error c'
    end.

(** Calling something of the caller's: an operation or a setter. *)
Definition ctlCall {A} (f : St -> Completion A * St) : Ctl A :=
  fun c => let '(r, s') := f c.1 in (r, (s', c.2)).

Definition ctlShow (e : UiEvent) : Ctl unit :=
  fun c => (Returns tt, (c.1, c.2 ++ [e])).

(** [if (setLoading) setLoading(state)] and [if (setError) setError(state)];
    the call is logged, then made. *)
Definition callSetLoading
    (setLoading : option (LoadingState -> St -> Completion unit * St))
    (state : LoadingState) : Ctl unit :=
  match setLoading with
  | Some f => ctlBind (ctlShow (SetLoading state)) (fun _ => ctlCall (f state))
  | None => ctlRet tt
  end.

Definition callSetError
    (setError : option (ErrorState -> St -> Completion unit * St))
    (state : ErrorState) : Ctl unit :=
  match setError with
  | Some f => ctlBind (ctlShow (SetError state)) (fun _ => ctlCall (f state))
  | None => ctlRet tt
  end.

(** [handleAsyncOperation(operation, setLoading, setError, loadingMessage =
    'Processing...')]; the result [None] is [null]. *)
Definition handleAsyncOperation (controllerName : string)
    (operation : St -> Completion T * St)
    (setLoading : option (LoadingState -> St -> Completion unit * St))
    (setError : option (ErrorState -> St -> Completion unit * St))
    (loadingMessage_ : option string) : Ctl (option T) :=
  let loadingMessage_ := default "Processing..." loadingMessage_ in
  ctlTryCatch
    (ctlBind
       (callSetLoading setLoading
          {| isLoading := true; loadingMessage := Some loadingMessage_;
             progress := None |})
       (fun _ =>
    ctlBind
       (callSetError setError
          {| hasError := false; errorMessage_ := None; errorCode := None;
             canRetry := false |})
       (fun _ =>
    ctlBind (ctlCall operation) (fun result =>
    ctlBind
       (callSetLoading setLoading
          {| isLoading := false; loadingMessage := None; progress := None |})
       (fun _ => ctlRet (Some result))))))
    (fun error =>
       let errorMessage :=
         if instanceofError error then errorMessage error
         else "An unexpected error occurred" in
       let errorCode_ := errorCodeOf error in
       ctlBind (ctlShow (LogError controllerName "Async operation failed" error))
         (fun _ =>
       ctlBind
         (callSetError setError
            {| hasError := true; errorMessage_ := Some errorMessage;
               errorCode := Some errorCode_; canRetry := true |})
         (fun _ =>
       ctlBind
         (callSetLoading setLoading
            {| isLoading := false; loadingMessage := None; progress := None |})
         (fun _ => ctlRet None)))).
End AsyncOperation.






(** The operation fails [n] times in a row from state [s]: the state it
    reaches and the errors it threw, oldest first ([None] if one of these
    invocations succeeds). *)
Fixpoint failures {St T} (operation : @Operation St T) (n : nat) (s : St)
    : option (St * list Thrown) :=
  match n with
  | O => Some (s, [])
  | S n' =>
      match operation s with
      | (Throws error, s') =>
          match failures operation n' s' with
          | Some (s'', errors_) => Some (s'', error :: errors_)
          | None => None
          end
      | (Returns _, _) => None
      end
  end.

(** The trace of [n] failed attempts, the first of them attempt number
    [attempt], each followed by its wait. *)
Fixpoint failedAttempts (delay : Z) (attempt : Z) (n : nat) : list RetryEvent :=
  match n with
  | O => []
  | S n' =>
      Invoked :: Waited (delay * attempt)
      :: failedAttempts delay (attempt + 1) n'
  end.

(** What [createRetryOperation] rethrows for what the operation threw. *)
Definition rethrown (error : Thrown) : Thrown :=
  if instanceofError error then error else ThrownError "Error" "Unknown error".


(** ** SignupForm: the strength of a password *)

(** [s.length], the number of UTF-16 code units of a string held as its
    UTF-8 bytes: a continuation byte adds none, the first byte of a
    four-byte sequence adds two, every other byte adds one. *)
Definition utf16Units (c : ascii) : nat :=
  let n := Ascii.N_of_ascii c in
  if ((128 <=? n) && (n <? 192))%N then 0%nat
  else if (240 <=? n)%N then 2%nat
  else 1%nat.

Fixpoint jsLength (s : string) : nat :=
  match s with
  | EmptyString => 0%nat
  | String c s' => (utf16Units c + jsLength s')%nat
  end.

(** [/[A-Z]/], [/[a-z]/] and [/\d/] on one character. *)
Definition isUpperCase (c : ascii) : bool :=
  let n := Ascii.N_of_ascii c in ((65 <=? n) && (n <=? 90))%N.

Definition isLowerCase (c : ascii) : bool :=
  let n := Ascii.N_of_ascii c in ((97 <=? n) && (n <=? 122))%N.

Definition isDigit (c : ascii) : bool :=
  let n := Ascii.N_of_ascii c in ((48 <=? n) && (n <=? 57))%N.

(** The character class of the [hasSpecialChar] pattern: the double quote
    and the characters of the string below. *)
Definition isSpecialChar (c : ascii) : bool :=
  existsb (Ascii.eqb c)
    (Ascii.ascii_of_N 34 :: list_ascii_of_string "!@#$%^&*(),.?:{}|<>").

(** [regex.test(s)] for a class of single characters. *)
Definition testClass (class : ascii -> bool) (s : string) : bool :=
  existsb class (list_ascii_of_string s).

Record PasswordStrength : Type := {
  strength_isValid : bool;
  strength_message : string;
}.

(** [validatePasswordStrength(password)]; [hasSpecialChar] is computed and
    not used. *)
Definition validatePasswordStrength (password : string) : PasswordStrength :=
  if (jsLength password <? 8)%nat then
    {| strength_isValid := false;
       strength_message := "Password must be at least 8 characters" |}
  else
    let hasUpperCase := testClass isUpperCase password in
    let hasLowerCase := testClass isLowerCase password in
    let hasNumbers := testClass isDigit password in
    let hasSpecialChar := testClass isSpecialChar password in
    if negb hasUpperCase || negb hasLowerCase || negb hasNumbers then
      {| strength_isValid := false;
         strength_message :=
           "Password must contain uppercase, lowercase, and numbers" |}
    else {| strength_isValid := true; strength_message := "Strong password" |}.


(** ** UserService: the preferences *)

Inductive Theme : Type := Light | Dark | System.

Definition themeName (theme_ : Theme) : string :=
  match theme_ with
  | Light => "light"
  | Dark => "dark"
  | System => "system"
  end.

(** [UserPreferences]: the theme, and the other settings (language, time
    zone, notifications, defaults of an analysis, privacy), which the
    controllers below store and never read. *)
Record UserPreferences : Type := {
  pref_theme : Theme;
  pref_others : Json;
}.

Section UserService.
Context `{JsonRuntime} (baseUrl : string).

(** [getUserPreferences()] *)
Definition getUserPreferences : M UserPreferences (Parsed UserPreferences) :=
  tryCatch
    (get baseUrl "/user/preferences" None noOptions)
    (fun error =>
       consoleError "Get user preferences error:" error;;
       throw error).

(** [deleteAccount(confirmationToken)] *)
Definition deleteAccount {T} (confirmationToken : string) : M T (Parsed T) :=
  tryCatch
    (delete_ baseUrl "/user/account"
       {| method := None; headers := None;
          body := Some (BodyJson
                          (JObj [("confirmationToken", JStr confirmationToken)]));
          params := None; requireAuth := None; timeout := None |})
    (fun error =>
       consoleError "Delete account error:" error;;
       throw error).
End UserService.

(** ** The services of one browser *)

(** The services of the application work on one [localStorage], one
    network and one console, and each reads the payload of an envelope at
    the type it declares for it.  [viewed view call] runs a call declared
    at the payload type [T] in a world whose payloads are of type [P], of
    which [view] takes the [T]. *)
Definition viewEnvelope {P T} (view : P -> T) (envelope : ApiResponse P)
    : ApiResponse T :=
  {| success := success envelope; data := view <$> data envelope;
     message := message envelope; errors := errors envelope;
     meta := meta envelope |}.

Definition viewParsed {P T} (view : P -> T) (parsed : Parsed P) : Parsed T :=
  match parsed with
  | ParsedNull => ParsedNull
  | ParsedEnvelope envelope => ParsedEnvelope (viewEnvelope view envelope)
  end.

Definition viewResponse {P T} (view : P -> T) (response : Response P)
    : Response T :=
  {| status := status response; statusText := statusText response;
     json := viewParsed view <$> json response |}.

Definition viewBehaviour {P T} (view : P -> T) (behaviour : FetchBehaviour P)
    : FetchBehaviour T :=
  match behaviour with
  | FetchResolves ms response => FetchResolves ms (viewResponse view response)
  | FetchRejects ms error => FetchRejects ms error
  | FetchPending => FetchPending
  end.

Definition viewWorld {P T} (view : P -> T) (w : World P) : World T :=
  {| localStorage := localStorage w;
     network := fun url init => viewBehaviour view (network w url init);
     timerWinsTies := timerWinsTies w; events := events w |}.

Definition viewed {P T A} (view : P -> T) (call : M T A) : M P A :=
  fun w =>
    let '(r, w') := call (viewWorld view w) in
    (r, {| localStorage := localStorage w'; network := network w;
           timerWinsTies := timerWinsTies w; events := events w' |}).

(** ** AppController *)

(** [AppState]; [lastActivity] is the [getTime()] of the date. *)
Record AppState : Type := {
  isInitialized : bool;
  state_isAuthenticated : bool;
  currentUser : option User;
  userPreferences : option UserPreferences;
  theme : Theme;
  isOnline : bool;
  lastActivity : Z;
}.

Definition withInitialized (s : AppState) (b : bool) : AppState :=
  {| isInitialized := b; state_isAuthenticated := state_isAuthenticated s;
     currentUser := currentUser s; userPreferences := userPreferences s;
     theme := theme s; isOnline := isOnline s; lastActivity := lastActivity s |}.

Definition withAuthenticated (s : AppState) (b : bool) : AppState :=
  {| isInitialized := isInitialized s; state_isAuthenticated := b;
     currentUser := currentUser s; userPreferences := userPreferences s;
     theme := theme s; isOnline := isOnline s; lastActivity := lastActivity s |}.

Definition withCurrentUser (s : AppState) (u : option User) : AppState :=
  {| isInitialized := isInitialized s;
     state_isAuthenticated := state_isAuthenticated s;
     currentUser := u; userPreferences := userPreferences s;
     theme := theme s; isOnline := isOnline s; lastActivity := lastActivity s |}.

Definition withPreferences (s : AppState) (p : option UserPreferences)
    : AppState :=
  {| isInitialized := isInitialized s;
     state_isAuthenticated := state_isAuthenticated s;
     currentUser := currentUser s; userPreferences := p;
     theme := theme s; isOnline := isOnline s; lastActivity := lastActivity s |}.

Definition withTheme (s : AppState) (t : Theme) : AppState :=
  {| isInitialized := isInitialized s;
     state_isAuthenticated := state_isAuthenticated s;
     currentUser := currentUser s; userPreferences := userPreferences s;
     theme := t; isOnline := isOnline s; lastActivity := lastActivity s |}.

Definition withOnline (s : AppState) (b : bool) : AppState :=
  {| isInitialized := isInitialized s;
     state_isAuthenticated := state_isAuthenticated s;
     currentUser := currentUser s; userPreferences := userPreferences s;
     theme := theme s; isOnline := b; lastActivity := lastActivity s |}.

Definition withLastActivity (s : AppState) (t : Z) : AppState :=
  {| isInitialized := isInitialized s;
     state_isAuthenticated := state_isAuthenticated s;
     currentUser := currentUser s; userPreferences := userPreferences s;
     theme := theme s; isOnline := isOnline s; lastActivity := t |}.

(** [AppInitResult]. *)
Record AppInitResult : Type := {
  result_success : bool;
  result_user : option User;
  result_preferences : option UserPreferences;
  result_errors : option (list string);
}.

(** [NavigationHelper]: a call of [navigate] returns or throws. *)
Record NavigationHelper : Type := {
  navigate : string -> option Json -> Completion unit;
  currentPath : string;
}.

(** What the controller shows: its toasts (the variant as [toast] is given
    it), what [logInfo] and [logError] write (without the time stamp), and
    the navigations that were made. *)
Inductive AppEvent : Type :=
| Toast (title : string) (description variant : option string)
| Info (context : string) (data_ : option Json)
| Failure (context : string) (error : Thrown)
| Navigated (path : string) (state : option Json).

(** The browser the controller lives in: the world of the services, the
    controller's [appState] and [activityTimer], the pending timeouts (the
    handle and the time each is due) and the next handle, whether the root
    element has the class [dark], whether the system prefers a dark scheme,
    [sessionStorage], and what was shown. *)
Record Browser (P : Type) : Type := {
  services : World P;
  appState : AppState;
  activityTimer : option Z;
  timers : list (Z * Z);
  nextTimerId : Z;
  darkClass : bool;
  prefersDark : bool;
  sessionStorage : gmap string string;
  shown : list AppEvent;
}.
Arguments services {P} _.
Arguments appState {P} _.
Arguments activityTimer {P} _.
Arguments timers {P} _.
Arguments nextTimerId {P} _.
Arguments darkClass {P} _.
Arguments prefersDark {P} _.
Arguments sessionStorage {P} _.
Arguments shown {P} _.

(** A method of the controller. *)
Definition AppM (P A : Type) : Type := Browser P -> Completion A * Browser P.

#[global] Instance AppM_ret {P} : MRet (AppM P) :=
  fun A (a : A) b => (Returns a, b).

#[global] Instance AppM_bind {P} : MBind (AppM P) :=
  fun A B (f : A -> AppM P B) (m : AppM P A) b =>
    match m b with
    | (Returns a, b') => f a b'
    | (Throws error, b') => (Throws error, b')
    end.

Definition appThrow {P A} (error : Thrown) : AppM P A :=
  fun b => (Throws error, b).

Definition appTryCatch {P A} (body_ : AppM P A) (handler : Thrown -> AppM P A)
    : AppM P A :=
  fun b =>
    match body_ b with
    | (Returns a, b') => (Returns a, b')
    | (Throws error, b') => handler error b'
    end.

(** A call of a service. *)
Definition service {P A} (call : M P A) : AppM P A :=
  fun b =>
    let '(r, w') := call (services b) in
    (r, {| services := w'; appState := appState b;
           activityTimer := activityTimer b; timers := timers b;
           nextTimerId := nextTimerId b; darkClass := darkClass b;
           prefersDark := prefersDark b; sessionStorage := sessionStorage b;
           shown := shown b |}).

(** A call of an [async] method that is not awaited: what it does is done,
    how it ends is dropped. *)
Definition detached {P A} (call : AppM P A) : AppM P unit :=
  fun b => (Returns tt, (call b).2).

Definition getState {P} : AppM P AppState :=
  fun b => (Returns (appState b), b).

Definition setState {P} (f : AppState -> AppState) : AppM P unit :=
  fun b =>
    (Returns tt,
     {| services := services b; appState := f (appState b);
        activityTimer := activityTimer b; timers := timers b;
        nextTimerId := nextTimerId b; darkClass := darkClass b;
        prefersDark := prefersDark b; sessionStorage := sessionStorage b;
        shown := shown b |}).

Definition show {P} (e : AppEvent) : AppM P unit :=
  fun b =>
    (Returns tt,
     {| services := services b; appState := appState b;
        activityTimer := activityTimer b; timers := timers b;
        nextTimerId := nextTimerId b; darkClass := darkClass b;
        prefersDark := prefersDark b; sessionStorage := sessionStorage b;
        shown := shown b ++ [e] |}).

(** [root.classList.toggle('dark', force)] *)
Definition toggleDark {P} (force : bool) : AppM P unit :=
  fun b =>
    (Returns tt,
     {| services := services b; appState := appState b;
        activityTimer := activityTimer b; timers := timers b;
        nextTimerId := nextTimerId b; darkClass := force;
        prefersDark := prefersDark b; sessionStorage := sessionStorage b;
        shown := shown b |}).

(** [window.matchMedia('(prefers-color-scheme: dark)').matches] *)
Definition matchesDark {P} : AppM P bool :=
  fun b => (Returns (prefersDark b), b).

(** [sessionStorage.setItem(key, value)] *)
Definition sessionSetItem {P} (key value : string) : AppM P unit :=
  fun b =>
    (Returns tt,
     {| services := services b; appState := appState b;
        activityTimer := activityTimer b; timers := timers b;
        nextTimerId := nextTimerId b; darkClass := darkClass b;
        prefersDark := prefersDark b;
        sessionStorage := <[key := value]> (sessionStorage b);
        shown := shown b |}).

(** [setTimeout(callback, ms)] at the time [now], for the one callback the
    controller ever passes, and [clearTimeout(handle)]. *)
Definition setTimeout {P} (now ms : Z) : AppM P Z :=
  fun b =>
    (Returns (nextTimerId b),
     {| services := services b; appState := appState b;
        activityTimer := activityTimer b;
        timers := timers b ++ [(nextTimerId b, now + ms)];
        nextTimerId := nextTimerId b + 1; darkClass := darkClass b;
        prefersDark := prefersDark b; sessionStorage := sessionStorage b;
        shown := shown b |}).

Definition clearTimeout {P} (handle : Z) : AppM P unit :=
  fun b =>
    (Returns tt,
     {| services := services b; appState := appState b;
        activityTimer := activityTimer b;
        timers := List.filter (fun t => negb (t.1 =? handle)) (timers b);
        nextTimerId := nextTimerId b; darkClass := darkClass b;
        prefersDark := prefersDark b; sessionStorage := sessionStorage b;
        shown := shown b |}).

Definition setActivityTimer {P} (handle : option Z) : AppM P unit :=
  fun b =>
    (Returns tt,
     {| services := services b; appState := appState b;
        activityTimer := handle; timers := timers b;
        nextTimerId := nextTimerId b; darkClass := darkClass b;
        prefersDark := prefersDark b; sessionStorage := sessionStorage b;
        shown := shown b |}).

Definition getActivityTimer {P} : AppM P (option Z) :=
  fun b => (Returns (activityTimer b), b).

(** The system's preference changes. *)
Definition setPrefersDark {P} (matches : bool) : AppM P unit :=
  fun b =>
    (Returns tt,
     {| services := services b; appState := appState b;
        activityTimer := activityTimer b; timers := timers b;
        nextTimerId := nextTimerId b; darkClass := darkClass b;
        prefersDark := matches; sessionStorage := sessionStorage b;
        shown := shown b |}).

Section BaseControllerHelpers.
Context {P : Type}.

(** [showSuccessToast], [showErrorToast], [showInfoToast], [logError] and
    [logInfo] of [BaseController]. *)
Definition showSuccessToast (message_ : string) (description : option string)
    : AppM P unit :=
  show (Toast message_ description (Some "default")).

Definition showErrorToast (message_ : string) (description : option string)
    : AppM P unit :=
  show (Toast message_ description (Some "destructive")).

Definition showInfoToast (message_ : string) (description : option string)
    : AppM P unit :=
  show (Toast message_ description None).

Definition logError (context : string) (error : Thrown) : AppM P unit :=
  show (Failure context error).

Definition logInfo (context : string) (data_ : option Json) : AppM P unit :=
  show (Info context data_).

(** [navigateTo(navigationHelper, path, state)] *)
Definition navigateTo (navigationHelper : NavigationHelper) (path : string)
    (state : option Json) : AppM P unit :=
  appTryCatch
    (fun b =>
       let state_ :=
         if from_option truthyJson false state then state else None in
       match navigate navigationHelper path state_ with
       | Returns _ => show (Navigated path state_) b
       | Throws error => (Throws error, b)
       end)
    (fun error =>
       logError ("Navigation failed to " +:+ path) error;;
       showErrorToast "Navigation failed. Please try again." None).

(** [isCurrentPath(navigationHelper, targetPath)] *)
Definition isCurrentPath (navigationHelper : NavigationHelper)
    (targetPath : string) : bool :=
  String.eqb (currentPath navigationHelper) targetPath.
End BaseControllerHelpers.

Section AppController.
Context `{JsonRuntime} (baseUrl : string) {P : Type}.
Context (profileOf : P -> ProfileData) (preferencesOf : P -> UserPreferences).

(** The state the constructor sets up, given [navigator.onLine] and the
    time. *)
Definition initialAppState (onLine : bool) (now : Z) : AppState :=
  {| isInitialized := false; state_isAuthenticated := false;
     currentUser := None; userPreferences := None; theme := System;
     isOnline := onLine; lastActivity := now |}.

(** [applyTheme(theme)] *)
Definition applyTheme (theme_ : Theme) : AppM P unit :=
  match theme_ with
  | System =>
      prefersDark_ ← matchesDark;
      toggleDark prefersDark_
  | Light => toggleDark false
  | Dark => toggleDark true
  end;;
  setState (fun s => withTheme s theme_).

(** [handleLogout(navigationHelper)] *)
Definition handleLogout (navigationHelper : NavigationHelper) : AppM P unit :=
  appTryCatch
    (service (logout baseUrl);;
     setState (fun s =>
       withTheme
         (withPreferences (withAuthenticated (withCurrentUser s None) false)
            None)
         System);;
     applyTheme System;;
     showInfoToast "Logged out successfully" None;;
     logInfo "User logout successful" None;;
     navigateTo navigationHelper "/" None)
    (fun error =>
       logError "Logout failed" error;;
       showErrorToast "Logout failed"
         (Some "Please try again or refresh the page")).

(** The preferences as the controller loads them:
    [userService.getUserPreferences()], then the reads of [success] and
    [data] of what it resolved to. *)
Definition loadPreferences : M P (option UserPreferences) :=
  viewed preferencesOf
    (preferencesResponse ← getUserPreferences baseUrl;
     envelope ← envelopeOf preferencesResponse "success";
     match success envelope, data envelope with
     | true, Some d => mret (Some d)
     | _, _ => mret None
     end).

(** [handleLoginSuccess(user, navigationHelper)] at the time [now]. *)
Definition handleLoginSuccess (now : Z) (user_ : User)
    (navigationHelper : NavigationHelper) : AppM P unit :=
  appTryCatch
    (setState (fun s =>
       withLastActivity (withAuthenticated (withCurrentUser s (Some user_)) true)
         now);;
     appTryCatch
       (preferences ← service loadPreferences;
        match preferences with
        | Some d =>
            setState (fun s => withPreferences s (Some d));;
            applyTheme (pref_theme d)
        | None => mret tt
        end)
       (fun error => logError "Failed to load preferences after login" error);;
     showSuccessToast "Welcome back!"
       (Some ("Successfully logged in as " +:+ firstName user_ +:+ " "
              +:+ lastName user_));;
     logInfo "User login successful"
       (Some (JObj [("userId", JStr (id user_)); ("email", JStr (email user_))]));;
     navigateTo navigationHelper "/" None)
    (fun error =>
       logError "Post-login setup failed" error;;
       showErrorToast
         "Login successful, but some features may not work properly" None).

(** The operation that [initializeApp] hands to [handleAsyncOperation]. *)
Definition initializeOperation : AppM P AppInitResult :=
  logInfo "Starting application initialization" None;;
  appTryCatch
    (isAuthenticated_ ← service isAuthenticated;
     initResult ←
       (if isAuthenticated_ : bool then
          currentUser_ ← service (viewed profileOf (getCurrentUser baseUrl));
          match currentUser_ with
          | Some u =>
              setState (fun s => withAuthenticated (withCurrentUser s (Some u)) true);;
              appTryCatch
                (preferences ← service loadPreferences;
                 match preferences with
                 | Some d =>
                     setState (fun s =>
                       withTheme (withPreferences s (Some d)) (pref_theme d));;
                     mret {| result_success := false; result_user := Some u;
                             result_preferences := Some d;
                             result_errors := Some [] |}
                 | None =>
                     mret {| result_success := false; result_user := Some u;
                             result_preferences := None;
                             result_errors := Some [] |}
                 end)
                (fun error =>
                   logError "Failed to load user preferences" error;;
                   mret {| result_success := false; result_user := Some u;
                           result_preferences := None;
                           result_errors :=
                             Some ["Failed to load user preferences"] |})
          | None =>
              service (logout baseUrl);;
              setState (fun s => withAuthenticated s false);;
              mret {| result_success := false; result_user := None;
                      result_preferences := None; result_errors := Some [] |}
          end
        else
          mret {| result_success := false; result_user := None;
                  result_preferences := None; result_errors := Some [] |});
     state ← getState;
     applyTheme (theme state);;
     setState (fun s => withInitialized s true);;
     state ← getState;
     logInfo "Application initialization completed"
       (Some (JObj
                ([("isAuthenticated", JBool (state_isAuthenticated state))]
                 ++ match currentUser state with
                    | Some u => [("user", JStr (email u))]
                    | None => []
                    end
                 ++ [("theme", JStr (themeName (theme state)))])));;
     mret {| result_success := true; result_user := result_user initResult;
             result_preferences := result_preferences initResult;
             result_errors := result_errors initResult |})
    (fun error =>
       logError "Application initialization failed" error;;
       appThrow error).

(** [initializeApp(setLoading, setError)] *)
Definition initializeApp
    (setLoading :
       option (LoadingState -> Browser P -> Completion unit * Browser P))
    (setError :
       option (ErrorState -> Browser P -> Completion unit * Browser P))
    : Ctl (St := Browser P) AppInitResult :=
  ctlBind
    (handleAsyncOperation "AppController" initializeOperation setLoading
       setError (Some "Initializing application..."))
    (fun result =>
       ctlRet
         (default
            {| result_success := false; result_user := None;
               result_preferences := None;
               result_errors := Some ["Initialization failed"] |}
            result)).

(** [handleUnauthorizedAccess(navigationHelper, intendedPath)] *)
Definition handleUnauthorizedAccess (navigationHelper : NavigationHelper)
    (intendedPath : option string) : AppM P unit :=
  showErrorToast "Authentication Required"
    (Some "Please log in to access this feature");;
  (if truthy intendedPath
   then sessionSetItem "intendedPath" (default "" intendedPath)
   else mret tt);;
  navigateTo navigationHelper "/login" None.

(** [getAppState()]: a copy. *)
Definition getAppState : AppM P AppState := getState.

(** [resetActivityTimer()] at the time [now].  A handle is a number that is
    not zero. *)
Definition resetActivityTimer (now : Z) : AppM P unit :=
  handle ← getActivityTimer;
  match handle with
  | Some h => if negb (h =? 0) then clearTimeout h else mret tt
  | None => mret tt
  end;;
  h ← setTimeout now (30 * 60 * 1000);
  setActivityTimer (Some h).

(** [updateActivity()] at the time [now]. *)
Definition updateActivity (now : Z) : AppM P unit :=
  setState (fun s => withLastActivity s now);;
  resetActivityTimer now.

(** The callback of the activity timer, run at the time [now]. *)
Definition activityTimeout (now : Z) : AppM P unit :=
  state ← getState;
  if state_isAuthenticated state
     && negb (isSessionActive None now (lastActivity state))
  then
    showInfoToast "Session Expired"
      (Some "You have been logged out due to inactivity");;
    detached
      (handleLogout
         {| navigate := fun _ _ => Returns tt; currentPath := "/" |})
  else mret tt.

(** The listeners that [setupEventListeners] registers. *)
Definition onOnline : AppM P unit :=
  setState (fun s => withOnline s true);;
  showSuccessToast "Connection restored" None.

Definition onOffline : AppM P unit :=
  setState (fun s => withOnline s false);;
  showErrorToast "Connection lost" (Some "Some features may not work offline").

Definition onSystemThemeChange (matches : bool) : AppM P unit :=
  setPrefersDark matches;;
  state ← getState;
  match theme state with
  | System => toggleDark matches
  | _ => mret tt
  end.

(** [cleanup()]: the listeners it removes are new functions, so none is
    removed. *)
Definition cleanup : AppM P unit :=
  handle ← getActivityTimer;
  match handle with
  | Some h => if negb (h =? 0) then clearTimeout h else mret tt
  | None => mret tt
  end.

(** ** App: the guard of a protected route *)

(** The effect of [ProtectedRoute] and whether it renders its children,
    for the snapshot [state] of the application state it holds. *)
Definition protectedRouteEffect (state : AppState)
    (navigationHelper : NavigationHelper) : AppM P unit :=
  if isInitialized state && negb (state_isAuthenticated state) then
    let isProtected := isProtectedRoute (currentPath navigationHelper) in
    if isProtected then
      handleUnauthorizedAccess navigationHelper
        (Some (currentPath navigationHelper))
    else mret tt
  else mret tt.

Definition protectedRouteRenders (state : AppState)
    (navigationHelper : NavigationHelper) : bool :=
  if negb (isInitialized state) then false
  else
    let isProtected := isProtectedRoute (currentPath navigationHelper) in
    if isProtected && negb (state_isAuthenticated state) then false
    else true.

(** ** The events of the browser *)

(** What can happen to the controller, each at a time: an activity event,
    a timeout that is due, the network coming and going, the system's
    scheme changing, and the calls of its public methods
    ([initializeApp] without setters).  Each is handled to its end before
    the next is taken: no event comes in while a method awaits a
    request. *)
Inductive AppAction : Type :=
| UserActivity
| TimerFires (handle : Z)
| WentOnline
| WentOffline
| SystemThemeChanged (matches : bool)
| Initialize
| LoginSucceeded (user_ : User) (navigationHelper : NavigationHelper)
| LogoutAsked (navigationHelper : NavigationHelper)
| UnauthorizedAccess (navigationHelper : NavigationHelper)
    (intendedPath : option string)
| CleanedUp.

(** A timeout fires once, when it is pending and due. *)
Definition fireTimer (now handle : Z) : AppM P unit :=
  fun b =>
    if existsb (fun t => (t.1 =? handle) && (t.2 <=? now)) (timers b) then
      (clearTimeout handle;; activityTimeout now) b
    else (Returns tt, b).

Definition act (now : Z) (action : AppAction) (b : Browser P) : Browser P :=
  match action with
  | UserActivity => (updateActivity now b).2
  | TimerFires handle => (fireTimer now handle b).2
  | WentOnline => (onOnline b).2
  | WentOffline => (onOffline b).2
  | SystemThemeChanged matches => (onSystemThemeChange matches b).2
  | Initialize => (initializeApp None None (b, [])).2.1
  | LoginSucceeded user_ navigationHelper =>
      (handleLoginSuccess now user_ navigationHelper b).2
  | LogoutAsked navigationHelper => (handleLogout navigationHelper b).2
  | UnauthorizedAccess navigationHelper intendedPath =>
      (handleUnauthorizedAccess navigationHelper intendedPath b).2
  | CleanedUp => (cleanup b).2
  end.

(** The browser after a history of events, oldest first. *)
Definition after (history : list (Z * AppAction)) (b : Browser P) : Browser P :=
  fold_left (fun b '(now, action) => act now action b) history b.

(** The browser in which the controller is constructed. *)
Definition newBrowser (w : World P) (onLine prefersDark_ darkClass_ : bool)
    (now nextHandle : Z) (session : gmap string string) : Browser P :=
  {| services := w; appState := initialAppState onLine now;
     activityTimer := None; timers := []; nextTimerId := nextHandle;
     darkClass := darkClass_; prefersDark := prefersDark_;
     sessionStorage := session; shown := [] |}.
End AppController.


(** ** What the statements about the controller speak of *)

(** The browser with another world of the services. *)
Definition withServices {P} (b : Browser P) (w : World P) : Browser P :=
  {| services := w; appState := appState b;
     activityTimer := activityTimer b; timers := timers b;
     nextTimerId := nextTimerId b; darkClass := darkClass b;
     prefersDark := prefersDark b; sessionStorage := sessionStorage b;
     shown := shown b |}.

(** Whether the root element is to have the class [dark] under a theme. *)
Definition themeClass (theme_ : Theme) (prefersDark_ : bool) : bool :=
  match theme_ with
  | System => prefersDark_
  | Dark => true
  | Light => false
  end.

(** What [navigateTo] shows for what [navigate] does. *)
Definition navigationShown (navigationHelper : NavigationHelper)
    (path : string) : list AppEvent :=
  match navigate navigationHelper path None with
  | Returns _ => [Navigated path None]
  | Throws error =>
      [Failure ("Navigation failed to " +:+ path) error;
       Toast "Navigation failed. Please try again." None (Some "destructive")]
  end.



(** A setter that returns and leaves the browser as it is (it sets the
    state of a component). *)
Definition setterKeeps {St X}
    (setter : option (X -> St -> Completion unit * St)) : Prop :=
  forall f, setter = Some f -> forall x s, f x s = (Returns tt, s).

(** The payloads of an example backend: a profile and preferences. *)
Definition ExamplePayload : Type := ProfileData * UserPreferences.

Definition exampleBrowser (storage : gmap string string)
    (behaviour : FetchBehaviour ExamplePayload) : Browser ExamplePayload :=
  newBrowser (exampleWorld storage behaviour) true false false 0 1 ∅.

(** A navigation helper at a path, whose [navigate] returns. *)
Definition helperAt (path : string) : NavigationHelper :=
  {| navigate := fun _ _ => Returns tt; currentPath := path |}.


(** The one call of a setter that is passed, as it is logged. *)
Definition whenPassed {St X}
    (setter : option (X -> St -> Completion unit * St)) (e : UiEvent)
    : list UiEvent :=
  match setter with
  | Some _ => [e]
  | None => []
  end.

(** The result of [initializeApp] when the initialization failed. *)
Definition initializationFailed : AppInitResult :=
  {| result_success := false; result_user := None;
     result_preferences := None;
     result_errors := Some ["Initialization failed"] |}.


(** A setter of the state of a component: it returns, and the browser is as
    it was. *)
Definition componentSetter {X St} : X -> St -> Completion unit * St :=
  fun _ s => (Returns tt, s).

(** A browser whose stored user record is not JSON text. *)
Definition brokenSessionBrowser : Browser ExamplePayload :=
  exampleBrowser {[USER_KEY := "oops"]} FetchPending.







(** ** AnalysisService *)

(** [AnalysisHistoryQuery]; the numbers are integers, and the values of the
    unions of string literals are held as the strings they are. *)
Record AnalysisHistoryQuery : Type := {
  query_page : option Z;
  query_limit : option Z;
  sortBy : option string;
  sortDirection : option string;
  query_status : option string;
  dateFrom : option string;
  dateTo : option string;
}.

(** [if (value) params[key] = String(value)] for a number, and
    [if (value) params[key] = value] for a string, on the object [params]
    in which the key is not yet set. *)
Definition numberParam (key : string) (value : option Z)
    : list (string * option string) :=
  match value with
  | Some n => if negb (n =? 0) then [(key, Some (pretty n))] else []
  | None => []
  end.

Definition stringParam (key : string) (value : option string)
    : list (string * option string) :=
  if truthy value then [(key, value)] else [].

(** The [params] that [getAnalysisHistory] builds. *)
Definition historyParams (query : AnalysisHistoryQuery)
    : list (string * option string) :=
  numberParam "page" (query_page query)
  ++ numberParam "limit" (query_limit query)
  ++ stringParam "sortBy" (sortBy query)
  ++ stringParam "sortDirection" (sortDirection query)
  ++ stringParam "status" (query_status query)
  ++ stringParam "dateFrom" (dateFrom query)
  ++ stringParam "dateTo" (dateTo query).

(** [File | string] *)
Inductive JobDescription : Type :=
| DescriptionFile (file : string)
| DescriptionText (text : string).

(** [AnalysisUploadRequest]; a file stands under its name. *)
Record AnalysisUploadRequest : Type := {
  resume : string;
  jobDescription : JobDescription;
  jobTitle : option string;
  companyName : option string;
  analysisType : option string;
  includeSkillSuggestions : option bool;
  includeExperienceGaps : option bool;
}.

(** [String(flag ?? true)] *)
Definition flagText (flag : option bool) : string :=
  if default true flag then "true" else "false".

(** [if (value) formData.append(key, value)] *)
Definition formField (key : string) (value : option string)
    : list (string * string) :=
  if truthy value then [(key, default "" value)] else [].

(** The form that [uploadAndAnalyze] fills. *)
Definition uploadForm (uploadData : AnalysisUploadRequest)
    : list (string * string) :=
  [("resume", resume uploadData)]
  ++ [match jobDescription uploadData with
      | DescriptionFile file => ("jobDescription", file)
      | DescriptionText text => ("jobDescriptionText", text)
      end]
  ++ formField "jobTitle" (jobTitle uploadData)
  ++ formField "companyName" (companyName uploadData)
  ++ formField "analysisType" (analysisType uploadData)
  ++ [("includeSkillSuggestions",
       flagText (includeSkillSuggestions uploadData));
      ("includeExperienceGaps", flagText (includeExperienceGaps uploadData))].

Section AnalysisService.
Context `{JsonRuntime} (baseUrl : string) {T : Type}.

(** [uploadAndAnalyze(uploadData, onProgress)]; [onProgress] is never
    used. *)
Definition uploadAndAnalyze (uploadData : AnalysisUploadRequest)
    : M T (Parsed T) :=
  tryCatch
    (post baseUrl "/analysis/upload"
       (Some (BodyFormData (uploadForm uploadData))) noOptions)
    (fun error =>
       consoleError "Analysis upload error:" error;;
       throw error).

(** [getAnalysisResult(analysisId)] *)
Definition getAnalysisResult (analysisId : string) : M T (Parsed T) :=
  tryCatch
    (get baseUrl ("/analysis/" +:+ analysisId) None noOptions)
    (fun error =>
       consoleError "Get analysis result error:" error;;
       throw error).

(** [getAnalysisHistory(query = {})] *)
Definition getAnalysisHistory (query : option AnalysisHistoryQuery)
    : M T (Parsed T) :=
  let query :=
    default
      {| query_page := None; query_limit := None; sortBy := None;
         sortDirection := None; query_status := None; dateFrom := None;
         dateTo := None |}
      query in
  tryCatch
    (get baseUrl "/analysis/history" (Some (historyParams query)) noOptions)
    (fun error =>
       consoleError "Get analysis history error:" error;;
       throw error).

(** [deleteAnalysis(analysisId)] *)
Definition deleteAnalysis (analysisId : string) : M T (Parsed T) :=
  tryCatch
    (delete_ baseUrl ("/analysis/" +:+ analysisId) noOptions)
    (fun error =>
       consoleError "Delete analysis error:" error;;
       throw error).
End AnalysisService.


(** A callback that throws. *)
Definition throwingCallback : M LoginData unit :=
  throw (ThrownError "Error" "render failed").



(** A reader of query strings, by which the query of [buildUrl] is shown to
    lose nothing: the pieces between the occurrences of a character, a
    parameter read from [key=value], and the parameters of a query. *)
Fixpoint splitOn (c : ascii) (s : string) : list string :=
  match s with
  | EmptyString => [EmptyString]
  | String d s' =>
      if Ascii.eqb c d then EmptyString :: splitOn c s'
      else
        match splitOn c s' with
        | piece :: pieces => String d piece :: pieces
        | [] => [String d EmptyString]
        end
  end.

Definition readParam (text : string) : string * string :=
  match splitOn "=" text with
  | key :: value :: _ => (percentDecode key, percentDecode value)
  | [key] => (percentDecode key, "")
  | [] => ("", "")
  end.

Definition readQuery (query : string) : list (string * string) :=
  map readParam (splitOn "&" query).


(** * Properties *)

(** ** AppController *)

Lemma startsWith_append (p rest : string) : startsWith (p +:+ rest) p = true.
Proof.
  induction p as [|c p IH]; simpl.
  - destruct rest; reflexivity.
  - rewrite Ascii.eqb_refl. exact IH.
Qed.

Lemma startsWith_inv (s p : string) :
  startsWith s p = true -> exists rest, s = p +:+ rest.
Proof.
  revert s. induction p as [|c p IH]; intros s Hs.
  - exists s. reflexivity.
  - destruct s as [|d s]; simpl in Hs; [discriminate|].
    destruct (Ascii.eqb c d) eqn:Hcd; [|discriminate].
    apply Ascii.eqb_eq in Hcd. subst d.
    destruct (IH s Hs) as [rest ->].
    exists rest. reflexivity.
Qed.

(** C10: [isProtectedRoute(path)] is true exactly when [path] starts with
    one of the five prefixes /upload, /results, /history, /profile,
    /settings; the paths /, /login and /signup are not protected, and every
    extension of a protected prefix is. *)
Theorem isProtectedRoute_prefixes (path : string) :
  (isProtectedRoute path = true <->
   exists route rest,
     In route ["/upload"; "/results"; "/history"; "/profile"; "/settings"]
     /\ path = route +:+ rest)
  /\ isProtectedRoute "/" = false
  /\ isProtectedRoute "/login" = false
  /\ isProtectedRoute "/signup" = false
  /\ (forall route rest,
        In route ["/upload"; "/results"; "/history"; "/profile"; "/settings"] ->
        isProtectedRoute (route +:+ rest) = true).
Proof.
  assert (Hext : forall route rest,
             In route protectedRoutes ->
             isProtectedRoute (route +:+ rest) = true).
  { intros route rest Hin. unfold isProtectedRoute.
    apply existsb_exists. exists route. split; [exact Hin|].
    apply startsWith_append. }
  repeat split; try reflexivity; try exact Hext.
  - unfold isProtectedRoute. intros Hp.
    apply existsb_exists in Hp. destruct Hp as (route & Hin & Hs).
    destruct (startsWith_inv _ _ Hs) as [rest ->].
    exists route, rest. split; [exact Hin|reflexivity].
  - intros (route & rest & Hin & ->). apply Hext, Hin.
Qed.

Lemma isProtectedRoute_prefixes_witness :
  isProtectedRoute "/results/42" = true /\ isProtectedRoute "/login" = false.
Proof.
  split.
  - apply (proj2 (proj1 (isProtectedRoute_prefixes "/results/42"))).
    exists "/results", "/42". split; [simpl; tauto|reflexivity].
  - apply (isProtectedRoute_prefixes "").
Defined.

(** C4: [isSessionActive(30)] depends on [now - lastActivity] only; it is
    false when the difference exceeds 30*60*1000 ms, true when the
    difference is smaller, and false when it is exactly 30*60*1000 ms. *)
Theorem isSessionActive_thirty_minutes (now lastActivity : Z) :
  (forall now' lastActivity',
      now' - lastActivity' = now - lastActivity ->
      isSessionActive (Some 30) now' lastActivity'
      = isSessionActive (Some 30) now lastActivity)
  /\ (now - lastActivity > 30 * 60 * 1000 ->
      isSessionActive (Some 30) now lastActivity = false)
  /\ (now - lastActivity < 30 * 60 * 1000 ->
      isSessionActive (Some 30) now lastActivity = true)
  /\ (now - lastActivity = 30 * 60 * 1000 ->
      isSessionActive (Some 30) now lastActivity = false).
Proof.
  unfold isSessionActive; simpl.
  split; [intros now' last' ->; reflexivity|].
  split; [intros Hgt; apply Z.ltb_ge; lia|].
  split; [intros Hlt; apply Z.ltb_lt; lia|].
  intros Heq; apply Z.ltb_ge; lia.
Qed.

Lemma isSessionActive_thirty_minutes_witness :
  isSessionActive (Some 30) 1800000 0 = false
  /\ isSessionActive (Some 30) 1799999 0 = true
  /\ isSessionActive (Some 30) 1800001 0 = false.
Proof.
  split; [|split].
  - apply (proj2 (proj2 (proj2 (isSessionActive_thirty_minutes 1800000 0)))).
    reflexivity.
  - apply (proj1 (proj2 (proj2 (isSessionActive_thirty_minutes 1799999 0)))).
    reflexivity.
  - apply (proj1 (proj2 (isSessionActive_thirty_minutes 1800001 0))).
    reflexivity.
Defined.

(** The default of [maxInactiveMinutes] is 30. *)
Lemma isSessionActive_default (now lastActivity : Z) :
  isSessionActive None now lastActivity
  = isSessionActive (Some 30) now lastActivity.
Proof. reflexivity. Qed.

(** ** BaseController: [createRetryOperation] *)

Lemma invocations_app (tr tr' : list RetryEvent) :
  invocations (tr ++ tr') = (invocations tr + invocations tr')%nat.
Proof. unfold invocations. rewrite List.filter_app, length_app. reflexivity. Qed.

Lemma invocations_invoked : invocations [Invoked] = 1%nat.
Proof. reflexivity. Qed.

Lemma invocations_waited (ms : Z) : invocations [Waited ms] = 0%nat.
Proof. reflexivity. Qed.

Section RetryFacts.
Context {St T : Type}.
Implicit Types (operation : @Operation St T) (s : St).



(** C3, as the code has it: with the default [maxRetries] of 3, an
    operation that fails twice and then succeeds yields its value; one that
    fails three times is invoked exactly three times, with a wait of
    [delay * 1] before the second and of [delay * 2] before the third
    invocation, and the error of the third invocation is rethrown as it is
    when it is an instance of [Error], and as [new Error('Unknown error')]
    when it is not; with [maxRetries <= 0] the operation is not invoked at
    all. *)
Theorem createRetryOperation_three_attempts operation (delay : option Z) s0 :
  (forall e1 s1 e2 s2 v s3,
      operation s0 = (Throws e1, s1) ->
      operation s1 = (Throws e2, s2) ->
      operation s2 = (Returns v, s3) ->
      createRetryOperation operation None delay s0
      = {| outcome := Some (Returns v); finalState := s3;
           trace := [Invoked; Waited (default 1000 delay * 1); Invoked;
                     Waited (default 1000 delay * 2); Invoked] |})
  /\ (forall e1 s1 e2 s2 e3 s3,
      operation s0 = (Throws e1, s1) ->
      operation s1 = (Throws e2, s2) ->
      operation s2 = (Throws e3, s3) ->
      createRetryOperation operation None delay s0
      = {| outcome :=
             Some (Throws (if instanceofError e3 then e3
                           else ThrownError "Error" "Unknown error"));
           finalState := s3;
           trace := [Invoked; Waited (default 1000 delay * 1); Invoked;
                     Waited (default 1000 delay * 2); Invoked] |})
  /\ (forall maxRetries,
      maxRetries <= 0 ->
      createRetryOperation operation (Some maxRetries) delay s0
      = {| outcome := Some (Throws (ThrownValue None)); finalState := s0;
           trace := [] |}).
Proof.
  split; [|split].
  - intros e1 s1 e2 s2 v s3 H1 H2 H3.
    unfold createRetryOperation. simpl. rewrite H1. simpl.
    rewrite H2. simpl. rewrite H3. reflexivity.
  - intros e1 s1 e2 s2 e3 s3 H1 H2 H3.
    unfold createRetryOperation. simpl. rewrite H1. simpl.
    rewrite H2. simpl. rewrite H3. reflexivity.
  - intros maxRetries Hle.
    unfold createRetryOperation. simpl.
    destruct (Z.to_nat maxRetries); simpl;
      destruct (1 <=? maxRetries) eqn:Hone;
      solve [reflexivity | apply Z.leb_le in Hone; lia].
Qed.
End RetryFacts.

Lemma createRetryOperation_three_attempts_witness :
  createRetryOperation (flakyOperation 2) None (Some 1000) 0%nat
  = {| outcome := Some (Returns 2%nat); finalState := 3%nat;
       trace := [Invoked; Waited 1000; Invoked; Waited 2000; Invoked] |}
  /\ createRetryOperation (flakyOperation 5) None (Some 1000) 0%nat
     = {| outcome := Some (Throws (ThrownError "Error" "unavailable"));
          finalState := 3%nat;
          trace := [Invoked; Waited 1000; Invoked; Waited 2000; Invoked] |}
  /\ createRetryOperation (flakyOperation 5) (Some 0) (Some 1000) 0%nat
     = {| outcome := Some (Throws (ThrownValue None)); finalState := 0%nat;
          trace := [] |}.
Proof.
  split; [|split].
  - apply (proj1 (createRetryOperation_three_attempts (flakyOperation 2)
                    (Some 1000) 0%nat)
             (ThrownError "Error" "unavailable") 1%nat
             (ThrownError "Error" "unavailable") 2%nat 2%nat 3%nat);
      reflexivity.
  - apply (proj1 (proj2 (createRetryOperation_three_attempts
                           (flakyOperation 5) (Some 1000) 0%nat))
             (ThrownError "Error" "unavailable") 1%nat
             (ThrownError "Error" "unavailable") 2%nat
             (ThrownError "Error" "unavailable") 3%nat);
      reflexivity.
  - apply (proj2 (proj2 (createRetryOperation_three_attempts
                           (flakyOperation 5) (Some 1000) 0%nat)) 0).
    lia.
Defined.

(** C3 as the specification words it fails where the operation rejects with
    a value that is not an [Error]: every invocation throws the string, and
    what the third attempt rethrows is a new [Error]. *)
Lemma createRetryOperation_rethrow_counterexample :
  (forall s, rejectsWithString s = (Throws (ThrownValue (Some (JStr "boom"))), s))
  /\ outcome (createRetryOperation rejectsWithString None None tt)
     = Some (Throws (ThrownError "Error" "Unknown error"))
  /\ invocations (trace (createRetryOperation rejectsWithString None None tt))
     = 3%nat
  /\ ThrownError "Error" "Unknown error" <> ThrownValue (Some (JStr "boom")).
Proof.
  split; [intros s; reflexivity|].
  split; [reflexivity|].
  split; [reflexivity|discriminate].
Qed.

(** ** BaseApiService: [prepareHeaders] and [request] *)

Lemma truthyString_true (s : string) : s <> "" -> truthyString s = true.
Proof.
  intros Hs. unfold truthyString. apply negb_true_iff.
  apply String.eqb_neq. exact Hs.
Qed.

Lemma truthy_Some (v : option string) :
  truthy v = true -> exists s, v = Some s /\ s <> "".
Proof.
  destruct v as [s|]; simpl; [|discriminate].
  unfold truthyString. intros Hs. apply negb_true_iff in Hs.
  apply String.eqb_neq in Hs. exists s. split; [reflexivity|exact Hs].
Qed.

Lemma logged_logged {T} (w : World T) (evs evs' : list Event) :
  logged (logged w evs) evs' = logged w (evs ++ evs').
Proof. unfold logged; simpl. rewrite <- app_assoc. reflexivity. Qed.

Section RequestFacts.
Context `{JsonRuntime} (baseUrl : string) {T : Type}.

(** One run of [request]: it sets the timer, calls [fetch] once, and ends
    as the race and [processResponse] decide; [localStorage] is not
    touched. *)
Lemma request_run (endpoint : string) (options : RequestOptions) (w : World T) :
  request baseUrl endpoint options w
  = (settled
       (race (default defaultTimeout (timeout options)) (timerWinsTies w)
          (network w (buildUrl baseUrl endpoint (params options))
             (configOf options (localStorage w)))),
     logged w
       [EvSetTimeout (default defaultTimeout (timeout options));
        EvFetch (buildUrl baseUrl endpoint (params options))
          (configOf options (localStorage w))]).
Proof.
  unfold request, configOf, mbind, M_bind, reads.
  destruct (attachBody _ _ _) as [prepared sent]; simpl.
  unfold tryCatch, fetchWithTimeout, mbind, M_bind, emit, awaitRace, settle,
    throw, settled.
  simpl. rewrite logged_logged. simpl.
  destruct (race _ _ _) as [response|error]; [|reflexivity].
  destruct (processResponse response); reflexivity.
Qed.
End RequestFacts.

Section HeaderFacts.
Context `{JsonRuntime} (baseUrl : string) {T : Type}.

Lemma defaultHeaders_no_authorization :
  defaultHeaders !! "Authorization" = None.
Proof. reflexivity. Qed.

Lemma attachBody_authorization method_ body_ (prepared : gmap string string) :
  (attachBody method_ body_ prepared).1 !! "Authorization"
  = prepared !! "Authorization".
Proof.
  unfold attachBody.
  destruct (truthyBody body_ && negb (Method_eqb method_ GET)); [|reflexivity].
  destruct body_ as [[entries|j]|]; simpl; try reflexivity.
  apply lookup_delete_ne. discriminate.
Qed.

(** C6: with [requireAuth] explicitly [false], [prepareHeaders] gives the
    same header set whatever [localStorage] holds, that set has an
    [Authorization] entry only if the caller's headers have it, and the
    configuration handed to [fetch] has no [Authorization] entry other than
    the caller's. *)
Theorem prepareHeaders_without_auth (options : RequestOptions) :
  requireAuth options = Some false ->
  (forall storage1 storage2 : gmap string string,
      prepareHeaders options storage1 = prepareHeaders options storage2)
  /\ (forall (storage : gmap string string) (value : string),
      prepareHeaders options storage !! "Authorization" = Some value ->
      exists callerHeaders : gmap string string,
        headers options = Some callerHeaders
        /\ callerHeaders !! "Authorization" = Some value)
  /\ (forall (endpoint : string) (w : World T),
      exists requestConfig,
        events (request baseUrl endpoint options w).2
        = events w
          ++ [EvSetTimeout (default defaultTimeout (timeout options));
              EvFetch (buildUrl baseUrl endpoint (params options)) requestConfig]
        /\ init_headers requestConfig !! "Authorization"
           = default ∅ (headers options) !! "Authorization").
Proof.
  intros Hauth.
  assert (Hprep : forall storage,
             prepareHeaders options storage
             = default ∅ (headers options) ∪ defaultHeaders).
  { intros storage. unfold prepareHeaders. rewrite Hauth.
    rewrite bool_decide_eq_true_2 by reflexivity. reflexivity. }
  assert (Hlook : forall storage,
             prepareHeaders options storage !! "Authorization"
             = default ∅ (headers options) !! "Authorization").
  { intros storage. rewrite Hprep, lookup_union, defaultHeaders_no_authorization.
    destruct (default ∅ (headers options) !! "Authorization"); reflexivity. }
  split; [|split].
  - intros storage1 storage2. rewrite !Hprep. reflexivity.
  - intros storage value. rewrite Hlook.
    destruct (headers options) as [callerHeaders|]; simpl.
    + intros Hv. exists callerHeaders. split; [reflexivity|exact Hv].
    + rewrite lookup_empty. discriminate.
  - intros endpoint w. rewrite request_run. simpl.
    eexists. split; [reflexivity|].
    unfold configOf; simpl.
    destruct (headers options) as [callerHeaders|] eqn:Hh; simpl.
    + reflexivity.
    + rewrite attachBody_authorization, Hlook. reflexivity.
Qed.

Lemma attachBody_headers method_ body_ (prepared : gmap string string) :
  (attachBody method_ body_ prepared).1
  = match body_ with
    | Some (BodyFormData _) =>
        if negb (Method_eqb method_ GET) then delete "Content-Type" prepared
        else prepared
    | _ => prepared
    end.
Proof.
  unfold attachBody. destruct body_ as [[entries|j]|]; simpl.
  - destruct (negb (Method_eqb method_ GET)); reflexivity.
  - destruct (truthyJson j && negb (Method_eqb method_ GET)); reflexivity.
  - reflexivity.
Qed.

(** C7, as the code has it by design: [prepareHeaders] gives the defaults
    merged with the caller's headers, the caller's value standing wherever
    both have a name, and over them the [Authorization] header unless
    [requireAuth] is [false]; when the caller supplies no headers, the set
    handed to [fetch] is this one, less [Content-Type] when a [FormData]
    body is sent. *)
Theorem request_headers_by_design (options : RequestOptions) :
  (forall storage : gmap string string,
      prepareHeaders options storage
      = (if bool_decide (requireAuth options = Some false) then ∅
         else getAuthHeaders storage)
        ∪ (default ∅ (headers options) ∪ defaultHeaders))
  /\ (forall (storage : gmap string string) token_,
      getToken storage = Some token_ ->
      token_ <> "" ->
      getAuthHeaders storage = {[ "Authorization" := "Bearer " +:+ token_ ]})
  /\ (forall storage : gmap string string,
      truthy (getToken storage) = false -> getAuthHeaders storage = ∅)
  /\ (forall name value,
      default ∅ (headers options) !! name = Some value ->
      (default ∅ (headers options) ∪ defaultHeaders) !! name = Some value)
  /\ (headers options = None ->
      forall (endpoint : string) (w : World T),
      exists requestConfig,
        events (request baseUrl endpoint options w).2
        = events w
          ++ [EvSetTimeout (default defaultTimeout (timeout options));
              EvFetch (buildUrl baseUrl endpoint (params options)) requestConfig]
        /\ init_headers requestConfig
           = if sendsFormData options
             then delete "Content-Type" (prepareHeaders options (localStorage w))
             else prepareHeaders options (localStorage w)).
Proof.
  split; [|split; [|split; [|split]]].
  - intros storage. unfold prepareHeaders.
    destruct (bool_decide (requireAuth options = Some false)); simpl.
    + rewrite (left_id_L ∅ (∪)). reflexivity.
    + reflexivity.
  - intros storage token_ Htoken Hne. unfold getAuthHeaders.
    rewrite Htoken. cbn [truthy]. rewrite (truthyString_true _ Hne).
    reflexivity.
  - intros storage Hnone. unfold getAuthHeaders. rewrite Hnone. reflexivity.
  - intros name value Hcaller. apply lookup_union_Some_l. exact Hcaller.
  - intros Hnone endpoint w. rewrite request_run. simpl.
    eexists. split; [reflexivity|].
    unfold configOf, sendsFormData; simpl.
    rewrite Hnone, attachBody_headers; simpl.
    destruct (body options) as [[entries|j]|]; reflexivity.
Qed.

(** Where the caller does supply headers, the spread of [restOptions] puts
    the caller's object in the configuration, in place of the prepared
    one. *)
Lemma request_caller_headers_replace_prepared (options : RequestOptions)
    (callerHeaders : gmap string string) (endpoint : string) (w : World T) :
  headers options = Some callerHeaders ->
  exists requestConfig,
    events (request baseUrl endpoint options w).2
    = events w
      ++ [EvSetTimeout (default defaultTimeout (timeout options));
          EvFetch (buildUrl baseUrl endpoint (params options)) requestConfig]
    /\ init_headers requestConfig = callerHeaders.
Proof.
  intros Hh. rewrite request_run. simpl.
  eexists. split; [reflexivity|].
  unfold configOf; simpl. rewrite Hh. reflexivity.
Qed.
End HeaderFacts.

Lemma prepareHeaders_without_auth_witness :
  requireAuth tracedWithoutAuth = Some false
  /\ prepareHeaders tracedWithoutAuth {[ TOKEN_KEY := "T1" ]}
     = prepareHeaders tracedWithoutAuth ∅.
Proof.
  split; [reflexivity|].
  apply (proj1 (prepareHeaders_without_auth exampleBaseUrl (T := unit)
                  tracedWithoutAuth eq_refl)).
Defined.

Lemma request_headers_by_design_witness :
  exists requestConfig,
    events (request exampleBaseUrl "/user/profile" noOptions
              (exampleWorld (T := unit) {[ TOKEN_KEY := "T1" ]} FetchPending)).2
    = [] ++ [EvSetTimeout 30000;
             EvFetch "http://localhost:8000/api/user/profile" requestConfig]
    /\ init_headers requestConfig
       = prepareHeaders noOptions {[ TOKEN_KEY := "T1" ]}.
Proof.
  exact (proj2 (proj2 (proj2 (proj2
                 (request_headers_by_design exampleBaseUrl noOptions))))
           eq_refl "/user/profile"
           (exampleWorld (T := unit) {[ TOKEN_KEY := "T1" ]} FetchPending)).
Defined.

(** C7 as the specification words it fails for a request that asks for
    authentication while a token is stored: the set handed to [fetch] has an
    [Authorization] entry, which the defaults merged with the caller's
    headers (here none) do not have. *)
Lemma request_headers_counterexample :
  events (request exampleBaseUrl "/user/profile" noOptions
            (exampleWorld (T := unit) {[ TOKEN_KEY := "T1" ]} FetchPending)).2
  = [EvSetTimeout 30000;
     EvFetch "http://localhost:8000/api/user/profile"
       {| init_method := GET;
          init_headers := <["Authorization" := "Bearer T1"]> defaultHeaders;
          init_body := None; init_requireAuth := None |}]
  /\ (<["Authorization" := "Bearer T1"]> defaultHeaders) !! "Authorization"
     = Some "Bearer T1"
  /\ (default ∅ (headers noOptions) ∪ defaultHeaders) !! "Authorization" = None.
Proof. split; [|split]; vm_compute; reflexivity. Qed.

(** ** BaseApiService: how [request] settles *)

Section RequestOutcomes.
Context `{JsonRuntime} (baseUrl : string) {T : Type}.

(** What holds of every call of [request]: the timer is set and [fetch] is
    called once, and nothing else is logged; if the timer is due before the
    fetch settles, or the fetch never settles, the call throws
    [ApiError('Request timeout', 408)]; if the fetch is fulfilled first, a
    status in the success range returns the parsed body (or the stand-in of
    a body that is not JSON), and a status outside it throws an [ApiError]
    with that status, unless the body is [null]; if the fetch is rejected
    first, what it threw is rethrown as an [ApiError] of status 0. *)
Lemma request_settles (endpoint : string) (options : RequestOptions)
    (w : World T) :
  let timeout_ := default defaultTimeout (timeout options) in
  let url := buildUrl baseUrl endpoint (params options) in
  let requestConfig := configOf options (localStorage w) in
  let result := (request baseUrl endpoint options w).1 in
  events (request baseUrl endpoint options w).2
  = events w ++ [EvSetTimeout timeout_; EvFetch url requestConfig]
  /\ localStorage (request baseUrl endpoint options w).2 = localStorage w
  /\ match network w url requestConfig with
     | FetchResolves ms response =>
         (timeout_ < ms -> result = Throws timeoutError)
         /\ (ms < timeout_ -> ok response = true ->
             result = Returns (default invalidFormat (json response)))
         /\ (ms < timeout_ -> ok response = false ->
             forall envelope,
               default invalidFormat (json response) = ParsedEnvelope envelope ->
               result
               = Throws
                   (ApiError
                      (orElse (message envelope)
                         ("HTTP " +:+ pretty (status response) +:+ ": "
                          +:+ statusText response))
                      (status response) (errors envelope)))
         /\ (ms < timeout_ -> ok response = false ->
             json response = Some ParsedNull ->
             result = Throws (ApiError (nullReadMessage "message") 0 None))
     | FetchRejects ms error =>
         (timeout_ < ms -> result = Throws timeoutError)
         /\ (ms < timeout_ -> result = Throws (asApiError error))
     | FetchPending => result = Throws timeoutError
     end.
Proof.
  intros timeout_ url requestConfig result.
  subst result. rewrite request_run. simpl.
  fold timeout_ url requestConfig.
  split; [reflexivity|]. split; [reflexivity|].
  assert (Hlate : forall ms, timeout_ < ms ->
                  (ms <? timeout_) || (ms =? timeout_) && negb (timerWinsTies w)
                  = false).
  { intros ms Hlt. apply orb_false_iff. split; [apply Z.ltb_ge; lia|].
    apply andb_false_iff. left. apply Z.eqb_neq. lia. }
  assert (Hearly : forall ms, ms < timeout_ ->
                   (ms <? timeout_) || (ms =? timeout_) && negb (timerWinsTies w)
                   = true).
  { intros ms Hlt. apply orb_true_iff. left. apply Z.ltb_lt. exact Hlt. }
  destruct (network w url requestConfig) as [ms response|ms error|];
    unfold race, settled.
  - split; [intros Hlt; rewrite (Hlate ms Hlt); reflexivity|].
    unfold processResponse, invalidFormat.
    split; [|split].
    + intros Hlt Hok. rewrite (Hearly ms Hlt), Hok.
      destruct (json response); reflexivity.
    + intros Hlt Hok envelope Henv. rewrite (Hearly ms Hlt), Hok.
      destruct (json response) as [[|envelope']|]; simpl in *;
        try discriminate; inversion Henv; subst; reflexivity.
    + intros Hlt Hok Hnull. rewrite (Hearly ms Hlt), Hok, Hnull. reflexivity.
  - split; intros Hlt.
    + rewrite (Hlate ms Hlt). reflexivity.
    + rewrite (Hearly ms Hlt). reflexivity.
  - reflexivity.
Qed.
End RequestOutcomes.

(** C1 fails on the code for a response outside the success range whose
    body is the JSON text [null]: reading [responseData.message] throws a
    [TypeError], which the [catch] of [request] turns into an [ApiError] of
    status 0, so the status 500 of the response is lost. *)
Theorem request_null_error_body_loses_status :
  let response := respond (T := unit) 500 "Internal Server Error" (Some ParsedNull) in
  ok response = false
  /\ (request exampleBaseUrl "/analysis/7" noOptions
        (exampleWorld ∅ (FetchResolves 120 response))).1
     = Throws
         (ApiError "Cannot read properties of null (reading 'message')" 0 None).
Proof. split; vm_compute; reflexivity. Qed.

(** ** AuthService *)

Section AuthFacts.
Context `{JsonRuntime} (baseUrl : string).

Lemma setAuthData_run {T} user_ token_ refreshToken_ (w : World T) :
  setAuthData user_ token_ refreshToken_ w
  = (Returns tt,
     stored w (afterSetAuthData user_ token_ refreshToken_ (localStorage w))).
Proof.
  unfold setAuthData, afterSetAuthData, mbind, M_bind, setItem, mret, M_ret.
  simpl. destruct (truthy refreshToken_); reflexivity.
Qed.

Lemma afterSetAuthData_lookup user_ token_ refreshToken_
    (storage : gmap string string) :
  afterSetAuthData user_ token_ refreshToken_ storage !! TOKEN_KEY = Some token_
  /\ afterSetAuthData user_ token_ refreshToken_ storage !! USER_KEY
     = Some (JSON_stringify (userJson user_))
  /\ afterSetAuthData user_ token_ refreshToken_ storage !! REFRESH_TOKEN_KEY
     = if truthy refreshToken_ then refreshToken_
       else storage !! REFRESH_TOKEN_KEY.
Proof.
  unfold afterSetAuthData.
  destruct (truthy refreshToken_) eqn:Hr.
  - destruct (truthy_Some _ Hr) as (r & -> & _). simpl.
    rewrite lookup_insert_ne by discriminate.
    rewrite lookup_insert_ne by discriminate.
    rewrite lookup_insert_eq.
    rewrite lookup_insert_ne by discriminate.
    rewrite !lookup_insert_eq. auto.
  - rewrite lookup_insert_ne by discriminate.
    rewrite !lookup_insert_eq.
    rewrite !lookup_insert_ne by discriminate. auto.
Qed.

(** With a token that is not empty and a user record written by
    [setAuthData] in [localStorage], [isAuthenticated()] is true. *)
Lemma isAuthenticated_stored {T} (w : World T) (token_ : string) (user_ : User) :
  localStorage w !! TOKEN_KEY = Some token_ ->
  localStorage w !! USER_KEY = Some (JSON_stringify (userJson user_)) ->
  token_ <> "" ->
  isAuthenticated w = (Returns true, w).
Proof.
  intros Htoken Huser Hne.
  unfold isAuthenticated, getStoredUser, mbind, M_bind, reads, getItem, getToken.
  rewrite Htoken, Huser. simpl.
  unfold userJson.
  rewrite (truthyString_true _ (stringify_object_nonempty _)).
  destruct (parse_stringify_object
              ([("id", JStr (id user_)); ("email", JStr (email user_));
                ("firstName", JStr (firstName user_));
                ("lastName", JStr (lastName user_));
                ("createdAt", JStr (createdAt user_))]
               ++ match lastLogin user_ with
                  | Some t => [("lastLogin", JStr t)]
                  | None => []
                  end)) as [fields' Hparse].
  rewrite Hparse. simpl.
  rewrite (truthyString_true _ Hne). reflexivity.
Qed.

(** C2, as the code has it: [login] always returns and never throws.  When
    the POST settles with an envelope that has [success] true and a payload,
    the result has [success] true and the payload's token and user are
    stored under their keys (the refresh token too, when the payload has
    one that is not empty), and [isAuthenticated()] is true afterwards
    provided the token is not the empty string.  In every other case the
    result has [success] false and a message, and [localStorage] is as it
    was. *)
Theorem login_returns (credentials : LoginCredentials) (w : World LoginData) :
  let posted :=
    (post baseUrl "/auth/login"
       (Some (BodyJson (JObj (loginCredentialsFields credentials))))
       withoutAuth w).1 in
  exists response w',
    login baseUrl credentials w = (Returns response, w')
    /\ match payloadOf posted with
       | Some d =>
           auth_success response = true
           /\ auth_user response = Some (user d)
           /\ auth_token response = Some (token d)
           /\ localStorage w' !! TOKEN_KEY = Some (token d)
           /\ localStorage w' !! USER_KEY
              = Some (JSON_stringify (userJson (user d)))
           /\ localStorage w' !! REFRESH_TOKEN_KEY
              = (if truthy (refreshToken d) then refreshToken d
                 else localStorage w !! REFRESH_TOKEN_KEY)
           /\ (token d <> "" -> (isAuthenticated w').1 = Returns true)
       | None =>
           auth_success response = false
           /\ (exists m, auth_message response = Some m)
           /\ localStorage w' = localStorage w
       end.
Proof.
  intros posted. subst posted.
  unfold login, post, tryCatch, mbind, M_bind.
  rewrite request_run. cbn [fst].
  destruct (settled _) as [[|envelope]|error]; cbn [payloadOf envelopeOf throw].
  - eexists _, _. split; [reflexivity|]. simpl. eauto.
  - unfold mret, M_ret.
    destruct (success envelope); [destruct (data envelope) as [d|]|].
    + rewrite setAuthData_run. eexists _, _. split; [reflexivity|].
      cbn [auth_success auth_user auth_token].
      destruct (afterSetAuthData_lookup (user d) (token d) (refreshToken d)
                  (localStorage w)) as (Htoken & Huser & Hrefresh).
      cbn [stored logged localStorage].
      repeat split; try assumption.
      intros Hne.
      erewrite isAuthenticated_stored; [reflexivity| | |exact Hne];
        cbn [stored logged localStorage]; eassumption.
    + eexists _, _. split; [reflexivity|]. simpl. eauto.
    + eexists _, _. split; [reflexivity|]. simpl. eauto.
  - eexists _, _. split; [reflexivity|]. simpl. eauto.
Qed.
End AuthFacts.

Lemma login_returns_witness :
  exists response w',
    login exampleBaseUrl exampleCredentials
      (loginWorld (examplePayload "T1" (Some "R1")))
    = (Returns response, w')
    /\ auth_success response = true
    /\ localStorage w' !! TOKEN_KEY = Some "T1"
    /\ localStorage w' !! REFRESH_TOKEN_KEY = Some "R1"
    /\ (isAuthenticated w').1 = Returns true.
Proof.
  destruct (login_returns exampleBaseUrl exampleCredentials
              (loginWorld (examplePayload "T1" (Some "R1"))))
    as (response & w' & Hrun & Hcase).
  change (payloadOf _) with (Some (examplePayload "T1" (Some "R1"))) in Hcase.
  destruct Hcase as (Hs & _ & _ & Ht & _ & Hr & Hauth).
  exists response, w'.
  split; [exact Hrun|]. split; [exact Hs|]. split; [exact Ht|].
  split; [exact Hr|]. apply Hauth. discriminate.
Defined.

(** C2 as the specification words it fails for a payload whose token is
    the empty string: [login] reports success and stores the token, and
    [isAuthenticated()] is false afterwards. *)
Lemma login_empty_token_counterexample :
  (login exampleBaseUrl exampleCredentials
     (loginWorld (examplePayload "" None))).1
  = Returns
      {| auth_success := true; auth_user := Some exampleUser;
         auth_token := Some ""; auth_message := Some "Login successful";
         auth_errors := None |}
  /\ localStorage
       (login exampleBaseUrl exampleCredentials
          (loginWorld (examplePayload "" None))).2 !! TOKEN_KEY
     = Some ""
  /\ (isAuthenticated
        (login exampleBaseUrl exampleCredentials
           (loginWorld (examplePayload "" None))).2).1
     = Returns false.
Proof. split; [|split]; vm_compute; reflexivity. Qed.

Section LogoutFacts.
Context `{JsonRuntime} (baseUrl : string) {T : Type}.

Lemma clearAuthData_run (w : World T) :
  clearAuthData w = (Returns tt, stored w (afterClearAuthData (localStorage w))).
Proof. reflexivity. Qed.

Lemma afterClearAuthData_lookup (storage : gmap string string) :
  afterClearAuthData storage !! TOKEN_KEY = None
  /\ afterClearAuthData storage !! USER_KEY = None
  /\ afterClearAuthData storage !! REFRESH_TOKEN_KEY = None
  /\ (forall key, key <> TOKEN_KEY -> key <> USER_KEY ->
                  key <> REFRESH_TOKEN_KEY ->
                  afterClearAuthData storage !! key = storage !! key).
Proof.
  unfold afterClearAuthData. repeat split.
  - rewrite !lookup_delete_ne by discriminate. apply lookup_delete_eq.
  - rewrite lookup_delete_ne by discriminate. apply lookup_delete_eq.
  - apply lookup_delete_eq.
  - intros key H1 H2 H3. rewrite !lookup_delete_ne by congruence. reflexivity.
Qed.

(** The request of [logout] is built while the token is still stored: it
    carries the token in its [Authorization] header. *)
Lemma logout_request_carries_token (storage : gmap string string)
    (token_ : string) :
  getToken storage = Some token_ ->
  token_ <> "" ->
  init_headers (configOf logoutOptions storage) !! "Authorization"
  = Some ("Bearer " +:+ token_).
Proof.
  intros Htoken Hne.
  unfold configOf, logoutOptions, attachBody, prepareHeaders, getAuthHeaders.
  cbn [headers body method requireAuth default from_option init_headers fst
       truthyBody truthyJson Method_eqb negb andb].
  rewrite bool_decide_eq_false_2 by discriminate. cbn [negb fst].
  rewrite Htoken. cbn [truthy]. rewrite (truthyString_true _ Hne).
  apply lookup_union_Some_l. apply lookup_singleton_eq.
Qed.

(** C5: [logout] always returns, never throws, and leaves none of the three
    keys in [localStorage] (and every other key as it was).  When a token
    is stored (a string that is not empty), it first sets the timer and
    POSTs to the logout endpoint, once, with the token in the
    [Authorization] header, and logs the error if that call throws; when no
    token is stored there is no network call. *)
Theorem logout_always_clears (w : World T) :
  let posted :=
    (post baseUrl "/auth/logout" (Some (BodyJson (JObj []))) noOptions w).1 in
  exists w',
    logout baseUrl w = (Returns tt, w')
    /\ localStorage w' !! TOKEN_KEY = None
    /\ localStorage w' !! USER_KEY = None
    /\ localStorage w' !! REFRESH_TOKEN_KEY = None
    /\ (forall key, key <> TOKEN_KEY -> key <> USER_KEY ->
                    key <> REFRESH_TOKEN_KEY ->
                    localStorage w' !! key = localStorage w !! key)
    /\ init_method (configOf logoutOptions (localStorage w)) = POST
    /\ (forall token_,
        getToken (localStorage w) = Some token_ ->
        token_ <> "" ->
        init_headers (configOf logoutOptions (localStorage w)) !! "Authorization"
        = Some ("Bearer " +:+ token_))
    /\ events w'
       = events w
         ++ (if truthy (getToken (localStorage w)) then
               [EvSetTimeout defaultTimeout;
                EvFetch (buildUrl baseUrl "/auth/logout" None)
                  (configOf logoutOptions (localStorage w))]
               ++ match posted with
                  | Returns _ => []
                  | Throws error => [EvConsoleError "Logout error:" error]
                  end
             else []).
Proof.
  intros posted. subst posted.
  destruct (afterClearAuthData_lookup (localStorage w)) as (Ht & Hu & Hr & Hk).
  pose proof (logout_request_carries_token (localStorage w)) as Hauth.
  unfold logout, tryFinally, tryCatch, mbind, M_bind, reads, post.
  cbn [fst snd].
  destruct (truthy (getToken (localStorage w))).
  - fold logoutOptions. rewrite request_run. cbn [fst].
    destruct (settled _) as [parsed|error].
    + unfold mret, M_ret. rewrite clearAuthData_run.
      eexists. split; [reflexivity|].
      cbn [stored logged localStorage events].
      repeat split; try assumption.
    + unfold consoleError, emit. rewrite logged_logged, clearAuthData_run.
      eexists. split; [reflexivity|].
      cbn [stored logged localStorage events].
      repeat split; try assumption.
  - unfold mret, M_ret. rewrite clearAuthData_run.
    eexists. split; [reflexivity|].
    cbn [stored logged localStorage events].
    rewrite app_nil_r. repeat split; try assumption.
Qed.
End LogoutFacts.

Lemma logout_always_clears_witness :
  exists w',
    logout exampleBaseUrl
      (exampleWorld (T := unit)
         (<[TOKEN_KEY := "T1"]> (<[USER_KEY := "{}"]> (<["theme" := "dark"]> ∅)))
         (FetchRejects 15 (ThrownError "TypeError" "Failed to fetch")))
    = (Returns tt, w')
    /\ localStorage w' !! TOKEN_KEY = None
    /\ localStorage w' !! USER_KEY = None
    /\ localStorage w' !! "theme" = Some "dark".
Proof.
  destruct (logout_always_clears exampleBaseUrl
              (exampleWorld (T := unit)
                 (<[TOKEN_KEY := "T1"]>
                    (<[USER_KEY := "{}"]> (<["theme" := "dark"]> ∅)))
                 (FetchRejects 15 (ThrownError "TypeError" "Failed to fetch"))))
    as (w' & Hrun & Ht & Hu & _ & Hk & _).
  exists w'. split; [exact Hrun|]. split; [exact Ht|]. split; [exact Hu|].
  rewrite Hk by discriminate. reflexivity.
Defined.

Section RefreshFacts.
Context `{JsonRuntime} (baseUrl : string).

(** C8: [refreshAuthToken] always returns.  With no refresh token stored it
    returns [{ success: false }] and the world is as it was: no timer, no
    [fetch], nothing logged.  With one stored, when the POST settles with a
    successful envelope and a payload, the token key holds the new token,
    and the refresh-token key holds the new refresh token if the payload
    has one (that is not empty) and is as it was otherwise; in every other
    case [localStorage] is as it was.  In all cases the user key is as it
    was. *)
Theorem refreshAuthToken_frame (w : World RefreshData) :
  exists result w',
    refreshAuthToken baseUrl w = (Returns result, w')
    /\ localStorage w' !! USER_KEY = localStorage w !! USER_KEY
    /\ (truthy (getRefreshToken (localStorage w)) = false ->
        result = {| refresh_success := false; refresh_token := None |}
        /\ w' = w)
    /\ (forall stored_,
        getRefreshToken (localStorage w) = Some stored_ ->
        stored_ <> "" ->
        match
          payloadOf
            (post baseUrl "/auth/refresh"
               (Some (BodyJson (JObj [("refreshToken", JStr stored_)])))
               withoutAuth w).1
        with
        | Some d =>
            result = {| refresh_success := true;
                        refresh_token := Some (new_token d) |}
            /\ localStorage w' !! TOKEN_KEY = Some (new_token d)
            /\ localStorage w' !! REFRESH_TOKEN_KEY
               = (if truthy (new_refreshToken d) then new_refreshToken d
                  else Some stored_)
        | None =>
            refresh_success result = false
            /\ localStorage w' = localStorage w
        end).
Proof.
  unfold refreshAuthToken, tryCatch, mbind, M_bind, reads, post.
  cbn [fst snd].
  destruct (truthy (getRefreshToken (localStorage w))) eqn:Hstored.
  - destruct (truthy_Some _ Hstored) as (r & Hr & Hne).
    rewrite Hr. cbn [negb]. change (default "" (Some r)) with r.
    rewrite request_run. cbn [fst].
    destruct (settled _) as [[|envelope]|error] eqn:Hposted;
      cbn [envelopeOf throw].
    + eexists _, _. split; [reflexivity|]. split; [reflexivity|].
      split; [discriminate|].
      intros r' Hr' _. inversion Hr'; subst r'.
      rewrite request_run. cbn [fst]. rewrite Hposted. simpl. auto.
    + unfold mret, M_ret.
      destruct (success envelope) eqn:Hs; [destruct (data envelope) as [d|] eqn:Hd|].
      * unfold setItem.
        destruct (truthy (new_refreshToken d)) eqn:Hnew.
        -- eexists _, _. split; [reflexivity|].
           cbn [stored logged localStorage].
           split.
           { rewrite !lookup_insert_ne by discriminate. reflexivity. }
           split; [discriminate|].
           intros r' Hr' _. inversion Hr'; subst r'.
           rewrite request_run. cbn [fst]. rewrite Hposted.
           cbn [payloadOf]. rewrite Hs, Hd, Hnew.
           split; [reflexivity|].
           destruct (truthy_Some _ Hnew) as (n & Hn & _). rewrite Hn. simpl.
           rewrite lookup_insert_ne by discriminate.
           rewrite !lookup_insert_eq. auto.
        -- eexists _, _. split; [reflexivity|].
           cbn [stored logged localStorage].
           split.
           { rewrite !lookup_insert_ne by discriminate. reflexivity. }
           split; [discriminate|].
           intros r' Hr' _. inversion Hr'; subst r'.
           rewrite request_run. cbn [fst]. rewrite Hposted.
           cbn [payloadOf]. rewrite Hs, Hd, Hnew.
           split; [reflexivity|].
           rewrite lookup_insert_eq.
           rewrite lookup_insert_ne by discriminate. auto.
      * eexists _, _. split; [reflexivity|]. split; [reflexivity|].
        split; [discriminate|].
        intros r' Hr' _. inversion Hr'; subst r'.
        rewrite request_run. cbn [fst]. rewrite Hposted.
        cbn [payloadOf]. rewrite Hs, Hd. simpl. auto.
      * eexists _, _. split; [reflexivity|]. split; [reflexivity|].
        split; [discriminate|].
        intros r' Hr' _. inversion Hr'; subst r'.
        rewrite request_run. cbn [fst]. rewrite Hposted.
        cbn [payloadOf]. rewrite Hs. simpl. auto.
    + eexists _, _. split; [reflexivity|]. split; [reflexivity|].
      split; [discriminate|].
      intros r' Hr' _. inversion Hr'; subst r'.
      rewrite request_run. cbn [fst]. rewrite Hposted. simpl. auto.
  - cbn [negb]. unfold mret, M_ret.
    eexists _, _. split; [reflexivity|]. split; [reflexivity|].
    split; [auto|].
    intros r Hr Hne. rewrite Hr in Hstored. simpl in Hstored.
    rewrite (truthyString_true _ Hne) in Hstored. discriminate.
Qed.
End RefreshFacts.

Lemma refreshAuthToken_frame_witness :
  exists result w',
    refreshAuthToken exampleBaseUrl refreshWorld = (Returns result, w')
    /\ refresh_success result = true
    /\ localStorage w' !! TOKEN_KEY = Some "T2"
    /\ localStorage w' !! REFRESH_TOKEN_KEY = Some "R1"
    /\ localStorage w' !! USER_KEY = Some "{}".
Proof.
  destruct (refreshAuthToken_frame exampleBaseUrl refreshWorld)
    as (result & w' & Hrun & Huser & _ & Hcase).
  specialize (Hcase "R1" eq_refl).
  change (payloadOf _)
    with (Some {| new_token := "T2"; new_refreshToken := None |}) in Hcase.
  destruct Hcase as (Hres & Ht & Hr); [discriminate|].
  exists result, w'. split; [exact Hrun|].
  split; [rewrite Hres; reflexivity|].
  split; [exact Ht|]. split; [exact Hr|].
  rewrite Huser. reflexivity.
Defined.

Section SignupFacts.
Context `{JsonRuntime} (baseUrl : string).

Lemma objectRest_confirmPassword (credentials : SignupCredentials) :
  objectRest ["confirmPassword"] (signupCredentialsFields credentials)
  = signupDataOf credentials.
Proof. reflexivity. Qed.

(** C9: [signup] calls [fetch] once, with a POST to /auth/signup whose body
    is the JSON text of the credentials without [confirmPassword], and logs
    nothing else but a caught error; two credentials that differ in
    [confirmPassword] only make [signup] run the same way; and the form
    rejects values whose [password] and [confirmPassword] differ without
    touching the world, so without a network call. *)
Theorem signup_never_sends_confirmPassword (credentials : SignupCredentials)
    (w : World LoginData) :
  (exists requestConfig logs,
      events (signup baseUrl credentials w).2
      = events w
        ++ [EvSetTimeout defaultTimeout;
            EvFetch (buildUrl baseUrl "/auth/signup" None) requestConfig]
        ++ logs
      /\ init_method requestConfig = POST
      /\ init_body requestConfig
         = Some (SentText (JSON_stringify (JObj (signupDataOf credentials))))
      /\ (forall e, In e logs -> exists label error, e = EvConsoleError label error))
  /\ signupDataOf credentials
     = List.filter (fun kv => negb (String.eqb kv.1 "confirmPassword"))
         (signupCredentialsFields credentials)
  /\ (forall other : SignupCredentials,
      signup_email other = signup_email credentials ->
      signup_password other = signup_password credentials ->
      signup_firstName other = signup_firstName credentials ->
      signup_lastName other = signup_lastName credentials ->
      signup baseUrl other w = signup baseUrl credentials w)
  /\ (forall (isEmail : string -> bool) (onSuccess : option (M LoginData unit)),
      signup_password credentials <> confirmPassword credentials ->
      exists issues,
        handleSubmit baseUrl isEmail onSuccess credentials w
        = (Returns (Rejected issues), w)
        /\ In passwordsDontMatch issues).
Proof.
  split; [|split; [reflexivity|split]].
  - unfold signup, tryCatch, mbind, M_bind, post.
    rewrite objectRest_confirmPassword, request_run. cbn [fst snd].
    eexists _.
    destruct (settled _) as [[|envelope]|error]; cbn [envelopeOf throw];
      unfold consoleError, emit, mret, M_ret; rewrite ?logged_logged.
    + eexists [_]. split; [reflexivity|].
      split; [reflexivity|]. split; [reflexivity|].
      intros e [<-|[]]. eauto.
    + destruct (success envelope); [destruct (data envelope) as [d|]|].
      * rewrite setAuthData_run. exists [].
        split; [reflexivity|]. split; [reflexivity|]. split; [reflexivity|].
        intros e [].
      * exists [].
        split; [reflexivity|]. split; [reflexivity|]. split; [reflexivity|].
        intros e [].
      * exists [].
        split; [reflexivity|]. split; [reflexivity|]. split; [reflexivity|].
        intros e [].
    + eexists [_]. split; [reflexivity|].
      split; [reflexivity|]. split; [reflexivity|].
      intros e [<-|[]]. eauto.
  - intros other He Hp Hf Hl. unfold signup.
    rewrite !objectRest_confirmPassword. unfold signupDataOf.
    rewrite He, Hp, Hf, Hl. reflexivity.
  - intros isEmail onSuccess Hdiff.
    assert (Hin : In passwordsDontMatch (signupSchema isEmail credentials)).
    { unfold signupSchema. rewrite !in_app_iff. do 4 right.
      apply String.eqb_neq in Hdiff. rewrite Hdiff. left. reflexivity. }
    unfold handleSubmit.
    destruct (signupSchema isEmail credentials) as [|issue issues].
    + destruct Hin.
    + eexists. split; [reflexivity|exact Hin].
Qed.
End SignupFacts.

Lemma signup_never_sends_confirmPassword_witness :
  signup exampleBaseUrl (exampleSignup "typo")
    (loginWorld (examplePayload "T1" None))
  = signup exampleBaseUrl (exampleSignup "secret123")
      (loginWorld (examplePayload "T1" None))
  /\ exists issues,
       handleSubmit exampleBaseUrl (fun _ => true) None (exampleSignup "typo")
         (loginWorld (examplePayload "T1" None))
       = (Returns (Rejected issues), loginWorld (examplePayload "T1" None))
       /\ In passwordsDontMatch issues.
Proof.
  split.
  - apply (proj1 (proj2 (proj2 (signup_never_sends_confirmPassword
                                  exampleBaseUrl (exampleSignup "secret123")
                                  (loginWorld (examplePayload "T1" None))))));
      reflexivity.
  - apply (proj2 (proj2 (proj2 (signup_never_sends_confirmPassword
                                  exampleBaseUrl (exampleSignup "typo")
                                  (loginWorld (examplePayload "T1" None)))))).
    discriminate.
Defined.

(** * Further properties of the code *)

(** ** BaseApiService: URLs *)

Lemma stripTrailingSlash_append (b : string) :
  stripTrailingSlash (b +:+ "/") = b.
Proof.
  induction b as [|c b IH]; [reflexivity|].
  simpl. destruct b as [|d b]; simpl in *; [reflexivity|].
  rewrite IH. reflexivity.
Qed.

(** A slash at the end of the base URL given to the constructor and a
    slash at the start of the endpoint do not matter: the URL is the base,
    one slash, and the endpoint. *)
Theorem buildUrl_slashes (b e : string) (env : option string) :
  startsWith e "/" = false ->
  newBaseApiService (Some (b +:+ "/")) env = b
  /\ (forall params_,
        buildUrl b ("/" +:+ e) params_ = buildUrl b e params_)
  /\ buildUrl b e None = b +:+ "/" +:+ e.
Proof.
  intros He.
  split; [apply stripTrailingSlash_append|].
  assert (Hurl : b +:+ (if startsWith ("/" +:+ e) "/" then "" else "/")
                 +:+ ("/" +:+ e)
                 = b +:+ (if startsWith e "/" then "" else "/") +:+ e).
  { rewrite He. reflexivity. }
  split.
  - intros params_. unfold buildUrl. rewrite Hurl. reflexivity.
  - unfold buildUrl. rewrite He. reflexivity.
Qed.

Lemma buildUrl_slashes_witness :
  newBaseApiService (Some "http://localhost:8000/api/") None
  = "http://localhost:8000/api"
  /\ buildUrl "http://localhost:8000/api" "/health" None
     = buildUrl "http://localhost:8000/api" "health" None.
Proof.
  split.
  - apply (proj1 (buildUrl_slashes "http://localhost:8000/api" "health" None
                    eq_refl)).
  - apply (proj1 (proj2 (buildUrl_slashes "http://localhost:8000/api" "health"
                           None eq_refl))).
Defined.

Lemma countChar_append (c : ascii) (s t : string) :
  countChar c (s +:+ t) = (countChar c s + countChar c t)%nat.
Proof.
  induction s as [|d s IH]; simpl; [reflexivity|]. rewrite IH. lia.
Qed.

Lemma percentDecode_encodeURIComponent (s : string) :
  percentDecode (encodeURIComponent s) = s.
Proof.
  induction s as [|c s IH]; [reflexivity|].
  change (encodeURIComponent (String c s))
    with ((if unreservedChar c then String c "" else percentEncode c)
          +:+ encodeURIComponent s).
  destruct c as [[] [] [] [] [] [] [] []];
    simpl; change ("" +:+ encodeURIComponent s) with (encodeURIComponent s);
    rewrite IH; reflexivity.
Qed.

(** [encodeURIComponent] loses nothing: two strings with the same encoding
    are the same string. *)
Theorem encodeURIComponent_injective (s t : string) :
  encodeURIComponent s = encodeURIComponent t -> s = t.
Proof.
  intros Heq.
  rewrite <- (percentDecode_encodeURIComponent s),
    <- (percentDecode_encodeURIComponent t), Heq.
  reflexivity.
Qed.

Lemma encodeURIComponent_injective_witness :
  encodeURIComponent "a&b=c" = "a%26b%3Dc" /\ "a&b=c" = "a&b=c".
Proof.
  split; [reflexivity|].
  apply (encodeURIComponent_injective "a&b=c" "a&b=c"). reflexivity.
Defined.

Lemma encodeURIComponent_no_delimiter (s : string) :
  countChar "&" (encodeURIComponent s) = 0%nat
  /\ countChar "=" (encodeURIComponent s) = 0%nat.
Proof.
  induction s as [|c s [IHa IHe]]; [split; reflexivity|].
  change (encodeURIComponent (String c s))
    with ((if unreservedChar c then String c "" else percentEncode c)
          +:+ encodeURIComponent s).
  rewrite !countChar_append, IHa, IHe.
  destruct c as [[] [] [] [] [] [] [] []]; split; reflexivity.
Qed.

Lemma query_counts (kept : list (string * string)) :
  kept <> [] ->
  let q :=
    String.concat "&"
      (map (fun '(key, value) =>
              encodeURIComponent key +:+ "=" +:+ encodeURIComponent value)
         kept) in
  countChar "&" q = (length kept - 1)%nat /\ countChar "=" q = length kept.
Proof.
  induction kept as [|[key value] kept IH]; [congruence|]. intros _.
  assert (Hone : countChar "&"
                   (encodeURIComponent key +:+ "=" +:+ encodeURIComponent value)
                 = 0%nat
                 /\ countChar "="
                      (encodeURIComponent key +:+ "=" +:+ encodeURIComponent value)
                    = 1%nat).
  { rewrite !countChar_append.
    destruct (encodeURIComponent_no_delimiter key) as [-> ->].
    destruct (encodeURIComponent_no_delimiter value) as [-> ->].
    split; reflexivity. }
  destruct Hone as [Ha He].
  remember (encodeURIComponent key +:+ "=" +:+ encodeURIComponent value) as x.
  destruct kept as [|[key' value'] kept].
  - cbn [map String.concat length]. rewrite <- Heqx, Ha, He.
    split; reflexivity.
  - destruct IH as [IHa IHe]; [discriminate|].
    cbn [map String.concat length] in *. rewrite <- Heqx.
    remember (String.concat "&" _) as rest.
    rewrite !countChar_append, Ha, He, IHa, IHe.
    change (countChar "&" "&") with 1%nat.
    change (countChar "=" "&") with 0%nat.
    split; lia.
Qed.

(** The query string that [buildUrl] appends: parameters whose value is
    [null] or [undefined] are left out; when none is left the URL has no
    [?]; otherwise the query has one [=] per parameter and one [&] between
    two parameters, whatever characters the keys and values hold. *)
Theorem buildUrl_query (b e : string) (entries : list (string * option string)) :
  match keptParams entries with
  | [] => buildUrl b e (Some entries) = buildUrl b e None
  | kept =>
      exists q,
        buildUrl b e (Some entries) = buildUrl b e None +:+ "?" +:+ q
        /\ countChar "&" q = (length kept - 1)%nat
        /\ countChar "=" q = length kept
  end.
Proof.
  unfold buildUrl.
  destruct entries as [|entry entries]; [reflexivity|].
  fold (keptParams (entry :: entries)).
  destruct (keptParams (entry :: entries)) as [|kv kept] eqn:Hkept.
  - reflexivity.
  - destruct (query_counts (kv :: kept)) as [Ha He]; [discriminate|].
    match goal with
    | |- context [truthyString ?q] =>
        exists q; assert (Hq : truthyString q = true)
    end.
    { apply truthyString_true. intros Hempty.
      rewrite Hempty in He. discriminate. }
    rewrite Hq. split; [reflexivity|]. split; assumption.
Qed.

(** ** BaseApiService: what the verbs send *)

Lemma getAuthHeaders_other (storage : gmap string string) (name : string) :
  name <> "Authorization" -> getAuthHeaders storage !! name = None.
Proof.
  intros Hne. unfold getAuthHeaders.
  destruct (truthy (getToken storage)).
  - apply lookup_singleton_ne. congruence.
  - apply lookup_empty.
Qed.

Lemma getAuthHeaders_authorization (storage : gmap string string) :
  getAuthHeaders storage !! "Authorization"
  = if truthy (getToken storage)
    then Some ("Bearer " +:+ default "" (getToken storage))
    else None.
Proof.
  unfold getAuthHeaders. destruct (truthy (getToken storage)).
  - apply lookup_singleton_eq.
  - apply lookup_empty.
Qed.

Section VerbFacts.
Context `{JsonRuntime} (baseUrl : string) {T : Type}.


(** [uploadFile] POSTs a form whose first entry is the file, followed by
    the additional data in its order; the request has no [Content-Type]
    header (the platform sets its own), keeps [Accept], and carries the
    stored token, if there is one. *)
Theorem uploadFile_sends_form (endpoint file : string)
    (additionalData : option (list (string * string))) (w : World T) :
  exists requestConfig,
    events (uploadFile baseUrl endpoint file additionalData w).2
    = events w
      ++ [EvSetTimeout defaultTimeout;
          EvFetch (buildUrl baseUrl endpoint None) requestConfig]
    /\ init_method requestConfig = POST
    /\ init_body requestConfig
       = Some (SentFormData (("file", file) :: default [] additionalData))
    /\ init_headers requestConfig !! "Content-Type" = None
    /\ init_headers requestConfig !! "Accept" = Some "application/json"
    /\ init_headers requestConfig !! "Authorization"
       = (if truthy (getToken (localStorage w))
          then Some ("Bearer " +:+ default "" (getToken (localStorage w)))
          else None).
Proof.
  unfold uploadFile, post. rewrite request_run.
  cbn [snd logged events timeout params noOptions default from_option].
  eexists. split; [reflexivity|].
  unfold configOf, attachBody, prepareHeaders.
  cbn [method body headers requireAuth noOptions default from_option
       Datatypes.id truthyBody Method_eqb negb andb init_method init_body
       init_headers fst snd].
  rewrite bool_decide_eq_false_2 by discriminate. cbn [negb].
  split; [reflexivity|].
  split; [destruct additionalData; reflexivity|].
  split; [apply lookup_delete_eq|].
  rewrite !lookup_delete_ne by discriminate.
  rewrite !lookup_union, getAuthHeaders_authorization.
  rewrite (getAuthHeaders_other _ "Accept") by discriminate.
  rewrite !lookup_empty.
  split; [reflexivity|].
  destruct (truthy (getToken (localStorage w))); reflexivity.
Qed.
End VerbFacts.


(** [healthCheck] sets a timer of 5000 ms and makes one GET of /health
    without a body and without an [Authorization] header, whatever is
    stored; it leaves [localStorage] as it was; and whatever goes wrong, what
    it throws is [ApiError('API health check failed', 503)]. *)
Theorem healthCheck_outcomes `{JsonRuntime} (baseUrl : string)
    (w : World HealthData) :
  (exists requestConfig,
      events (healthCheck baseUrl w).2
      = events w
        ++ [EvSetTimeout 5000;
            EvFetch (buildUrl baseUrl "/health" None) requestConfig]
      /\ init_method requestConfig = GET
      /\ init_body requestConfig = None
      /\ init_headers requestConfig !! "Authorization" = None)
  /\ localStorage (healthCheck baseUrl w).2 = localStorage w
  /\ match (healthCheck baseUrl w).1 with
     | Returns parsed =>
         (get baseUrl "/health" None
            {| method := None; headers := None; body := None; params := None;
               requireAuth := Some false; timeout := Some 5000 |} w).1
         = Returns parsed
     | Throws error => error = ApiError "API health check failed" 503 None
     end.
Proof.
  unfold healthCheck, tryCatch, get. rewrite request_run.
  cbn [fst snd timeout params default from_option].
  destruct (settled _) as [parsed|error]; cbn [fst snd throw logged events localStorage].
  - split; [|split; reflexivity].
    eexists. split; [reflexivity|]. repeat split.
  - split; [|split; reflexivity].
    eexists. split; [reflexivity|]. repeat split.
Qed.

(** ** AuthService: the session *)

Section SessionFacts.
Context `{JsonRuntime} (baseUrl : string).

(** [isAuthenticated()] reads and never writes.  It is false when no user
    record is stored (or an empty one), whatever the token; it throws a
    [SyntaxError] when the stored user record is not JSON text, even when
    no token is stored; otherwise it is true exactly when the token is a
    string that is not empty and the parsed record is truthy. *)
Theorem isAuthenticated_cases {T} (w : World T) :
  (truthy (localStorage w !! USER_KEY) = false ->
   isAuthenticated w = (Returns false, w))
  /\ (forall text,
      localStorage w !! USER_KEY = Some text -> text <> "" ->
      JSON_parse text = None ->
      isAuthenticated w
      = (Throws (ThrownError "SyntaxError" syntaxErrorMessage), w))
  /\ (forall text parsed,
      localStorage w !! USER_KEY = Some text -> text <> "" ->
      JSON_parse text = Some parsed ->
      isAuthenticated w
      = (Returns (truthy (getToken (localStorage w)) && truthyJson parsed), w)).
Proof.
  unfold isAuthenticated, getStoredUser, mbind, M_bind, reads, getItem.
  split; [|split].
  - intros Hnone. rewrite Hnone. cbn [mret M_ret from_option].
    rewrite andb_false_r. reflexivity.
  - intros text Huser Hne Hparse. rewrite Huser. cbn [truthy default from_option].
    rewrite (truthyString_true _ Hne). unfold Datatypes.id. rewrite Hparse.
    reflexivity.
  - intros text parsed Huser Hne Hparse. rewrite Huser.
    cbn [truthy default from_option].
    rewrite (truthyString_true _ Hne). unfold Datatypes.id. rewrite Hparse.
    reflexivity.
Qed.

Lemma isAuthenticated_without_user {T} (w : World T) :
  truthy (localStorage w !! USER_KEY) = false ->
  isAuthenticated w = (Returns false, w).
Proof.
  unfold isAuthenticated, getStoredUser, mbind, M_bind, reads, getItem.
  intros Hnone. rewrite Hnone. cbn [mret M_ret from_option].
  rewrite andb_false_r. reflexivity.
Qed.

Lemma logout_run {T} (w : World T) :
  exists w',
    logout baseUrl w = (Returns tt, w')
    /\ localStorage w' = afterClearAuthData (localStorage w).
Proof.
  unfold logout, tryFinally, tryCatch, mbind, M_bind, reads, post.
  cbn [fst snd].
  destruct (truthy (getToken (localStorage w))).
  - rewrite request_run. cbn [fst].
    destruct (settled _) as [parsed|error];
      unfold consoleError, emit, mret, M_ret; rewrite clearAuthData_run;
      eexists; split; reflexivity.
  - unfold mret, M_ret. rewrite clearAuthData_run.
    eexists. split; reflexivity.
Qed.

(** After [logout], whatever the network did: [isAuthenticated()] is false
    (and does not throw), [getAuthHeaders()] is empty, and the headers
    prepared for any later request are the defaults and the caller's, with
    no [Authorization] of the client's. *)
Theorem logout_deauthenticates {T} (w : World T) :
  isAuthenticated (logout baseUrl w).2 = (Returns false, (logout baseUrl w).2)
  /\ getAuthHeaders (localStorage (logout baseUrl w).2) = ∅
  /\ (forall options,
      prepareHeaders options (localStorage (logout baseUrl w).2)
      = default ∅ (headers options) ∪ defaultHeaders).
Proof.
  destruct (logout_run w) as (w' & Hrun & Hstorage). rewrite Hrun. cbn [snd].
  destruct (afterClearAuthData_lookup (localStorage w)) as (Ht & Hu & _ & _).
  rewrite <- Hstorage in Ht, Hu.
  assert (Hauth : getAuthHeaders (localStorage w') = ∅).
  { unfold getAuthHeaders, getToken. rewrite Ht. reflexivity. }
  split; [|split].
  - apply isAuthenticated_without_user. rewrite Hu. reflexivity.
  - exact Hauth.
  - intros options. unfold prepareHeaders. rewrite Hauth.
    destruct (negb _); [apply (left_id_L ∅ (∪))|reflexivity].
Qed.
End SessionFacts.

Lemma isAuthenticated_cases_witness :
  isAuthenticated
    (exampleWorld (T := unit)
       (<[USER_KEY := "not json"]> ∅) FetchPending)
  = (Throws (ThrownError "SyntaxError" syntaxErrorMessage),
     exampleWorld (T := unit) (<[USER_KEY := "not json"]> ∅) FetchPending)
  /\ isAuthenticated
       (exampleWorld (T := unit) (<[TOKEN_KEY := "T1"]> ∅) FetchPending)
     = (Returns false,
        exampleWorld (T := unit) (<[TOKEN_KEY := "T1"]> ∅) FetchPending).
Proof.
  split.
  - apply (proj1 (proj2 (isAuthenticated_cases
                           (exampleWorld (T := unit)
                              (<[USER_KEY := "not json"]> ∅) FetchPending)))
             "not json"); [reflexivity|discriminate|reflexivity].
  - apply (proj1 (isAuthenticated_cases
                    (exampleWorld (T := unit) (<[TOKEN_KEY := "T1"]> ∅)
                       FetchPending))).
    reflexivity.
Defined.

Section ProfileFacts.
Context `{JsonRuntime} (baseUrl : string).

(** [getCurrentUser] never throws and never writes [localStorage].  With
    no token stored it answers [null] without any network call; with one,
    it makes one GET of /auth/profile and answers the user of a successful
    envelope, and [null] in every other case. *)
Theorem getCurrentUser_returns (w : World ProfileData) :
  exists result w',
    getCurrentUser baseUrl w = (Returns result, w')
    /\ localStorage w' = localStorage w
    /\ (if truthy (getToken (localStorage w)) then
          (exists logs,
              events w'
              = events w
                ++ [EvSetTimeout defaultTimeout;
                    EvFetch (buildUrl baseUrl "/auth/profile" None)
                      (configOf
                         {| method := Some GET; headers := None; body := None;
                            params := None; requireAuth := None;
                            timeout := None |} (localStorage w))]
                ++ logs
              /\ forall e, In e logs ->
                           exists label error, e = EvConsoleError label error)
          /\ result
             = match payloadOf (get baseUrl "/auth/profile" None noOptions w).1 with
               | Some d => profile_user d
               | None => None
               end
        else result = None /\ w' = w).
Proof.
  unfold getCurrentUser, tryCatch, mbind, M_bind, reads, get.
  cbn [fst snd].
  destruct (truthy (getToken (localStorage w))); cbn [negb].
  - cbn [headers body requireAuth timeout noOptions].
    rewrite request_run. cbn [fst snd params timeout default from_option].
    destruct (settled _) as [[|envelope]|error];
      cbn [envelopeOf throw payloadOf];
      unfold consoleError, emit, mret, M_ret; rewrite ?logged_logged.
    + eexists _, _. split; [reflexivity|]. split; [reflexivity|].
      split; [|reflexivity].
      eexists [_]. split; [reflexivity|]. intros e [<-|[]]. eauto.
    + destruct (success envelope); [destruct (data envelope) as [d|]|].
      * destruct (profile_user d);
          (eexists _, _; split; [reflexivity|]; split; [reflexivity|];
           split; [|reflexivity]; exists []; split; [reflexivity|];
           intros e []).
      * eexists _, _. split; [reflexivity|]. split; [reflexivity|].
        split; [|reflexivity]. exists []. split; [reflexivity|]. intros e [].
      * eexists _, _. split; [reflexivity|]. split; [reflexivity|].
        split; [|reflexivity]. exists []. split; [reflexivity|]. intros e [].
    + eexists _, _. split; [reflexivity|]. split; [reflexivity|].
      split; [|reflexivity].
      eexists [_]. split; [reflexivity|]. intros e [<-|[]]. eauto.
  - unfold mret, M_ret. eexists _, _. split; [reflexivity|]. auto.
Qed.

(** [forgotPassword] and [resetPassword] never throw and never write
    [localStorage]; each makes one POST of the JSON text of its arguments,
    without an [Authorization] header whatever is stored.  On an envelope
    the result has the envelope's [success] and its message, or the fixed
    message of success when the envelope has none, also when [success] is
    false; on anything thrown the result has [success] false. *)
Theorem password_operations_return {T} (w : World T) :
  (forall email_,
      exists result w' requestConfig logs,
        forgotPassword baseUrl email_ w = (Returns result, w')
        /\ localStorage w' = localStorage w
        /\ events w'
           = events w
             ++ [EvSetTimeout defaultTimeout;
                 EvFetch (buildUrl baseUrl "/auth/forgot-password" None)
                   requestConfig]
             ++ logs
        /\ init_method requestConfig = POST
        /\ init_body requestConfig
           = Some (SentText (JSON_stringify (JObj [("email", JStr email_)])))
        /\ init_headers requestConfig !! "Authorization" = None
        /\ match (post baseUrl "/auth/forgot-password"
                    (Some (BodyJson (JObj [("email", JStr email_)])))
                    withoutAuth w).1 with
           | Returns (ParsedEnvelope envelope) =>
               auth_success result = success envelope
               /\ auth_message result
                  = Some (orElse (message envelope) "Password reset email sent")
           | _ => auth_success result = false
           end)
  /\ (forall token_ password_,
      exists result w' requestConfig logs,
        resetPassword baseUrl token_ password_ w = (Returns result, w')
        /\ localStorage w' = localStorage w
        /\ events w'
           = events w
             ++ [EvSetTimeout defaultTimeout;
                 EvFetch (buildUrl baseUrl "/auth/reset-password" None)
                   requestConfig]
             ++ logs
        /\ init_method requestConfig = POST
        /\ init_body requestConfig
           = Some (SentText
                     (JSON_stringify (JObj [("token", JStr token_);
                                            ("password", JStr password_)])))
        /\ init_headers requestConfig !! "Authorization" = None
        /\ match (post baseUrl "/auth/reset-password"
                    (Some (BodyJson (JObj [("token", JStr token_);
                                           ("password", JStr password_)])))
                    withoutAuth w).1 with
           | Returns (ParsedEnvelope envelope) =>
               auth_success result = success envelope
               /\ auth_message result
                  = Some (orElse (message envelope) "Password reset successful")
           | _ => auth_success result = false
           end).
Proof.
  split.
  - intros email_.
    unfold forgotPassword, tryCatch, mbind, M_bind, post.
    rewrite request_run. cbn [fst snd].
    destruct (settled _) as [[|envelope]|error]; cbn [envelopeOf throw];
      unfold consoleError, emit, mret, M_ret; rewrite ?logged_logged;
      eexists _, _, _;
      [eexists [_]|exists []|eexists [_]];
      (split; [reflexivity|]); repeat split.
  - intros token_ password_.
    unfold resetPassword, tryCatch, mbind, M_bind, post.
    rewrite request_run. cbn [fst snd].
    destruct (settled _) as [[|envelope]|error]; cbn [envelopeOf throw];
      unfold consoleError, emit, mret, M_ret; rewrite ?logged_logged;
      eexists _, _, _;
      [eexists [_]|exists []|eexists [_]];
      (split; [reflexivity|]); repeat split.
Qed.
End ProfileFacts.

Section FormFacts.
Context `{JsonRuntime} (baseUrl : string).

Lemma login_run (credentials : LoginCredentials) (w : World LoginData) :
  exists response w1,
    login baseUrl credentials w = (Returns response, w1)
    /\ (auth_success response = true ->
        exists d,
          auth_token response = Some (token d)
          /\ localStorage w1
             = afterSetAuthData (user d) (token d) (refreshToken d)
                 (localStorage w)).
Proof.
  unfold login, post, tryCatch, mbind, M_bind.
  rewrite request_run. cbn [fst].
  destruct (settled _) as [[|envelope]|error]; cbn [envelopeOf throw];
    unfold consoleError, emit, mret, M_ret.
  - eexists _, _. split; [reflexivity|]. discriminate.
  - destruct (success envelope); [destruct (data envelope) as [d|]|].
    + rewrite setAuthData_run. eexists _, _. split; [reflexivity|].
      intros _. exists d. split; reflexivity.
    + eexists _, _. split; [reflexivity|]. discriminate.
    + eexists _, _. split; [reflexivity|]. discriminate.
  - eexists _, _. split; [reflexivity|]. discriminate.
Qed.

(** [handleLogin] never throws.  It reports success only when [login]
    stored the token and the [onSuccess] callback returned; when [login]
    fails, the callback is not run and the message of [login] (or 'Login
    failed') is reported; when the callback throws after a successful
    login, a failure is reported and logged although the token stays
    stored. *)
Theorem handleLogin_reports (credentials : LoginCredentials)
    (onSuccess : option (M LoginData unit)) (w : World LoginData) :
  exists reported w',
    handleLogin baseUrl credentials onSuccess w = (Returns reported, w')
    /\ forall response w1,
        login baseUrl credentials w = (Returns response, w1) ->
        (auth_success response = false ->
         outcome_success reported = false
         /\ outcome_message reported
            = Some (orElse (auth_message response) "Login failed")
         /\ w' = w1)
        /\ (auth_success response = true ->
            (exists token_,
                auth_token response = Some token_
                /\ localStorage w1 !! TOKEN_KEY = Some token_)
            /\ match default (mret tt) onSuccess w1 with
               | (Returns _, w2) => outcome_success reported = true /\ w' = w2
               | (Throws error, w2) =>
                   reported
                   = {| outcome_success := false;
                        outcome_message :=
                          Some "An unexpected error occurred. Please try again.";
                        outcome_errors := None |}
                   /\ w' = logged w2
                             [EvConsoleError "Login submission error:" error]
               end).
Proof.
  destruct (login_run credentials w) as (response & w1 & Hlogin & Hstored).
  unfold handleLogin, tryCatch, mbind, M_bind. rewrite Hlogin.
  destruct (auth_success response) eqn:Hs.
  - destruct (Hstored eq_refl) as (d & Htoken & Hstorage).
    destruct (default (mret tt) onSuccess w1) as [[[]|error] w2] eqn:Hcallback;
      eexists _, _; (split; [reflexivity|]);
      intros response' w1' Heq; inversion Heq; subst response' w1';
      (split; [rewrite Hs; discriminate|]); intros _;
      (split;
       [exists (token d); split; [exact Htoken|];
        rewrite Hstorage;
        apply (afterSetAuthData_lookup (user d) (token d) (refreshToken d))
       |rewrite Hcallback; split; reflexivity]).
  - unfold mret, M_ret. eexists _, _. split; [reflexivity|].
    intros response' w1' Heq. inversion Heq; subst response' w1'.
    split; [|rewrite Hs; discriminate].
    intros _. repeat split.
Qed.

(** [signup] always returns and never throws.  On a successful envelope
    with a payload it stores the payload's token and user (and the refresh
    token, when it is not empty) and reports success; in every other case
    it reports failure with a message and leaves [localStorage] as it
    was. *)
Theorem signup_returns (credentials : SignupCredentials) (w : World LoginData) :
  exists response w',
    signup baseUrl credentials w = (Returns response, w')
    /\ match
         payloadOf
           (post baseUrl "/auth/signup"
              (Some (BodyJson (JObj (signupDataOf credentials)))) withoutAuth w).1
       with
       | Some d =>
           auth_success response = true
           /\ auth_user response = Some (user d)
           /\ auth_token response = Some (token d)
           /\ localStorage w'
              = afterSetAuthData (user d) (token d) (refreshToken d)
                  (localStorage w)
           /\ localStorage w' !! TOKEN_KEY = Some (token d)
           /\ localStorage w' !! USER_KEY
              = Some (JSON_stringify (userJson (user d)))
       | None =>
           auth_success response = false
           /\ (exists m, auth_message response = Some m)
           /\ localStorage w' = localStorage w
       end.
Proof.
  unfold signup, post, tryCatch, mbind, M_bind.
  rewrite objectRest_confirmPassword, request_run. cbn [fst].
  destruct (settled _) as [[|envelope]|error]; cbn [payloadOf envelopeOf throw];
    unfold consoleError, emit, mret, M_ret.
  - eexists _, _. split; [reflexivity|]. simpl. eauto.
  - destruct (success envelope); [destruct (data envelope) as [d|]|].
    + rewrite setAuthData_run. eexists _, _. split; [reflexivity|].
      destruct (afterSetAuthData_lookup (user d) (token d) (refreshToken d)
                  (localStorage w)) as (Htoken & Huser & _).
      cbn [auth_success auth_user auth_token stored logged localStorage].
      repeat split; assumption.
    + eexists _, _. split; [reflexivity|]. simpl. eauto.
    + eexists _, _. split; [reflexivity|]. simpl. eauto.
  - eexists _, _. split; [reflexivity|]. simpl. eauto.
Qed.
End FormFacts.

Lemma handleLogin_reports_witness :
  exists reported w',
    handleLogin exampleBaseUrl exampleCredentials (Some throwingCallback)
      (loginWorld (examplePayload "T1" None))
    = (Returns reported, w')
    /\ outcome_success reported = false
    /\ localStorage w' !! TOKEN_KEY = Some "T1".
Proof.
  destruct (handleLogin_reports exampleBaseUrl exampleCredentials
              (Some throwingCallback) (loginWorld (examplePayload "T1" None)))
    as (reported & w' & Hrun & Hcases).
  destruct (Hcases _ _ eq_refl) as [_ Hsuccess].
  destruct (Hsuccess eq_refl) as [_ [Hreported Hworld]].
  exists reported, w'. split; [exact Hrun|].
  split; [rewrite Hreported; reflexivity|].
  rewrite Hworld. reflexivity.
Defined.

(** ** BaseController: [validateRequiredFields] *)

Lemma assignProperty_lookup (errors_ : gmap string string)
    (field message_ name : string) :
  assignProperty errors_ field message_ !! name
  = if bool_decide (field = name /\ field <> "__proto__") then Some message_
    else errors_ !! name.
Proof.
  unfold assignProperty.
  destruct (String.eqb field "__proto__") eqn:Hproto.
  - apply String.eqb_eq in Hproto.
    rewrite bool_decide_eq_false_2; [reflexivity|]. intros [_ Hne]. congruence.
  - apply String.eqb_neq in Hproto.
    destruct (decide (field = name)) as [->|Hne].
    + rewrite bool_decide_eq_true_2 by auto. apply lookup_insert_eq.
    + rewrite bool_decide_eq_false_2 by (intros [? _]; congruence).
      apply lookup_insert_ne. exact Hne.
Qed.

Lemma validate_fold (data_ : gmap string (option Json))
    (requiredFields : list string) :
  forall (errors_ : gmap string string) (name message_ : string),
    (forall n m, errors_ !! n = Some m -> m = n +:+ " is required") ->
    fold_left
      (fun errors_ field =>
         if isMissing (readProperty data_ field) then
           assignProperty errors_ field (field +:+ " is required")
         else errors_)
      requiredFields errors_ !! name = Some message_
    <-> message_ = name +:+ " is required"
        /\ (is_Some (errors_ !! name)
            \/ (In name requiredFields /\ name <> "__proto__"
                /\ isMissing (readProperty data_ name) = true)).
Proof.
  induction requiredFields as [|field fields IH]; intros errors_ name message_ Hinv.
  - simpl. split.
    + intros Hlook. split; [apply Hinv, Hlook|left; eauto].
    + intros [-> [[m Hm]|[[] _]]]. rewrite Hm. f_equal. apply Hinv, Hm.
  - cbn [fold_left].
    destruct (isMissing (readProperty data_ field)) eqn:Hmiss.
    + rewrite IH.
      * rewrite assignProperty_lookup. split.
        -- intros [-> Hcases]. split; [reflexivity|].
           destruct Hcases as [Hsome|(Hin & Hne & Hm)].
           ++ case_bool_decide as Hd.
              ** destruct Hd as [-> Hne]. right. simpl. auto.
              ** left. exact Hsome.
           ++ right. simpl. auto.
        -- intros [-> Hcases]. split; [reflexivity|].
           destruct Hcases as [Hsome|([->|Hin] & Hne & Hm)].
           ++ left. case_bool_decide; eauto.
           ++ left. rewrite bool_decide_eq_true_2 by auto. eauto.
           ++ right. auto.
      * intros n m. rewrite assignProperty_lookup.
        case_bool_decide as Hd.
        -- destruct Hd as [-> _]. intros Heq. congruence.
        -- apply Hinv.
    + rewrite IH by exact Hinv. split.
      * intros [-> [Hsome|(Hin & Hne & Hm)]]; (split; [reflexivity|]);
          [left; exact Hsome|right; simpl; auto].
      * intros [-> [Hsome|([->|Hin] & Hne & Hm)]]; (split; [reflexivity|]);
          [left; exact Hsome|congruence|right; auto].
Qed.

(** [validateRequiredFields] reports exactly the required fields that are
    missing: a field has an entry in [errors], and then the message
    "<field> is required", exactly when it is required and its value is
    [null], [undefined] or the empty string; and [isValid] says that there
    is no such field.  Numbers and booleans (0 and [false] too) count as
    provided, and so does every name inherited from [Object.prototype] that
    the data do not define themselves; [__proto__] never gets an entry. *)
Theorem validateRequiredFields_reports (data_ : gmap string (option Json))
    (requiredFields : list string) :
  (forall name message_,
      validation_errors (validateRequiredFields data_ requiredFields) !! name
      = Some message_
      <-> message_ = name +:+ " is required"
          /\ In name requiredFields /\ name <> "__proto__"
          /\ isMissing (readProperty data_ name) = true)
  /\ (isValid (validateRequiredFields data_ requiredFields) = true
      <-> forall name,
          In name requiredFields ->
          name = "__proto__" \/ isMissing (readProperty data_ name) = false).
Proof.
  assert (Hlook : forall name message_,
             validation_errors (validateRequiredFields data_ requiredFields)
             !! name = Some message_
             <-> message_ = name +:+ " is required"
                 /\ In name requiredFields /\ name <> "__proto__"
                 /\ isMissing (readProperty data_ name) = true).
  { intros name message_. unfold validateRequiredFields; cbn [validation_errors].
    rewrite validate_fold.
    - rewrite lookup_empty. split.
      + intros [-> [[m Hm]|Hcase]]; [discriminate|]. auto.
      + intros [-> Hcase]. auto.
    - intros n m. rewrite lookup_empty. discriminate. }
  split; [exact Hlook|].
  change (isValid (validateRequiredFields data_ requiredFields))
    with (bool_decide
            (validation_errors (validateRequiredFields data_ requiredFields) = ∅)).
  rewrite bool_decide_eq_true. split.
  - intros Hempty name Hin.
    destruct (decide (name = "__proto__")) as [|Hne]; [left; assumption|].
    right. destruct (isMissing (readProperty data_ name)) eqn:Hm; [|reflexivity].
    assert (Hsome : validation_errors
                      (validateRequiredFields data_ requiredFields) !! name
                    = Some (name +:+ " is required")) by (apply Hlook; auto).
    rewrite Hempty, lookup_empty in Hsome. discriminate.
  - intros Hall. apply map_eq. intros name. rewrite lookup_empty.
    destruct (validation_errors (validateRequiredFields data_ requiredFields)
              !! name) as [m|] eqn:Hm; [|reflexivity].
    apply Hlook in Hm. destruct Hm as (_ & Hin & Hne & Hmiss).
    destruct (Hall name Hin) as [|Hok]; congruence.
Qed.

(** ** BaseController: [handleAsyncOperation] *)




Section AsyncFacts.
Context {St T : Type}.


End AsyncFacts.


(** ** BaseController: [createRetryOperation] for any number of attempts *)

Section RetryGeneral.
Context {St T : Type}.
Implicit Types (operation : @Operation St T) (s : St).

Lemma invocations_failedAttempts (delay attempt : Z) (n : nat) :
  invocations (failedAttempts delay attempt n) = n.
Proof.
  revert attempt. induction n as [|n IH]; intros attempt; [reflexivity|].
  cbn [failedAttempts].
  change (Invoked :: Waited (delay * attempt) :: failedAttempts delay (attempt + 1) n)
    with ([Invoked] ++ [Waited (delay * attempt)]
          ++ failedAttempts delay (attempt + 1) n).
  rewrite !invocations_app, invocations_invoked, invocations_waited, IH.
  reflexivity.
Qed.

Lemma retryLoop_after_failures operation maxRetries delay (k : nat) :
  forall fuel attempt lastError s tr s1 errors_,
    failures operation k s = Some (s1, errors_) ->
    attempt + Z.of_nat k <= maxRetries ->
    retryLoop operation maxRetries delay (k + fuel) attempt lastError s tr
    = retryLoop operation maxRetries delay fuel (attempt + Z.of_nat k)
        (default lastError (rethrown <$> last errors_)) s1
        (tr ++ failedAttempts delay attempt k).
Proof.
  induction k as [|k IH]; intros fuel attempt lastError s tr s1 errors_ Hfail Hle.
  - cbn [failures] in Hfail. injection Hfail as Hs He. subst s1 errors_.
    cbn [failedAttempts]. rewrite app_nil_r, Z.add_0_r. reflexivity.
  - cbn [failures] in Hfail.
    destruct (operation s) as [[v|error] s'] eqn:Hop; [discriminate|].
    destruct (failures operation k s') as [[s'' errors']|] eqn:Hrest;
      [|discriminate].
    injection Hfail as Hs He. subst s'' errors_.
    cbn [Nat.add retryLoop].
    rewrite (proj2 (Z.leb_le attempt maxRetries)) by lia.
    rewrite Hop.
    rewrite (proj2 (Z.eqb_neq attempt maxRetries)) by lia.
    rewrite (IH fuel (attempt + 1) _ s' _ s1 errors' Hrest) by lia.
    f_equal.
    + lia.
    + fold (rethrown error). rewrite last_cons.
      destruct (last errors'); reflexivity.
    + cbn [failedAttempts]. rewrite <- !app_assoc. reflexivity.
Qed.

(** For every number [n] of attempts allowed: an operation that fails [k]
    times with [k < n] and then succeeds is invoked [k + 1] times, with the
    waits [delay * 1], ..., [delay * k] between the invocations, and its
    value is returned; an operation that fails [n] times ([n] at least 1)
    is invoked [n] times, with the waits [delay * 1], ...,
    [delay * (n - 1)] and none after the last failure, and the last error
    is rethrown (as a new [Error] when it is not one). *)
Theorem createRetryOperation_attempts operation (n : nat) (delay : option Z) s :
  (forall k s1 errors_ v s2,
      (k < n)%nat ->
      failures operation k s = Some (s1, errors_) ->
      operation s1 = (Returns v, s2) ->
      createRetryOperation operation (Some (Z.of_nat n)) delay s
      = {| outcome := Some (Returns v); finalState := s2;
           trace := failedAttempts (default 1000 delay) 1 k ++ [Invoked] |}
      /\ invocations
           (trace (createRetryOperation operation (Some (Z.of_nat n)) delay s))
         = S k)
  /\ (forall n' s1 errors_ error s2,
      n = S n' ->
      failures operation n' s = Some (s1, errors_) ->
      operation s1 = (Throws error, s2) ->
      createRetryOperation operation (Some (Z.of_nat n)) delay s
      = {| outcome := Some (Throws (rethrown error)); finalState := s2;
           trace := failedAttempts (default 1000 delay) 1 n' ++ [Invoked] |}
      /\ invocations
           (trace (createRetryOperation operation (Some (Z.of_nat n)) delay s))
         = n).
Proof.
  split.
  - intros k s1 errors_ v s2 Hk Hfail Hop.
    assert (Hrun : createRetryOperation operation (Some (Z.of_nat n)) delay s
                   = {| outcome := Some (Returns v); finalState := s2;
                        trace := failedAttempts (default 1000 delay) 1 k
                                 ++ [Invoked] |}).
    { unfold createRetryOperation. cbn [default from_option].
      unfold Datatypes.id. rewrite Nat2Z.id.
      replace n with (k + S (n - S k))%nat at 2 by lia.
      rewrite (retryLoop_after_failures _ _ _ k _ _ _ _ _ s1 errors_ Hfail) by lia.
      cbn [retryLoop].
      rewrite (proj2 (Z.leb_le (1 + Z.of_nat k) (Z.of_nat n))) by lia.
      rewrite Hop. reflexivity. }
    split; [exact Hrun|]. rewrite Hrun. cbn [trace].
    rewrite invocations_app, invocations_failedAttempts, invocations_invoked.
    lia.
  - intros n' s1 errors_ error s2 Hn Hfail Hop.
    assert (Hrun : createRetryOperation operation (Some (Z.of_nat n)) delay s
                   = {| outcome := Some (Throws (rethrown error));
                        finalState := s2;
                        trace := failedAttempts (default 1000 delay) 1 n'
                                 ++ [Invoked] |}).
    { unfold createRetryOperation. cbn [default from_option].
      unfold Datatypes.id. rewrite Nat2Z.id. subst n.
      replace (S n') with (n' + 1)%nat at 2 by lia.
      rewrite (retryLoop_after_failures _ _ _ n' _ _ _ _ _ s1 errors_ Hfail) by lia.
      cbn [retryLoop].
      rewrite (proj2 (Z.leb_le (1 + Z.of_nat n') (Z.of_nat (S n')))) by lia.
      rewrite Hop.
      rewrite (proj2 (Z.eqb_eq (1 + Z.of_nat n') (Z.of_nat (S n')))) by lia.
      reflexivity. }
    split; [exact Hrun|]. rewrite Hrun. cbn [trace].
    rewrite invocations_app, invocations_failedAttempts, invocations_invoked.
    lia.
Qed.
End RetryGeneral.

Lemma createRetryOperation_attempts_witness :
  createRetryOperation (flakyOperation 4) (Some 6) (Some 100) 0%nat
  = {| outcome := Some (Returns 4%nat); finalState := 5%nat;
       trace := [Invoked; Waited 100; Invoked; Waited 200; Invoked; Waited 300;
                 Invoked; Waited 400; Invoked] |}
  /\ invocations
       (trace (createRetryOperation (flakyOperation 9) (Some 5) (Some 100) 0%nat))
     = 5%nat.
Proof.
  split.
  - apply (proj1 (createRetryOperation_attempts (flakyOperation 4) 6 (Some 100)
                    0%nat) 4%nat 4%nat
             (repeat (ThrownError "Error" "unavailable") 4) 4%nat 5%nat);
      [lia|reflexivity|reflexivity].
  - apply (proj2 (createRetryOperation_attempts (flakyOperation 9) 5 (Some 100)
                    0%nat) 4%nat 4%nat
             (repeat (ThrownError "Error" "unavailable") 4)
             (ThrownError "Error" "unavailable") 5%nat);
      reflexivity.
Defined.

(** ** SignupForm: [validatePasswordStrength] *)

Lemma jsLength_append (s t : string) :
  jsLength (s +:+ t) = (jsLength s + jsLength t)%nat.
Proof.
  induction s as [|c s IH]; [reflexivity|].
  change (String c s +:+ t) with (String c (s +:+ t)).
  cbn [jsLength]. rewrite IH. lia.
Qed.

Lemma testClass_append (class : ascii -> bool) (s t : string) :
  testClass class (s +:+ t) = testClass class s || testClass class t.
Proof.
  unfold testClass. induction s as [|c s IH]; [reflexivity|].
  change (String c s +:+ t) with (String c (s +:+ t)).
  cbn [list_ascii_of_string existsb]. rewrite IH. apply orb_assoc.
Qed.

(** A password is strong exactly when it has at least 8 UTF-16 code units,
    an upper-case letter, a lower-case letter and a digit; a special
    character is never asked for.  So a strong password stays strong when
    anything is put before or after it, and the three messages tell the
    three cases apart. *)
Theorem validatePasswordStrength_strong (password : string) :
  (strength_isValid (validatePasswordStrength password) = true
   <-> (8 <= jsLength password)%nat
       /\ testClass isUpperCase password = true
       /\ testClass isLowerCase password = true
       /\ testClass isDigit password = true)
  /\ (strength_isValid (validatePasswordStrength password) = true ->
      forall before after,
        strength_isValid
          (validatePasswordStrength (before +:+ password +:+ after)) = true)
  /\ (strength_isValid (validatePasswordStrength password) = true
      <-> strength_message (validatePasswordStrength password) = "Strong password")
  /\ ((jsLength password < 8)%nat
      <-> strength_message (validatePasswordStrength password)
          = "Password must be at least 8 characters").
Proof.
  assert (Hiff : forall p,
             strength_isValid (validatePasswordStrength p) = true
             <-> (8 <= jsLength p)%nat
                 /\ testClass isUpperCase p = true
                 /\ testClass isLowerCase p = true
                 /\ testClass isDigit p = true).
  { intros p. unfold validatePasswordStrength.
    destruct (jsLength p <? 8)%nat eqn:Hlen.
    - apply Nat.ltb_lt in Hlen. cbn [strength_isValid].
      split; [discriminate|]. intros [Hge _]. lia.
    - apply Nat.ltb_ge in Hlen.
      destruct (testClass isUpperCase p), (testClass isLowerCase p),
        (testClass isDigit p); cbn [negb orb strength_isValid];
        split; try discriminate; try (intros (_ & ? & ? & ?); discriminate);
        auto. }
  split; [apply Hiff|]. split; [|split].
  - intros Hvalid before after. apply Hiff in Hvalid.
    destruct Hvalid as (Hlen & Hu & Hl & Hd). apply Hiff.
    rewrite !jsLength_append, !testClass_append, Hu, Hl, Hd, !orb_true_r.
    cbn [orb]. repeat split; lia.
  - unfold validatePasswordStrength.
    destruct (jsLength password <? 8)%nat;
      [cbn; split; discriminate|].
    destruct (negb _ || negb _ || negb _); cbn; split;
      solve [discriminate | reflexivity].
  - unfold validatePasswordStrength.
    destruct (jsLength password <? 8)%nat eqn:Hlen.
    + apply Nat.ltb_lt in Hlen. cbn. split; [reflexivity|intros _; exact Hlen].
    + apply Nat.ltb_ge in Hlen.
      destruct (negb _ || negb _ || negb _); cbn; split;
        solve [lia | discriminate].
Qed.

Lemma validatePasswordStrength_strong_witness :
  strength_isValid (validatePasswordStrength "Abcdefg1") = true
  /\ strength_isValid (validatePasswordStrength "xx-Abcdefg1-yy") = true.
Proof.
  assert (Hvalid : strength_isValid (validatePasswordStrength "Abcdefg1") = true)
    by reflexivity.
  split; [exact Hvalid|].
  apply (proj1 (proj2 (validatePasswordStrength_strong "Abcdefg1")) Hvalid
           "xx-" "-yy").
Defined.

(** ** AppController *)

Ltac app_run :=
  cbv beta iota zeta
    delta [appTryCatch service detached getState setState show toggleDark
           matchesDark sessionSetItem setTimeout clearTimeout
           setActivityTimer getActivityTimer setPrefersDark
           showSuccessToast showErrorToast showInfoToast logError logInfo
           appThrow applyTheme mbind mret AppM_ret AppM_bind ctlRet
           services appState activityTimer timers nextTimerId darkClass
           prefersDark sessionStorage shown fst snd
           withInitialized withAuthenticated withCurrentUser
           withPreferences withTheme withOnline withLastActivity
           isInitialized state_isAuthenticated currentUser userPreferences
           theme isOnline lastActivity
           result_success result_user result_preferences result_errors
           from_option Datatypes.id].

Ltac browser_simpl :=
  cbn [services appState activityTimer timers nextTimerId darkClass
       prefersDark sessionStorage shown fst snd].

Section AppFacts.
Context `{JsonRuntime} (baseUrl : string) {P : Type}.
Context (profileOf : P -> ProfileData) (preferencesOf : P -> UserPreferences).

Lemma navigateTo_run (navigationHelper : NavigationHelper) (path : string)
    (b : Browser P) :
  navigateTo navigationHelper path None b
  = (Returns tt,
     {| services := services b; appState := appState b;
        activityTimer := activityTimer b; timers := timers b;
        nextTimerId := nextTimerId b; darkClass := darkClass b;
        prefersDark := prefersDark b; sessionStorage := sessionStorage b;
        shown := shown b ++ navigationShown navigationHelper path |}).
Proof.
  unfold navigateTo, navigationShown, appTryCatch. cbn [from_option].
  destruct (navigate navigationHelper path None) as [[]|error].
  - reflexivity.
  - unfold logError, showErrorToast, show, mbind, AppM_bind. cbn.
    rewrite <- app_assoc. reflexivity.
Qed.

Lemma handleLogout_run (navigationHelper : NavigationHelper)
    (b : Browser P) :
  exists b',
    handleLogout baseUrl navigationHelper b = (Returns tt, b')
    /\ appState b'
       = {| isInitialized := isInitialized (appState b);
            state_isAuthenticated := false; currentUser := None;
            userPreferences := None; theme := System;
            isOnline := isOnline (appState b);
            lastActivity := lastActivity (appState b) |}
    /\ darkClass b' = prefersDark b
    /\ localStorage (services b') = afterClearAuthData (localStorage (services b))
    /\ isAuthenticated (services b') = (Returns false, services b')
    /\ timers b' = timers b
    /\ activityTimer b' = activityTimer b
    /\ sessionStorage b' = sessionStorage b
    /\ nextTimerId b' = nextTimerId b
    /\ prefersDark b' = prefersDark b
    /\ shown b'
       = shown b
         ++ [Toast "Logged out successfully" None None;
             Info "User logout successful" None]
         ++ navigationShown navigationHelper "/".
Proof.
  destruct (logout_run baseUrl (services b)) as (w' & Hrun & Hstorage).
  unfold handleLogout, appTryCatch, service, mbind, AppM_bind.
  rewrite Hrun.
  unfold setState, applyTheme, matchesDark, toggleDark, showInfoToast, logInfo,
    show, mbind, AppM_bind.
  cbn -[navigateTo]. rewrite navigateTo_run. cbn.
  eexists. split; [reflexivity|]. cbn.
  repeat split; try assumption.
  - apply isAuthenticated_without_user. rewrite Hstorage.
    destruct (afterClearAuthData_lookup (localStorage (services b)))
      as (_ & -> & _). reflexivity.
  - rewrite <- !app_assoc. reflexivity.
Qed.

(** [handleLogout] never fails and never reports a failed logout, whatever
    the network does and whatever [navigate] does: the session is removed
    from [localStorage], so that [isAuthenticated()] is false afterwards,
    the state has no user and no preferences and the theme [system], the
    class [dark] follows the system's preference, and [isInitialized],
    [isOnline] and [lastActivity] are kept.  The pending activity timer is
    not cleared. *)
Theorem handleLogout_resets (navigationHelper : NavigationHelper)
    (b : Browser P) :
  exists b',
    handleLogout baseUrl navigationHelper b = (Returns tt, b')
    /\ appState b'
       = {| isInitialized := isInitialized (appState b);
            state_isAuthenticated := false; currentUser := None;
            userPreferences := None; theme := System;
            isOnline := isOnline (appState b);
            lastActivity := lastActivity (appState b) |}
    /\ darkClass b' = prefersDark b
    /\ localStorage (services b') = afterClearAuthData (localStorage (services b))
    /\ isAuthenticated (services b') = (Returns false, services b')
    /\ timers b' = timers b
    /\ activityTimer b' = activityTimer b
    /\ sessionStorage b' = sessionStorage b
    /\ shown b'
       = shown b
         ++ [Toast "Logged out successfully" None None;
             Info "User logout successful" None]
         ++ navigationShown navigationHelper "/".
Proof.
  destruct (handleLogout_run navigationHelper b)
    as (b' & ? & ? & ? & ? & ? & ? & ? & ? & _ & _ & ?).
  exists b'. repeat split; assumption.
Qed.

(** Under [ProtectedRoute] the children are rendered only once the
    application is initialized and, at a path that starts with a protected
    route, only for an authenticated user.  At such a path, for a user who
    is not authenticated, nothing is rendered, and once the application is
    initialized the effect shows the toast that asks to log in, keeps the
    path in [sessionStorage] under [intendedPath] and navigates to
    [/login]. *)
Theorem protectedRoute_guards (state : AppState)
    (navigationHelper : NavigationHelper) :
  (protectedRouteRenders state navigationHelper = true ->
   isInitialized state = true
   /\ (isProtectedRoute (currentPath navigationHelper) = true ->
       state_isAuthenticated state = true))
  /\ (forall route rest,
      In route protectedRoutes ->
      currentPath navigationHelper = route +:+ rest ->
      state_isAuthenticated state = false ->
      protectedRouteRenders state navigationHelper = false
      /\ (isInitialized state = true ->
          forall b : Browser P,
          exists b',
            protectedRouteEffect state navigationHelper b = (Returns tt, b')
            /\ sessionStorage b' !! "intendedPath"
               = Some (currentPath navigationHelper)
            /\ appState b' = appState b
            /\ shown b'
               = shown b
                 ++ [Toast "Authentication Required"
                       (Some "Please log in to access this feature")
                       (Some "destructive")]
                 ++ navigationShown navigationHelper "/login")).
Proof.
  split.
  - unfold protectedRouteRenders.
    destruct (isInitialized state); cbn [negb]; [|discriminate].
    destruct (isProtectedRoute _); cbn [andb]; [|intros _; split; [reflexivity|discriminate]].
    destruct (state_isAuthenticated state); cbn [negb]; [auto|discriminate].
  - intros route rest Hroute Hpath Hauth.
    assert (Hprotected : isProtectedRoute (currentPath navigationHelper) = true).
    { unfold isProtectedRoute. apply existsb_exists. exists route.
      split; [exact Hroute|]. rewrite Hpath. apply startsWith_append. }
    assert (Htruthy : truthyString (currentPath navigationHelper) = true).
    { apply truthyString_true. rewrite Hpath.
      cbn in Hroute.
      destruct Hroute as [<-|[<-|[<-|[<-|[<-|[]]]]]]; discriminate. }
    split.
    + unfold protectedRouteRenders. rewrite Hprotected, Hauth.
      destruct (isInitialized state); reflexivity.
    + intros Hinit b.
      unfold protectedRouteEffect. rewrite Hinit, Hauth, Hprotected.
      cbn [negb andb].
      unfold handleUnauthorizedAccess, showErrorToast, show, sessionSetItem,
        mbind, AppM_bind.
      cbn [truthy]. rewrite Htruthy.
      cbn -[navigateTo]. rewrite navigateTo_run. cbn.
      eexists. split; [reflexivity|]. cbn.
      split; [apply lookup_insert_eq|]. split; [reflexivity|].
      rewrite <- !app_assoc. reflexivity.
Qed.

End AppFacts.

Lemma protectedRoute_guards_witness :
  protectedRouteRenders
    {| isInitialized := true; state_isAuthenticated := false;
       currentUser := None; userPreferences := None; theme := System;
       isOnline := true; lastActivity := 0 |}
    (helperAt "/history/42") = false
  /\ exists b',
      protectedRouteEffect
        {| isInitialized := true; state_isAuthenticated := false;
           currentUser := None; userPreferences := None; theme := System;
           isOnline := true; lastActivity := 0 |}
        (helperAt "/history/42") (exampleBrowser ∅ FetchPending)
      = (Returns tt, b')
      /\ sessionStorage b' !! "intendedPath" = Some "/history/42".
Proof.
  destruct (proj2 (protectedRoute_guards (P := ExamplePayload)
                     {| isInitialized := true; state_isAuthenticated := false;
                        currentUser := None; userPreferences := None;
                        theme := System; isOnline := true; lastActivity := 0 |}
                     (helperAt "/history/42"))
              "/history" "/42") as [Hrender Heffect].
  - cbn. auto.
  - reflexivity.
  - reflexivity.
  - split; [exact Hrender|].
    destruct (Heffect eq_refl (exampleBrowser ∅ FetchPending))
      as (b' & Hrun & Hsession & _).
    exists b'. split; [exact Hrun|exact Hsession].
Defined.

Section AppSessionFacts.
Context `{JsonRuntime} (baseUrl : string) {P : Type}.
Context (profileOf : P -> ProfileData) (preferencesOf : P -> UserPreferences).

Lemma getCurrentUser_run (w : World ProfileData) :
  exists result w',
    getCurrentUser baseUrl w = (Returns result, w')
    /\ localStorage w' = localStorage w.
Proof.
  unfold getCurrentUser, tryCatch, mbind, M_bind, reads, get.
  cbn [fst snd].
  destruct (truthy (getToken (localStorage w))); cbn [negb].
  - rewrite request_run. cbn [fst snd].
    destruct (settled _) as [[|envelope]|error];
      cbn [envelopeOf throw];
      unfold consoleError, emit, mret, M_ret.
    + eexists _, _. split; reflexivity.
    + destruct (success envelope); [destruct (data envelope) as [d|]|].
      * destruct (profile_user d); eexists _, _; split; reflexivity.
      * eexists _, _. split; reflexivity.
      * eexists _, _. split; reflexivity.
    + eexists _, _. split; reflexivity.
  - unfold mret, M_ret. eexists _, _. split; reflexivity.
Qed.

Lemma currentUser_run (w : World P) :
  exists result w',
    viewed profileOf (getCurrentUser baseUrl) w = (Returns result, w')
    /\ localStorage w' = localStorage w.
Proof.
  unfold viewed.
  destruct (getCurrentUser_run (viewWorld profileOf w))
    as (result & w' & -> & Hstorage).
  eexists _, _. split; [reflexivity|]. exact Hstorage.
Qed.

Lemma loadPreferences_run (w : World P) :
  exists outcome w',
    loadPreferences baseUrl preferencesOf w = (outcome, w')
    /\ localStorage w' = localStorage w.
Proof.
  unfold loadPreferences, viewed, getUserPreferences, tryCatch, get, mbind,
    M_bind.
  rewrite request_run. cbn [fst snd].
  destruct (settled _) as [[|envelope]|error];
    cbn [envelopeOf throw];
    unfold consoleError, emit, throw, mret, M_ret.
  - eexists _, _. split; reflexivity.
  - destruct (success envelope); [destruct (data envelope) as [d|]|];
      eexists _, _; split; reflexivity.
  - eexists _, _. split; reflexivity.
Qed.

Lemma handleLoginSuccess_run (now : Z) (user_ : User)
    (navigationHelper : NavigationHelper) (b : Browser P) :
  let welcome :=
    [Toast "Welcome back!"
       (Some ("Successfully logged in as " +:+ firstName user_ +:+ " "
              +:+ lastName user_))
       (Some "default");
     Info "User login successful"
       (Some (JObj [("userId", JStr (id user_)); ("email", JStr (email user_))]))]
    ++ navigationShown navigationHelper "/" in
  exists b',
    handleLoginSuccess baseUrl preferencesOf now user_ navigationHelper b
    = (Returns tt, b')
    /\ state_isAuthenticated (appState b') = true
    /\ currentUser (appState b') = Some user_
    /\ lastActivity (appState b') = now
    /\ isInitialized (appState b') = isInitialized (appState b)
    /\ isOnline (appState b') = isOnline (appState b)
    /\ localStorage (services b') = localStorage (services b)
    /\ timers b' = timers b
    /\ activityTimer b' = activityTimer b
    /\ nextTimerId b' = nextTimerId b
    /\ prefersDark b' = prefersDark b
    /\ match (loadPreferences baseUrl preferencesOf (services b)).1 with
       | Returns (Some d) =>
           userPreferences (appState b') = Some d
           /\ theme (appState b') = pref_theme d
           /\ darkClass b' = themeClass (pref_theme d) (prefersDark b)
           /\ shown b' = shown b ++ welcome
       | Returns None =>
           userPreferences (appState b') = userPreferences (appState b)
           /\ theme (appState b') = theme (appState b)
           /\ darkClass b' = darkClass b
           /\ shown b' = shown b ++ welcome
       | Throws error =>
           userPreferences (appState b') = userPreferences (appState b)
           /\ theme (appState b') = theme (appState b)
           /\ darkClass b' = darkClass b
           /\ shown b'
              = shown b
                ++ [Failure "Failed to load preferences after login" error]
                ++ welcome
       end.
Proof.
  intros welcome. subst welcome.
  destruct (loadPreferences_run (services b)) as (outcome & w' & Hrun & Hstorage).
  unfold handleLoginSuccess, appTryCatch, service, setState, mbind, AppM_bind.
  browser_simpl. rewrite Hrun. browser_simpl.
  destruct outcome as [[d|]|error].
  - unfold applyTheme, setState, matchesDark, toggleDark, showSuccessToast,
      logInfo, show, mbind, AppM_bind.
    destruct (pref_theme d) eqn:Htheme;
      cbn -[navigateTo]; rewrite navigateTo_run; cbn;
      (eexists; split; [reflexivity|]); cbn;
      rewrite <- ?app_assoc; repeat split; assumption.
  - unfold showSuccessToast, logInfo, show, mret, AppM_ret, mbind, AppM_bind.
    cbn -[navigateTo]. rewrite navigateTo_run. cbn.
    eexists. split; [reflexivity|]. cbn.
    rewrite <- ?app_assoc. repeat split; assumption.
  - unfold logError, showSuccessToast, logInfo, show, mret, AppM_ret, mbind,
      AppM_bind.
    cbn -[navigateTo]. rewrite navigateTo_run. cbn.
    eexists. split; [reflexivity|]. cbn.
    rewrite <- ?app_assoc. repeat split; assumption.
Qed.

(** [handleLoginSuccess] never fails, and never reports that the set-up
    after the login failed: whatever the network does, the state ends
    authenticated, with the user and with [lastActivity] at the present
    time, and the welcome is shown.  Preferences that could be loaded are
    stored and their theme is applied; otherwise the preferences, the theme
    and the class [dark] stay as they were, and when loading threw, the
    failure is logged.  [localStorage] is not written and the activity
    timer is not set again. *)
Theorem handleLoginSuccess_authenticates (now : Z) (user_ : User)
    (navigationHelper : NavigationHelper) (b : Browser P) :
  let welcome :=
    [Toast "Welcome back!"
       (Some ("Successfully logged in as " +:+ firstName user_ +:+ " "
              +:+ lastName user_))
       (Some "default");
     Info "User login successful"
       (Some (JObj [("userId", JStr (id user_)); ("email", JStr (email user_))]))]
    ++ navigationShown navigationHelper "/" in
  exists b',
    handleLoginSuccess baseUrl preferencesOf now user_ navigationHelper b
    = (Returns tt, b')
    /\ state_isAuthenticated (appState b') = true
    /\ currentUser (appState b') = Some user_
    /\ lastActivity (appState b') = now
    /\ isInitialized (appState b') = isInitialized (appState b)
    /\ isOnline (appState b') = isOnline (appState b)
    /\ localStorage (services b') = localStorage (services b)
    /\ timers b' = timers b
    /\ activityTimer b' = activityTimer b
    /\ match (loadPreferences baseUrl preferencesOf (services b)).1 with
       | Returns (Some d) =>
           userPreferences (appState b') = Some d
           /\ theme (appState b') = pref_theme d
           /\ darkClass b' = themeClass (pref_theme d) (prefersDark b)
           /\ shown b' = shown b ++ welcome
       | Returns None =>
           userPreferences (appState b') = userPreferences (appState b)
           /\ theme (appState b') = theme (appState b)
           /\ darkClass b' = darkClass b
           /\ shown b' = shown b ++ welcome
       | Throws error =>
           userPreferences (appState b') = userPreferences (appState b)
           /\ theme (appState b') = theme (appState b)
           /\ darkClass b' = darkClass b
           /\ shown b'
              = shown b
                ++ [Failure "Failed to load preferences after login" error]
                ++ welcome
       end.
Proof.
  intros welcome.
  destruct (handleLoginSuccess_run now user_ navigationHelper b)
    as (b' & ? & ? & ? & ? & ? & ? & ? & ? & ? & _ & _ & ?).
  exists b'. repeat split; assumption.
Qed.
End AppSessionFacts.

Section InitializeFacts.
Context `{JsonRuntime} (baseUrl : string) {P : Type}.
Context (profileOf : P -> ProfileData) (preferencesOf : P -> UserPreferences).

Lemma isAuthenticated_reads {T} (w : World T) :
  exists outcome, isAuthenticated w = (outcome, w).
Proof.
  unfold isAuthenticated, getStoredUser, mbind, M_bind, reads, getItem.
  destruct (truthy (localStorage w !! USER_KEY)); [|eexists; reflexivity].
  destruct (JSON_parse _); eexists; reflexivity.
Qed.

Lemma handleAsyncOperation_kept {St T} (controllerName : string)
    (operation : St -> Completion T * St)
    (setLoading : option (LoadingState -> St -> Completion unit * St))
    (setError : option (ErrorState -> St -> Completion unit * St))
    (loadingMessage_ : option string) (s : St) (log : list UiEvent) :
  setterKeeps setLoading ->
  setterKeeps setError ->
  handleAsyncOperation controllerName operation setLoading setError
    loadingMessage_ (s, log)
  = let started :=
      whenPassed setLoading
        (SetLoading
           {| isLoading := true;
              loadingMessage := Some (default "Processing..." loadingMessage_);
              progress := None |})
      ++ whenPassed setError
           (SetError {| hasError := false; errorMessage_ := None;
                        errorCode := None; canRetry := false |}) in
    let stopped :=
      whenPassed setLoading
        (SetLoading {| isLoading := false; loadingMessage := None;
                       progress := None |}) in
    match operation s with
    | (Returns v, s') => (Returns (Some v), (s', log ++ started ++ stopped))
    | (Throws error, s') =>
        (Returns None,
         (s',
          log ++ started
          ++ [LogError controllerName "Async operation failed" error]
          ++ whenPassed setError
               (SetError
                  {| hasError := true;
                     errorMessage_ :=
                       Some (if instanceofError error then errorMessage error
                             else "An unexpected error occurred");
                     errorCode := Some (errorCodeOf error);
                     canRetry := true |})
          ++ stopped))
    end.
Proof.
  intros HL HE.
  destruct setLoading as [fl|], setError as [fe|];
    cbv beta iota zeta
      delta [handleAsyncOperation ctlTryCatch ctlBind callSetLoading
             callSetError ctlShow ctlCall ctlRet whenPassed fst snd];
    rewrite ?(HL fl eq_refl), ?(HE fe eq_refl); cbn [fst snd];
    rewrite ?(HL fl eq_refl), ?(HE fe eq_refl); cbn [fst snd];
    destruct (operation s) as [[v|error] s']; cbn [fst snd];
    rewrite ?(HL fl eq_refl), ?(HE fe eq_refl); cbn [fst snd];
    rewrite ?(HL fl eq_refl), ?(HE fe eq_refl); cbn [fst snd];
    rewrite ?app_nil_r, <- ?app_assoc; reflexivity.
Qed.

Lemma initializeApp_run
    (setLoading :
       option (LoadingState -> Browser P -> Completion unit * Browser P))
    (setError :
       option (ErrorState -> Browser P -> Completion unit * Browser P))
    (b : Browser P) (log : list UiEvent) :
  setterKeeps setLoading ->
  setterKeeps setError ->
  exists result b' log',
    initializeApp baseUrl profileOf preferencesOf setLoading setError (b, log)
    = (Returns result, (b', log ++ log'))
    /\ timers b' = timers b
    /\ activityTimer b' = activityTimer b
    /\ nextTimerId b' = nextTimerId b
    /\ prefersDark b' = prefersDark b
    /\ match (isAuthenticated (services b)).1 with
       | Throws error =>
           result = initializationFailed
           /\ appState b' = appState b
           /\ services b' = services b
           /\ darkClass b' = darkClass b
           /\ In (LogError "AppController" "Async operation failed" error) log'
           /\ shown b'
              = shown b
                ++ [Info "Starting application initialization" None;
                    Failure "Application initialization failed" error]
       | Returns false =>
           result
           = {| result_success := true; result_user := None;
                result_preferences := None; result_errors := Some [] |}
           /\ appState b' = withInitialized (appState b) true
           /\ services b' = services b
           /\ darkClass b' = themeClass (theme (appState b)) (prefersDark b)
       | Returns true =>
           result_success result = true
           /\ isInitialized (appState b') = true
           /\ darkClass b' = themeClass (theme (appState b')) (prefersDark b)
           /\ match (viewed profileOf (getCurrentUser baseUrl) (services b)).1 with
              | Returns (Some u) =>
                  state_isAuthenticated (appState b') = true
                  /\ currentUser (appState b') = Some u
                  /\ result_user result = Some u
                  /\ localStorage (services b') = localStorage (services b)
                  /\ (result_errors result = Some []
                      \/ result_errors result
                         = Some ["Failed to load user preferences"]
                         /\ result_preferences result = None)
                  /\ (forall d,
                         result_preferences result = Some d ->
                         userPreferences (appState b') = Some d
                         /\ theme (appState b') = pref_theme d)
              | _ =>
                  state_isAuthenticated (appState b') = false
                  /\ result_user result = None
                  /\ localStorage (services b')
                     = afterClearAuthData (localStorage (services b))
              end
       end.
Proof.
  intros HL HE.
  unfold initializeApp, ctlBind.
  rewrite (handleAsyncOperation_kept _ _ _ _ _ _ _ HL HE).
  cbv zeta.
  destruct b as [w [initialized authenticated0 user0 preferences0 theme0
                      online last]
                   handle pending next dark prefers session sh].
  destruct (isAuthenticated_reads w) as [authenticated Hauth].
  unfold initializeOperation.
  app_run. rewrite Hauth. app_run.
  destruct authenticated as [[|]|error].
  - (* a stored session *)
    destruct (currentUser_run baseUrl profileOf w)
      as (current & w1 & Hcurrent & Hstorage1).
    rewrite Hcurrent. app_run.
    destruct current as [u|].
    + destruct (loadPreferences_run baseUrl preferencesOf w1)
        as (outcome & w2 & Hload & Hstorage2).
      rewrite Hload. app_run.
      destruct outcome as [[d|]|error].
      * destruct (pref_theme d) eqn:Htheme;
          eexists _, _, _; (split; [reflexivity|]); app_run;
          cbn [themeClass];
          repeat split; try congruence; auto;
          intros d' Hd'; injection Hd' as <-; auto.
      * destruct theme0;
          eexists _, _, _; (split; [reflexivity|]); app_run;
          cbn [themeClass];
          repeat split; try congruence; auto; discriminate.
      * destruct theme0;
          eexists _, _, _; (split; [reflexivity|]); app_run;
          cbn [themeClass];
          repeat split; try congruence; auto; discriminate.
    + destruct (logout_run baseUrl w1) as (w2 & Hlogout & Hstorage2).
      rewrite Hlogout. app_run.
      destruct theme0;
        eexists _, _, _; (split; [reflexivity|]); app_run;
        cbn [themeClass];
        repeat split; congruence.
  - (* no stored session *)
    destruct theme0;
      eexists _, _, _; (split; [reflexivity|]); app_run;
      cbn [themeClass]; repeat split.
  - (* the stored user record is not JSON *)
    eexists _, _, _. split; [reflexivity|]. app_run.
    repeat split.
    + apply in_or_app. right. apply in_or_app. left. left. reflexivity.
    + rewrite <- app_assoc. reflexivity.
Qed.

(** With setters that set the state of a component, [initializeApp] never
    throws, and it fails in one case only: when reading the stored session
    throws, which is when the stored user record is not JSON text.  Then
    the result is the one of a failed initialization, the state stays
    uninitialized as it was, and the error is logged.  In every other case,
    whatever the network does, the result has [success] true, the state is
    initialized and the class [dark] is the one of the theme.  Without a
    stored session no request is made.  With one, the user of the profile
    becomes the current user; when no profile can be got, the stored
    session is removed and the state is not authenticated.  A failure to
    load the preferences is recorded in the result and does not fail the
    initialization. *)
Theorem initializeApp_outcomes
    (setLoading :
       option (LoadingState -> Browser P -> Completion unit * Browser P))
    (setError :
       option (ErrorState -> Browser P -> Completion unit * Browser P))
    (b : Browser P) (log : list UiEvent) :
  setterKeeps setLoading ->
  setterKeeps setError ->
  exists result b' log',
    initializeApp baseUrl profileOf preferencesOf setLoading setError (b, log)
    = (Returns result, (b', log ++ log'))
    /\ timers b' = timers b
    /\ activityTimer b' = activityTimer b
    /\ match (isAuthenticated (services b)).1 with
       | Throws error =>
           result = initializationFailed
           /\ appState b' = appState b
           /\ services b' = services b
           /\ darkClass b' = darkClass b
           /\ In (LogError "AppController" "Async operation failed" error) log'
           /\ shown b'
              = shown b
                ++ [Info "Starting application initialization" None;
                    Failure "Application initialization failed" error]
       | Returns false =>
           result
           = {| result_success := true; result_user := None;
                result_preferences := None; result_errors := Some [] |}
           /\ appState b' = withInitialized (appState b) true
           /\ services b' = services b
           /\ darkClass b' = themeClass (theme (appState b)) (prefersDark b)
       | Returns true =>
           result_success result = true
           /\ isInitialized (appState b') = true
           /\ darkClass b' = themeClass (theme (appState b')) (prefersDark b)
           /\ match (viewed profileOf (getCurrentUser baseUrl) (services b)).1 with
              | Returns (Some u) =>
                  state_isAuthenticated (appState b') = true
                  /\ currentUser (appState b') = Some u
                  /\ result_user result = Some u
                  /\ localStorage (services b') = localStorage (services b)
                  /\ (result_errors result = Some []
                      \/ result_errors result
                         = Some ["Failed to load user preferences"]
                         /\ result_preferences result = None)
                  /\ (forall d,
                         result_preferences result = Some d ->
                         userPreferences (appState b') = Some d
                         /\ theme (appState b') = pref_theme d)
              | _ =>
                  state_isAuthenticated (appState b') = false
                  /\ result_user result = None
                  /\ localStorage (services b')
                     = afterClearAuthData (localStorage (services b))
              end
       end.
Proof.
  intros HL HE.
  destruct (initializeApp_run setLoading setError b log HL HE)
    as (result & b' & log' & ? & ? & ? & _ & _ & ?).
  exists result, b', log'. repeat split; assumption.
Qed.
End InitializeFacts.

Lemma initializeApp_outcomes_witness :
  exists b' log',
    initializeApp exampleBaseUrl fst snd (Some componentSetter)
      (Some componentSetter) (brokenSessionBrowser, [])
    = (Returns initializationFailed, (b', log'))
    /\ isInitialized (appState b') = false.
Proof.
  assert (Hkeeps : forall X,
             setterKeeps (St := Browser ExamplePayload) (X := X)
               (Some componentSetter)).
  { intros X f Hf x s. injection Hf as <-. reflexivity. }
  destruct (initializeApp_outcomes exampleBaseUrl fst snd
              (Some componentSetter) (Some componentSetter)
              brokenSessionBrowser [] (Hkeeps _) (Hkeeps _))
    as (result & b' & log' & Hrun & _ & _ & Hcase).
  match type of Hcase with
  | match ?outcome with _ => _ end =>
      assert (Hthrows :
                outcome = Throws (ThrownError "SyntaxError" syntaxErrorMessage))
        by reflexivity;
      rewrite Hthrows in Hcase
  end.
  destruct Hcase as (-> & Hstate & _).
  exists b', log'. split; [exact Hrun|].
  rewrite Hstate. reflexivity.
Defined.

Section TimerFacts.
Context `{JsonRuntime} (baseUrl : string) {P : Type}.
Context (profileOf : P -> ProfileData) (preferencesOf : P -> UserPreferences).







End TimerFacts.



(** ** AnalysisService *)

Section AnalysisFacts.
Context `{JsonRuntime} (baseUrl : string) {T : Type}.

Lemma numberParam_keys (key : string) (value : option Z) :
  sublist (map fst (numberParam key value)) [key].
Proof.
  unfold numberParam. destruct value as [n|]; [destruct (negb (n =? 0))|];
    cbn; repeat constructor.
Qed.

Lemma stringParam_keys (key : string) (value : option string) :
  sublist (map fst (stringParam key value)) [key].
Proof.
  unfold stringParam. destruct (truthy value); cbn; repeat constructor.
Qed.

Lemma numberParam_kept (key : string) (value : option Z) :
  length (keptParams (numberParam key value)) = length (numberParam key value).
Proof.
  unfold numberParam. destruct value as [n|]; [destruct (negb (n =? 0))|];
    reflexivity.
Qed.

Lemma stringParam_kept (key : string) (value : option string) :
  length (keptParams (stringParam key value)) = length (stringParam key value).
Proof.
  unfold stringParam. destruct value as [s|]; cbn; [|reflexivity].
  destruct (truthyString s); reflexivity.
Qed.

Lemma keptParams_app (a c : list (string * option string)) :
  keptParams (a ++ c) = keptParams a ++ keptParams c.
Proof. unfold keptParams. apply omap_app. Qed.

Lemma historyParams_keys (query : AnalysisHistoryQuery) :
  sublist (map fst (historyParams query))
    ["page"; "limit"; "sortBy"; "sortDirection"; "status"; "dateFrom";
     "dateTo"].
Proof.
  unfold historyParams. rewrite !map_app.
  change ["page"; "limit"; "sortBy"; "sortDirection"; "status"; "dateFrom";
          "dateTo"]
    with (["page"] ++ ["limit"] ++ ["sortBy"] ++ ["sortDirection"]
          ++ ["status"] ++ ["dateFrom"] ++ ["dateTo"]).
  repeat (apply sublist_app;
          [first [apply numberParam_keys|apply stringParam_keys]|]).
  apply stringParam_keys.
Qed.

(** [getAnalysisHistory] makes one GET of /analysis/history, without a
    body, and ends as that request ends; what the request throws is logged
    once and thrown on as it is.  The parameters go out in the order page,
    limit, sortBy, sortDirection, status, dateFrom, dateTo, each at most
    once and each with its value; a page is sent exactly when it is a number
    other than zero, so neither page 0 nor a missing page is ever sent; and
    with no parameter left the URL has no query. *)
Theorem getAnalysisHistory_request (query : AnalysisHistoryQuery)
    (w : World T) :
  (exists requestConfig logs,
      events (getAnalysisHistory baseUrl (Some query) w).2
      = events w
        ++ [EvSetTimeout defaultTimeout;
            EvFetch
              (buildUrl baseUrl "/analysis/history" (Some (historyParams query)))
              requestConfig]
        ++ logs
      /\ init_method requestConfig = GET
      /\ init_body requestConfig = None
      /\ (getAnalysisHistory baseUrl (Some query) w).1
         = (get baseUrl "/analysis/history" (Some (historyParams query))
              noOptions w).1
      /\ logs
         = match (getAnalysisHistory baseUrl (Some query) w).1 with
           | Returns _ => []
           | Throws error =>
               [EvConsoleError "Get analysis history error:" error]
           end)
  /\ sublist (map fst (historyParams query))
       ["page"; "limit"; "sortBy"; "sortDirection"; "status"; "dateFrom";
        "dateTo"]
  /\ length (keptParams (historyParams query)) = length (historyParams query)
  /\ (In "page" (map fst (historyParams query))
      <-> exists n, query_page query = Some n /\ n <> 0)
  /\ (historyParams query = [] ->
      buildUrl baseUrl "/analysis/history" (Some (historyParams query))
      = baseUrl +:+ "/analysis/history").
Proof.
  split; [|split; [|split; [|split]]].
  - unfold getAnalysisHistory, tryCatch, get. cbn [default from_option].
    unfold Datatypes.id. rewrite request_run.
    cbn [fst snd timeout params noOptions default from_option].
    destruct (settled _) as [parsed|error];
      unfold consoleError, emit, throw, mbind, M_bind; cbn [fst snd events logged].
    + eexists _, []. rewrite app_nil_r.
      split; [reflexivity|]. repeat split.
    + eexists _, [_]. rewrite <- app_assoc.
      split; [reflexivity|]. repeat split.
  - apply historyParams_keys.
  - unfold historyParams.
    rewrite !keptParams_app, !length_app, !numberParam_kept, !stringParam_kept.
    reflexivity.
  - unfold historyParams. rewrite map_app, in_app_iff. split.
    + intros [Hpage|Hrest].
      * unfold numberParam in Hpage.
        destruct (query_page query) as [n|]; [|destruct Hpage].
        destruct (n =? 0) eqn:Hn; [destruct Hpage|].
        exists n. split; [reflexivity|]. apply Z.eqb_neq. exact Hn.
      * exfalso.
        assert (Hkeys :
                  sublist
                    (map fst
                       (numberParam "limit" (query_limit query)
                        ++ stringParam "sortBy" (sortBy query)
                        ++ stringParam "sortDirection" (sortDirection query)
                        ++ stringParam "status" (query_status query)
                        ++ stringParam "dateFrom" (dateFrom query)
                        ++ stringParam "dateTo" (dateTo query)))
                    (["limit"] ++ ["sortBy"] ++ ["sortDirection"]
                     ++ ["status"] ++ ["dateFrom"] ++ ["dateTo"])).
        { rewrite !map_app.
          repeat (apply sublist_app;
                  [first [apply numberParam_keys|apply stringParam_keys]|]).
          apply stringParam_keys. }
        apply list_elem_of_In in Hrest.
        apply (fun Hin => elem_of_sublist _ _ _ Hin Hkeys) in Hrest.
        apply list_elem_of_In in Hrest. cbn in Hrest.
        repeat (destruct Hrest as [Hrest|Hrest]; [discriminate Hrest|]).
        exact Hrest.
    + intros (n & Hpage & Hn). left. unfold numberParam. rewrite Hpage.
      replace (n =? 0) with false by (symmetry; apply Z.eqb_neq; exact Hn).
      left. reflexivity.
  - intros ->. unfold buildUrl. reflexivity.
Qed.

(** [uploadAndAnalyze] makes one POST of /analysis/upload with a form:
    first the resume, then the job description, under [jobDescription] when
    it is a file and under [jobDescriptionText] when it is text, then at
    most the entries [jobTitle], [companyName] and [analysisType], in this
    order and none with an empty value, and last the two flags, which are
    sent as true unless they were given as false.
    The request has no [Content-Type] header and carries the stored token,
    if there is one.  It ends as the request ends; what the request throws
    is logged once and thrown on as it is. *)
Theorem uploadAndAnalyze_sends_form (uploadData : AnalysisUploadRequest)
    (w : World T) :
  (exists requestConfig logs,
      events (uploadAndAnalyze baseUrl uploadData w).2
      = events w
        ++ [EvSetTimeout defaultTimeout;
            EvFetch (buildUrl baseUrl "/analysis/upload" None) requestConfig]
        ++ logs
      /\ init_method requestConfig = POST
      /\ init_body requestConfig = Some (SentFormData (uploadForm uploadData))
      /\ init_headers requestConfig !! "Content-Type" = None
      /\ init_headers requestConfig !! "Authorization"
         = (if truthy (getToken (localStorage w))
            then Some ("Bearer " +:+ default "" (getToken (localStorage w)))
            else None)
      /\ (uploadAndAnalyze baseUrl uploadData w).1
         = (post baseUrl "/analysis/upload"
              (Some (BodyFormData (uploadForm uploadData))) noOptions w).1
      /\ logs
         = match (uploadAndAnalyze baseUrl uploadData w).1 with
           | Returns _ => []
           | Throws error => [EvConsoleError "Analysis upload error:" error]
           end)
  /\ (exists middle,
      uploadForm uploadData
      = [("resume", resume uploadData);
         match jobDescription uploadData with
         | DescriptionFile file => ("jobDescription", file)
         | DescriptionText text => ("jobDescriptionText", text)
         end]
        ++ middle
        ++ [("includeSkillSuggestions",
             if bool_decide (includeSkillSuggestions uploadData = Some false)
             then "false" else "true");
            ("includeExperienceGaps",
             if bool_decide (includeExperienceGaps uploadData = Some false)
             then "false" else "true")]
      /\ Forall (fun entry => entry.2 <> "") middle
      /\ sublist (map fst middle) ["jobTitle"; "companyName"; "analysisType"]).
Proof.
  split.
  - unfold uploadAndAnalyze, tryCatch, post. rewrite request_run.
    cbn [fst snd timeout params noOptions default from_option].
    assert (Hconfig :
              forall requestConfig,
                requestConfig
                = configOf
                    {| method := Some POST; headers := None;
                       body := Some (BodyFormData (uploadForm uploadData));
                       params := None; requireAuth := None; timeout := None |}
                    (localStorage w) ->
                init_method requestConfig = POST
                /\ init_body requestConfig
                   = Some (SentFormData (uploadForm uploadData))
                /\ init_headers requestConfig !! "Content-Type" = None
                /\ init_headers requestConfig !! "Authorization"
                   = (if truthy (getToken (localStorage w))
                      then Some ("Bearer "
                                 +:+ default "" (getToken (localStorage w)))
                      else None)).
    { intros requestConfig ->.
      unfold configOf, attachBody, prepareHeaders.
      cbn [method body headers requireAuth default from_option
           Datatypes.id truthyBody Method_eqb negb andb init_method init_body
           init_headers fst snd].
      rewrite bool_decide_eq_false_2 by discriminate. cbn [negb].
      split; [reflexivity|]. split; [reflexivity|].
      split; [apply lookup_delete_eq|].
      rewrite !lookup_delete_ne by discriminate.
      rewrite !lookup_union, getAuthHeaders_authorization.
      rewrite !lookup_empty.
      destruct (truthy (getToken (localStorage w))); reflexivity. }
    destruct (settled _) as [parsed|error];
      unfold consoleError, emit, throw, mbind, M_bind;
      cbn [fst snd events logged].
    + eexists _, []. rewrite app_nil_r.
      split; [reflexivity|].
      destruct (Hconfig _ eq_refl) as (? & ? & ? & ?). repeat split; assumption.
    + eexists _, [_]. rewrite <- app_assoc.
      split; [reflexivity|].
      destruct (Hconfig _ eq_refl) as (? & ? & ? & ?). repeat split; assumption.
  - exists (formField "jobTitle" (jobTitle uploadData)
            ++ formField "companyName" (companyName uploadData)
            ++ formField "analysisType" (analysisType uploadData)).
    assert (Hfield : forall key value,
               Forall (fun entry : string * string => entry.2 <> "")
                 (formField key value)
               /\ sublist (map fst (formField key value)) [key]).
    { intros key value. unfold formField.
      destruct value as [s|]; cbn; [|split; repeat constructor].
      destruct (truthyString s) eqn:Hs; cbn; split; repeat constructor.
      cbn. intros ->. discriminate Hs. }
    split; [|split].
    + unfold uploadForm, flagText. rewrite <- !app_assoc.
      destruct (includeSkillSuggestions uploadData) as [[|]|],
        (includeExperienceGaps uploadData) as [[|]|]; reflexivity.
    + repeat (apply Forall_app; split); apply Hfield.
    + rewrite !map_app.
      change ["jobTitle"; "companyName"; "analysisType"]
        with (["jobTitle"] ++ ["companyName"] ++ ["analysisType"]).
      repeat (apply sublist_app; [apply Hfield|]). apply Hfield.
Qed.
End AnalysisFacts.

(** ** UserService *)

Section UserFacts.
Context `{JsonRuntime} (baseUrl : string) {T : Type}.

(** [deleteAccount] makes one DELETE of /user/account whose body is the
    JSON text of the confirmation token, declared as JSON, with the stored
    token as [Authorization], if there is one.  It ends as the request
    ends; what the request throws is logged once and thrown on as it
    is. *)
Theorem deleteAccount_sends_token (confirmationToken : string) (w : World T) :
  let options :=
    {| method := None; headers := None;
       body := Some (BodyJson
                       (JObj [("confirmationToken", JStr confirmationToken)]));
       params := None; requireAuth := None; timeout := None |} in
  exists requestConfig logs,
    events (deleteAccount baseUrl confirmationToken w).2
    = events w
      ++ [EvSetTimeout defaultTimeout;
          EvFetch (buildUrl baseUrl "/user/account" None) requestConfig]
      ++ logs
    /\ init_method requestConfig = DELETE
    /\ init_body requestConfig
       = Some (SentText
                 (JSON_stringify
                    (JObj [("confirmationToken", JStr confirmationToken)])))
    /\ init_headers requestConfig !! "Content-Type" = Some "application/json"
    /\ init_headers requestConfig !! "Authorization"
       = (if truthy (getToken (localStorage w))
          then Some ("Bearer " +:+ default "" (getToken (localStorage w)))
          else None)
    /\ (deleteAccount baseUrl confirmationToken w).1
       = (delete_ baseUrl "/user/account" options w).1
    /\ logs
       = match (deleteAccount baseUrl confirmationToken w).1 with
         | Returns _ => []
         | Throws error => [EvConsoleError "Delete account error:" error]
         end.
Proof.
  intros options. subst options.
  unfold deleteAccount, tryCatch, delete_. rewrite request_run.
  cbn [fst snd timeout params headers body requireAuth default from_option].
  assert (Hconfig :
            forall requestConfig,
              requestConfig
              = configOf
                  {| method := Some DELETE; headers := None;
                     body := Some (BodyJson
                                     (JObj [("confirmationToken",
                                             JStr confirmationToken)]));
                     params := None; requireAuth := None; timeout := None |}
                  (localStorage w) ->
              init_method requestConfig = DELETE
              /\ init_body requestConfig
                 = Some (SentText
                           (JSON_stringify
                              (JObj [("confirmationToken",
                                      JStr confirmationToken)])))
              /\ init_headers requestConfig !! "Content-Type"
                 = Some "application/json"
              /\ init_headers requestConfig !! "Authorization"
                 = (if truthy (getToken (localStorage w))
                    then Some ("Bearer "
                               +:+ default "" (getToken (localStorage w)))
                    else None)).
  { intros requestConfig ->.
    unfold configOf, attachBody, prepareHeaders.
    cbn [method body headers requireAuth default from_option
         Datatypes.id truthyBody truthyJson Method_eqb negb andb init_method
         init_body init_headers fst snd].
    rewrite bool_decide_eq_false_2 by discriminate. cbn [negb].
    split; [reflexivity|]. split; [reflexivity|].
    rewrite !lookup_union, getAuthHeaders_authorization.
    rewrite (getAuthHeaders_other _ "Content-Type") by discriminate.
    rewrite !lookup_empty.
    split; [reflexivity|].
    destruct (truthy (getToken (localStorage w))); reflexivity. }
  destruct (settled _) as [parsed|error];
    unfold consoleError, emit, throw, mbind, M_bind;
    cbn [fst snd events logged].
  - eexists _, []. rewrite app_nil_r.
    split; [reflexivity|].
    destruct (Hconfig _ eq_refl) as (? & ? & ? & ?). repeat split; assumption.
  - eexists _, [_]. rewrite <- app_assoc.
    split; [reflexivity|].
    destruct (Hconfig _ eq_refl) as (? & ? & ? & ?). repeat split; assumption.
Qed.
End UserFacts.

(** ** BaseApiService: the query can be read back *)

Lemma splitOn_clean (c : ascii) (x : string) :
  countChar c x = 0%nat -> splitOn c x = [x].
Proof.
  induction x as [|d x IH]; [reflexivity|]. cbn [countChar splitOn].
  destruct (Ascii.eqb c d); [discriminate|]. intros Hx.
  rewrite IH by exact Hx. reflexivity.
Qed.

Lemma splitOn_append (c : ascii) (x rest : string) :
  countChar c x = 0%nat ->
  splitOn c (x +:+ String c rest) = x :: splitOn c rest.
Proof.
  induction x as [|d x IH].
  - intros _. change ("" +:+ String c rest) with (String c rest).
    cbn [splitOn]. rewrite Ascii.eqb_refl. reflexivity.
  - change (String d x +:+ String c rest) with (String d (x +:+ String c rest)).
    cbn [countChar splitOn].
    destruct (Ascii.eqb c d); [discriminate|]. intros Hx.
    rewrite IH by exact Hx. reflexivity.
Qed.

Lemma string_append_assoc (a c d : string) :
  (a +:+ c) +:+ d = a +:+ (c +:+ d).
Proof.
  induction a as [|x a IH]; [reflexivity|].
  change (String x a +:+ c) with (String x (a +:+ c)).
  change (String x (a +:+ c) +:+ d) with (String x ((a +:+ c) +:+ d)).
  rewrite IH. reflexivity.
Qed.

Lemma string_append_cancel (a x y : string) :
  a +:+ x = a +:+ y -> x = y.
Proof.
  induction a as [|c a IH]; [exact (fun Heq => Heq)|].
  change (String c a +:+ x) with (String c (a +:+ x)).
  change (String c a +:+ y) with (String c (a +:+ y)).
  intros Heq. injection Heq as Heq. exact (IH Heq).
Qed.

Lemma string_append_empty (a : string) : a +:+ "" = a.
Proof.
  induction a as [|c a IH]; [reflexivity|].
  change (String c a +:+ "") with (String c (a +:+ "")).
  rewrite IH. reflexivity.
Qed.

Lemma readParam_encoded (key value : string) :
  readParam (encodeURIComponent key +:+ "=" +:+ encodeURIComponent value)
  = (key, value).
Proof.
  unfold readParam.
  change ("=" +:+ encodeURIComponent value)
    with (String "=" (encodeURIComponent value)).
  rewrite splitOn_append by apply encodeURIComponent_no_delimiter.
  rewrite splitOn_clean by apply encodeURIComponent_no_delimiter.
  rewrite !percentDecode_encodeURIComponent. reflexivity.
Qed.

Lemma readQuery_encoded (kept : list (string * string)) :
  kept <> [] ->
  readQuery
    (String.concat "&"
       (map (fun '(key, value) =>
               encodeURIComponent key +:+ "=" +:+ encodeURIComponent value)
          kept))
  = kept.
Proof.
  induction kept as [|[key value] kept IH]; [congruence|]. intros _.
  assert (Hclean :
            countChar "&"
              (encodeURIComponent key +:+ "=" +:+ encodeURIComponent value)
            = 0%nat).
  { rewrite !countChar_append.
    destruct (encodeURIComponent_no_delimiter key) as [-> _].
    destruct (encodeURIComponent_no_delimiter value) as [-> _].
    reflexivity. }
  unfold readQuery in *.
  destruct kept as [|next kept].
  - cbn [map String.concat]. rewrite splitOn_clean by exact Hclean.
    cbn [map]. rewrite readParam_encoded. reflexivity.
  - cbn [map String.concat] in *.
    match goal with
    | |- context [?pair +:+ "&" +:+ ?rest] =>
        change (pair +:+ "&" +:+ rest) with (pair +:+ String "&" rest)
    end.
    rewrite splitOn_append by exact Hclean.
    cbn [map]. rewrite readParam_encoded. f_equal.
    apply IH. discriminate.
Qed.

Lemma buildUrl_shape (b e : string) (entries : list (string * option string)) :
  buildUrl b e (Some entries)
  = buildUrl b e None
    +:+ match keptParams entries with
        | [] => ""
        | kept =>
            "?"
            +:+ String.concat "&"
                  (map (fun '(key, value) =>
                          encodeURIComponent key +:+ "="
                          +:+ encodeURIComponent value)
                     kept)
        end.
Proof.
  unfold buildUrl.
  destruct entries as [|entry entries];
    [symmetry; apply string_append_empty|].
  fold (keptParams (entry :: entries)).
  destruct (keptParams (entry :: entries)) as [|kv kept] eqn:Hkept.
  - cbn [map String.concat truthyString String.eqb negb].
    symmetry. apply string_append_empty.
  - destruct (query_counts (kv :: kept)) as [_ He]; [discriminate|].
    match goal with
    | |- context [truthyString ?q] =>
        assert (Hq : truthyString q = true)
    end.
    { apply truthyString_true. intros Hempty.
      rewrite Hempty in He. discriminate. }
    rewrite Hq. reflexivity.
Qed.

(** The query that [buildUrl] appends loses nothing: read back by
    splitting at [&] and [=] and undoing the percent-encoding, it gives the
    parameters that have a value, with their keys and values, in their
    order, whatever characters they hold.  So two sets of parameters give
    the same URL only when they hold the same parameters with a value. *)
Theorem buildUrl_query_reads_back (b e : string)
    (entries : list (string * option string)) :
  match keptParams entries with
  | [] => buildUrl b e (Some entries) = buildUrl b e None
  | kept =>
      exists q,
        buildUrl b e (Some entries) = buildUrl b e None +:+ "?" +:+ q
        /\ readQuery q = kept
  end
  /\ forall others,
      buildUrl b e (Some entries) = buildUrl b e (Some others) ->
      keptParams entries = keptParams others.
Proof.
  split.
  - rewrite buildUrl_shape.
    destruct (keptParams entries) as [|kv kept];
      [apply string_append_empty|].
    eexists. split; [reflexivity|].
    apply readQuery_encoded. discriminate.
  - intros others. rewrite !buildUrl_shape. intros Heq.
    apply string_append_cancel in Heq.
    destruct (keptParams entries) as [|kv kept],
      (keptParams others) as [|kv' kept'];
      try reflexivity; try discriminate Heq.
    apply string_append_cancel in Heq.
    rewrite <- (readQuery_encoded (kv :: kept)) by discriminate.
    rewrite <- (readQuery_encoded (kv' :: kept')) by discriminate.
    rewrite Heq. reflexivity.
Qed.
